(** * LoRA training job lifecycle of the fashion-agent dashboard

    A shallow embedding of
      - [src/agents/lora-trainer.ts]            (startLoRATraining,
        checkTrainingStatus, waitForTrainingCompletion, generateTriggerWord),
      - the train-lora route, [src/unnamed/part_012] (POST, GET),
      - [src/app/api/models/poll-training/route.ts] (POST),
      - [src/components/model/ModelLoRATrain.tsx] (pollTrainingStatus),
      - [supabase/migrations/001_initial_schema.sql] and
        [002_lora_training.sql] (the two tables and their triggers).

    Conventions.
      - The two tables are finite maps from the row id to the row.
      - A JavaScript value that may be [undefined] or [null] is an [option];
        truthiness of strings is spelled out ([truthy]). A string is a text
        that the database can store, given by the bytes of its UTF-8 form.
      - Everything the handlers obtain from outside (the provider's reply,
        random numbers, generated uuids, the clocks, the engine's
        toUpperCase) is an explicit environment argument.
      - Each handler is a function from the store to the store ([step],
        [run]: calls that do not overlap). The poll route is also given in
        its two halves, before and after it awaits the provider
        ([poll_read], [poll_write]), and [play] lets other calls run
        between them.
      - The database is reachable. An insert is rejected when the
        environment says so (a violated constraint of a column, a duplicate
        code) or when a key is taken or dangling; an update of an existing
        row is applied unless a value it assigns violates the constraint of
        its column ([Job.accepts]); the rows of the tables are rows that
        the database has accepted. *)

From Stdlib Require Import ZArith NArith List Ascii String Lia.
From Stdlib Require QArith_base.
From stdpp Require Import base option gmap strings list fin_maps pretty.

Local Open Scope string_scope.

Local Open Scope Z_scope.

(* ================================================================== *)
(** ** JavaScript helpers *)
(* ================================================================== *)

(** Truthiness of a possibly missing string: [undefined], [null] and the
    empty string are falsy. *)
Definition truthy (o : option string) : bool :=
  match o with
  | Some s => negb (String.eqb s "")
  | None => false
  end.

(** [a || b] on possibly missing strings. *)
Definition js_or (a b : option string) : option string :=
  if truthy a then a else b.

(** [a || s] with a string literal on the right. *)
Definition js_or_default (a : option string) (s : string) : string :=
  match a with
  | Some x => if String.eqb x "" then s else x
  | None => s
  end.

(** [n || d] on possibly missing numbers: [0] is falsy. *)
Definition js_or_num (a : option N) (d : N) : N :=
  match a with
  | Some x => if N.eqb x 0 then d else x
  | None => d
  end.

Definition js_or_rate (a : option QArith_base.Q) (d : QArith_base.Q)
  : QArith_base.Q :=
  match a with
  | Some x => if Z.eqb (QArith_base.Qnum x) 0 then d else x
  | None => d
  end.

(** [a || b] on possibly missing arrays: every array is truthy. *)
Definition js_or_list {A} (a b : option (list A)) : option (list A) :=
  match a with
  | Some _ => a
  | None => b
  end.

(** The number of characters of a text, which is what the width of a
    VARCHAR column counts: the bytes of its UTF-8 form that do not continue
    a character. *)
Definition is_continuation (c : ascii) : bool :=
  let n := nat_of_ascii c in ((128 <=? n) && (n <? 192))%nat.

Fixpoint characters (s : string) : nat :=
  match s with
  | EmptyString => 0%nat
  | String c r => ((if is_continuation c then 0 else 1) + characters r)%nat
  end.

(* ================================================================== *)
(** ** Status vocabularies *)
(* ================================================================== *)

(** [LoRATrainingJob.status] and the CHECK constraint of the column. *)
Inductive JobStatus :=
  pending | uploading | training | completed | failed | cancelled.

#[global] Instance JobStatus_eq_dec : EqDecision JobStatus.
Proof. solve_decision. Defined.

(** [LoRATrainingStatus.status], the provider's vocabulary. *)
Module Replicate.
Inductive Status := starting | processing | succeeded | failed | canceled.

#[global] Instance Status_eq_dec : EqDecision Status.
Proof. solve_decision. Defined.

(** The status as it is interpolated into a template string. *)
Definition to_string (s : Status) : string :=
  match s with
  | starting => "starting"
  | processing => "processing"
  | succeeded => "succeeded"
  | failed => "failed"
  | canceled => "canceled"
  end.
End Replicate.

Definition JobStatus_to_string (s : JobStatus) : string :=
  match s with
  | pending => "pending"
  | uploading => "uploading"
  | training => "training"
  | completed => "completed"
  | failed => "failed"
  | cancelled => "cancelled"
  end.

(** The test of poll-training/route.ts line 43. *)
Definition is_terminal (s : JobStatus) : bool :=
  match s with
  | completed | failed | cancelled => true
  | _ => false
  end.

(** Position of a status on the path
    pending -> uploading -> training -> {completed, failed, cancelled}. *)
Definition rank (s : JobStatus) : nat :=
  match s with
  | pending => 0
  | uploading => 1
  | training => 2
  | completed | failed | cancelled => 3
  end.

(** [training.output], typed [any]: absent, a string, or an object of which
    the code reads [weights], [version] and [images]. *)
Inductive Output :=
| OutAbsent
| OutString (s : string)
| OutObject (weights version : option string) (images : option (list string)).

(* ================================================================== *)
(** ** Rows *)
(* ================================================================== *)
Inductive Gender := male | female | non_binary.

Module Model.
(** A row of [ai_models] (the columns the training code touches). *)
Record t := mk {
  id : string;
  model_code : string;
  name : string;
  gender : Gender;
  base_image_url : string;
  thumbnail_url : option string;
  is_active : bool;
  updated_at : string;
  lora_training_job_id : option string;
  lora_trigger_word : option string;
  lora_weights_url : option string;
  has_lora_training : bool
}.

(** The object handed to [.update(...)]; a missing or [undefined] key
    leaves its column alone. *)
Record patch := mkPatch {
  p_has_lora_training : option bool;
  p_lora_training_job_id : option string;
  p_lora_trigger_word : option string;
  p_lora_weights_url : option string;
  p_is_active : option bool
}.

Definition apply (p : patch) (m : t) : t :=
  {| id := id m;
     model_code := model_code m;
     name := name m;
     gender := gender m;
     base_image_url := base_image_url m;
     thumbnail_url := thumbnail_url m;
     is_active := default (is_active m) (p_is_active p);
     updated_at := updated_at m;
     lora_training_job_id :=
       from_option Some (lora_training_job_id m) (p_lora_training_job_id p);
     lora_trigger_word :=
       from_option Some (lora_trigger_word m) (p_lora_trigger_word p);
     lora_weights_url :=
       from_option Some (lora_weights_url m) (p_lora_weights_url p);
     has_lora_training := default (has_lora_training m) (p_has_lora_training p) |}.

(** Trigger [ai_models_updated_at]: BEFORE UPDATE, [updated_at = NOW()]. *)
Definition update_updated_at (db_now : string) (m : t) : t :=
  {| id := id m;
     model_code := model_code m;
     name := name m;
     gender := gender m;
     base_image_url := base_image_url m;
     thumbnail_url := thumbnail_url m;
     is_active := is_active m;
     updated_at := db_now;
     lora_training_job_id := lora_training_job_id m;
     lora_trigger_word := lora_trigger_word m;
     lora_weights_url := lora_weights_url m;
     has_lora_training := has_lora_training m |}.
End Model.

Module Job.
(** A row of [lora_training_jobs]. *)
Record t := mk {
  id : string;
  model_id : string;
  training_images : list string;
  trigger_word : string;
  steps : N;
  learning_rate : QArith_base.Q;
  batch_size : N;
  resolution : N;
  replicate_training_id : option string;
  status : JobStatus;
  progress : Z;
  error_message : option string;
  lora_weights_url : option string;
  sample_images : option (list string);
  started_at : option string;
  completed_at : option string
}.

(** The object handed to [.update(...)] ([dbUpdate] in the poll route). *)
Record patch := mkPatch {
  p_status : option JobStatus;
  p_progress : option Z;
  p_replicate_training_id : option string;
  p_error_message : option string;
  p_lora_weights_url : option string;
  p_sample_images : option (list string);
  p_started_at : option string;
  p_completed_at : option string
}.

Definition apply (p : patch) (j : t) : t :=
  {| id := id j;
     model_id := model_id j;
     training_images := training_images j;
     trigger_word := trigger_word j;
     steps := steps j;
     learning_rate := learning_rate j;
     batch_size := batch_size j;
     resolution := resolution j;
     replicate_training_id :=
       from_option Some (replicate_training_id j) (p_replicate_training_id p);
     status := default (status j) (p_status p);
     progress := default (progress j) (p_progress p);
     error_message := from_option Some (error_message j) (p_error_message p);
     lora_weights_url :=
       from_option Some (lora_weights_url j) (p_lora_weights_url p);
     sample_images := from_option Some (sample_images j) (p_sample_images p);
     started_at := from_option Some (started_at j) (p_started_at p);
     completed_at := from_option Some (completed_at j) (p_completed_at p) |}.

(** What the columns accept of the values an update assigns:
    [replicate_training_id VARCHAR(100)] and
    [progress ... CHECK (progress >= 0 AND progress <= 100)].
    [status] is one of the six values of its CHECK by its type; the other
    columns that the handlers assign are TEXT, TEXT[] and TIMESTAMPTZ. *)
Definition accepts (p : patch) : bool :=
  from_option (fun s => (characters s <=? 100)%nat) true
    (p_replicate_training_id p)
  && from_option (fun x => (0 <=? x) && (x <=? 100)) true (p_progress p).
End Job.

(* ================================================================== *)
(** ** The store and what the handlers do to the outside *)
(* ================================================================== *)

(** Calls made by the handlers, most recent first ([ConsoleError] keeps the
    fixed text of the message). *)
Inductive Event :=
| DbInsertModel (row : Model.t)
| DbInsertJob (row : Job.t)
| DbUpdateJob (id : string) (p : Job.patch)
| DbUpdateModel (id : string) (p : Model.patch)
| TrainingsCreate (input_images : string) (trigger_word : string)
| TrainingsGet (trainingId : string)
| ConsoleError (msg : string).

(** [past] is a record of the run, not a part of the database: the earlier
    contents of [lora_training_jobs], most recent first; every write to a
    job row pushes the table as it was before the write. *)
Record World := mkWorld {
  jobs : gmap string Job.t;
  models : gmap string Model.t;
  log : list Event;
  past : list (gmap string Job.t)
}.

Definition emit (e : Event) (w : World) : World :=
  {| jobs := jobs w; models := models w; log := e :: log w; past := past w |}.

(** [UPDATE ai_models SET ... WHERE id = mid] with the BEFORE UPDATE
    trigger; no row, no change. *)
Definition sql_update_model (db_now : string) (mid : string)
    (f : Model.t -> Model.t) (ms : gmap string Model.t) : gmap string Model.t :=
  match ms !! mid with
  | Some m => <[mid := Model.update_updated_at db_now (f m)]> ms
  | None => ms
  end.

(** Trigger [lora_training_completed] with its function
    [update_model_on_lora_completion]: AFTER UPDATE on a job row whose new
    status is completed and whose old status was not. *)
Definition update_model_on_lora_completion (db_now : string)
    (old new : Job.t) (ms : gmap string Model.t) : gmap string Model.t :=
  if bool_decide (Job.status new = completed)
     && negb (bool_decide (Job.status old = completed))
  then
    sql_update_model db_now (Job.model_id new)
      (fun m =>
         {| Model.id := Model.id m;
            Model.model_code := Model.model_code m;
            Model.name := Model.name m;
            Model.gender := Model.gender m;
            Model.base_image_url := Model.base_image_url m;
            Model.thumbnail_url := Model.thumbnail_url m;
            Model.is_active := Model.is_active m;
            Model.updated_at := Model.updated_at m;
            Model.lora_training_job_id := Some (Job.id new);
            Model.lora_trigger_word := Some (Job.trigger_word new);
            Model.lora_weights_url := Job.lora_weights_url new;
            Model.has_lora_training := true |})
      ms
  else ms.

(** [supabase.from('lora_training_jobs').update(p).eq('id', jid)]. An
    update that the columns refuse changes nothing; the call resolves with
    the error in its result, which neither route reads. *)
Definition db_update_job (db_now : string) (jid : string) (p : Job.patch)
    (w : World) : World :=
  match jobs w !! jid with
  | Some old =>
      if Job.accepts p then
        let new := Job.apply p old in
        {| jobs := <[jid := new]> (jobs w);
           models := update_model_on_lora_completion db_now old new (models w);
           log := DbUpdateJob jid p :: log w;
           past := jobs w :: past w |}
      else emit (DbUpdateJob jid p) w
  | None => emit (DbUpdateJob jid p) w
  end.

(** [supabase.from('ai_models').update(p).eq('id', mid)]. *)
Definition db_update_model (db_now : string) (mid : string) (p : Model.patch)
    (w : World) : World :=
  {| jobs := jobs w;
     models := sql_update_model db_now mid (Model.apply p) (models w);
     log := DbUpdateModel mid p :: log w;
     past := past w |}.

(* ================================================================== *)
(** ** src/agents/lora-trainer.ts: checkTrainingStatus *)
(* ================================================================== *)

(** What [replicate.trainings.get] does: it resolves to a training object
    or it throws ([Some m]: an [Error] with message [m]; [None]: something
    that is not an [Error]). *)
Inductive GetReply :=
| GetOk (status : Replicate.Status) (logs : option string)
        (output : Output) (error : option string)
| GetThrows (message : option string).

Record LoRATrainingStatus := mkStatus {
  st_status : Replicate.Status;
  st_logs : option string;
  st_output : Output;
  st_error : option string
}.

Definition keep_truthy (o : option string) : option string :=
  if truthy o then o else None.

Definition checkTrainingStatus (trainingId : string) (reply : GetReply)
    (w : World) : LoRATrainingStatus * World :=
  let w1 := emit (TrainingsGet trainingId) w in
  match reply with
  | GetOk s logs out err =>
      ({| st_status := s;
          st_logs := keep_truthy logs;
          st_output := out;
          st_error := keep_truthy err |}, w1)
  | GetThrows m =>
      ({| st_status := Replicate.failed;
          st_logs := None;
          st_output := OutAbsent;
          st_error := Some (default "Failed to check status" m) |},
       emit (ConsoleError "Failed to check training status:") w1)
  end.

(** The block "Extract LoRA weights URL from output", written out twice in
    the source (waitForTrainingCompletion and the poll route): the weights
    url and the sample images. *)
Definition extract_output (o : Output) : option string * list string :=
  match o with
  | OutAbsent => (None, [])
  | OutString s => (keep_truthy (Some s), [])
  | OutObject weights version images =>
      (if truthy weights then weights
       else match keep_truthy version with
            | Some v => Some ("replicate:" ++ v)
            | None => None
            end,
       default [] images)
  end.

(* ================================================================== *)
(** ** src/app/api/models/poll-training/route.ts: POST *)
(* ================================================================== *)
Record Response (A : Type) := mkResponse {
  http_status : nat;
  success : bool;
  data : option A;
  error : option string
}.

Arguments mkResponse {A} _ _ _ _.

Arguments http_status {A} _.

Arguments success {A} _.

Arguments data {A} _.

Arguments error {A} _.

Definition fail_with {A} (code : nat) (msg : string) : Response A :=
  mkResponse code false None (Some msg).

Definition ok_with {A} (d : A) : Response A :=
  mkResponse 200 true (Some d) None.

Record PollBody := mkPollBody { training_job_id : option string }.

Record PollEnv := mkPollEnv {
  get_reply : GetReply;
  js_now : string;      (* new Date().toISOString() *)
  db_now : string       (* NOW() in the database *)
}.

Record PollData := mkPollData {
  d_status : JobStatus;
  d_progress : Z;
  d_lora_weights_url : option string;
  d_sample_images : option (list string);
  d_error_message : option string;
  d_message : option string
}.

Definition empty_patch : Job.patch :=
  Job.mkPatch None None None None None None None None.

(** [dbUpdate] as the poll route builds it from the provider's status;
    [None] is the empty object. *)
Definition poll_dbUpdate (env : PollEnv) (job : Job.t)
    (rs : LoRATrainingStatus) : option Job.patch :=
  match st_status rs with
  | Replicate.processing =>
      let progress := Z.min (Z.max (Job.progress job + 10) 30) 90 in
      Some (Job.mkPatch (Some training) (Some progress)
              None None None None None None)
  | Replicate.succeeded =>
      let '(loraWeightsUrl, sampleImages) := extract_output (st_output rs) in
      Some (Job.mkPatch (Some completed) (Some 100)
              None None loraWeightsUrl (Some sampleImages)
              None (Some (js_now env)))
  | Replicate.failed | Replicate.canceled =>
      Some (Job.mkPatch (Some failed) (Some 0)
              None
              (Some (js_or_default (st_error rs)
                       ("Training " ++ Replicate.to_string (st_status rs))))
              None None None None)
  | Replicate.starting => None
  end.

(** The "Update model record" call of the succeeded branch. *)
Definition completion_patch (trainingJobId : string) (job : Job.t)
    (rs : LoRATrainingStatus) : Model.patch :=
  Model.mkPatch (Some true) (Some trainingJobId)
    (Some (Job.trigger_word job))
    (fst (extract_output (st_output rs)))
    (Some true).

Definition POST_poll_training (body : PollBody) (env : PollEnv) (w : World)
  : Response PollData * World :=
  if negb (truthy (training_job_id body)) then
    (fail_with 400 "Missing training_job_id", w)
  else
    let trainingJobId := default "" (training_job_id body) in
    match jobs w !! trainingJobId with
    | None => (fail_with 404 "Training job not found", w)
    | Some trainingJob =>
        if is_terminal (Job.status trainingJob) then
          (ok_with {| d_status := Job.status trainingJob;
                      d_progress := Job.progress trainingJob;
                      d_lora_weights_url := Job.lora_weights_url trainingJob;
                      d_sample_images := Job.sample_images trainingJob;
                      d_error_message := Job.error_message trainingJob;
                      d_message := None |}, w)
        else if negb (truthy (Job.replicate_training_id trainingJob)) then
          (ok_with {| d_status := Job.status trainingJob;
                      d_progress := Job.progress trainingJob;
                      d_lora_weights_url := None;
                      d_sample_images := None;
                      d_error_message := None;
                      d_message :=
                        Some "Training not yet started on Replicate" |}, w)
        else
          let '(replicateStatus, w1) :=
            checkTrainingStatus
              (default "" (Job.replicate_training_id trainingJob))
              (get_reply env) w in
          let dbUpdate := poll_dbUpdate env trainingJob replicateStatus in
          let w2 :=
            match st_status replicateStatus with
            | Replicate.succeeded =>
                db_update_model (db_now env) (Job.model_id trainingJob)
                  (completion_patch trainingJobId trainingJob replicateStatus)
                  w1
            | Replicate.failed | Replicate.canceled =>
                emit (ConsoleError
                        ("Training "
                         ++ Replicate.to_string (st_status replicateStatus)
                         ++ ":")) w1
            | _ => w1
            end in
          let w3 :=
            match dbUpdate with
            | Some p => db_update_job (db_now env) trainingJobId p w2
            | None => w2
            end in
          let u := default empty_patch dbUpdate in
          (ok_with
             {| d_status := default (Job.status trainingJob) (Job.p_status u);
                d_progress :=
                  default (Job.progress trainingJob) (Job.p_progress u);
                d_lora_weights_url :=
                  js_or (Job.p_lora_weights_url u)
                        (Job.lora_weights_url trainingJob);
                d_sample_images :=
                  js_or_list (Job.p_sample_images u)
                             (Job.sample_images trainingJob);
                d_error_message :=
                  js_or (Job.p_error_message u)
                        (Job.error_message trainingJob);
                d_message := None |}, w3)
    end.

(* ================================================================== *)
(** ** src/agents/lora-trainer.ts: generateTriggerWord, startLoRATraining *)
(* ================================================================== *)
(** [String.prototype.toUpperCase] is the engine's: it maps the characters
    by the Unicode tables (a sharp s becomes SS), so [generateTriggerWord]
    takes it as an argument and the route takes it from its environment.
    [upper_ascii] is what it does to a string of ASCII characters. *)
Definition upper_char (c : ascii) : ascii :=
  let n := nat_of_ascii c in
  if ((97 <=? n) && (n <=? 122))%nat then ascii_of_nat (n - 32) else c.

Fixpoint upper_ascii (s : string) : string :=
  match s with
  | EmptyString => EmptyString
  | String c r => String (upper_char c) (upper_ascii r)
  end.

(** The complement of the class [[^A-Z0-9]]. *)
Definition is_A_Z_0_9 (c : ascii) : bool :=
  let n := nat_of_ascii c in
  (((65 <=? n) && (n <=? 90)) || ((48 <=? n) && (n <=? 57)))%nat.

(** [.replace(/[^A-Z0-9]/g, '')]. A string is its UTF-8 bytes, and no byte
    of a character outside ASCII is in the class. *)
Fixpoint sanitize (s : string) : string :=
  match s with
  | EmptyString => EmptyString
  | String c r => if is_A_Z_0_9 c then String c (sanitize r) else sanitize r
  end.

Fixpoint repeat_char (c : ascii) (n : nat) : string :=
  match n with
  | O => EmptyString
  | S k => String c (repeat_char c k)
  end.

Definition padStart (width : nat) (c : ascii) (s : string) : string :=
  repeat_char c (width - String.length s) ++ s.

(** [random] is [Math.floor(Math.random() * 1000)]. *)
Definition generateTriggerWord (toUpperCase : string -> string)
    (modelName : string) (random : nat) : string :=
  String.substring 0 10 (sanitize (toUpperCase modelName))
  ++ padStart 3 "0"%char (pretty random).

Record LoRATrainingInput := mkInput {
  in_training_images : list string;
  in_trigger_word : string;
  in_steps : option N;
  in_learning_rate : option QArith_base.Q;
  in_rank : option N
}.

Record LoRATrainingOutput := mkOutput {
  out_success : bool;
  out_replicate_training_id : option string;
  out_lora_weights_url : option string;
  out_sample_images : option (list string);
  out_training_duration_seconds : option Z;
  out_estimated_cost_usd : option QArith_base.Q;
  out_error : option string
}.

(** What [replicate.trainings.create] does. *)
Inductive CreateReply :=
| CreateOk (id : string) (status : Replicate.Status)
| CreateThrows (message : option string).

Definition cost_usd : QArith_base.Q := QArith_base.Qmake 185 100.

Definition images_error (n : nat) : string :=
  "Training requires 8-20 images, got " ++ pretty n.

(** [elapsed_ms] is [Date.now() - startTime] when the function returns. *)
Definition startLoRATraining (input : LoRATrainingInput)
    (reply : CreateReply) (elapsed_ms : N) (w : World)
  : LoRATrainingOutput * World :=
  let n := length (in_training_images input) in
  let duration := Some (Z.of_N elapsed_ms / 1000) in
  if ((n <? 8) || (20 <? n))%nat then
    ({| out_success := false;
        out_replicate_training_id := None;
        out_lora_weights_url := None;
        out_sample_images := None;
        out_training_duration_seconds := duration;
        out_estimated_cost_usd := None;
        out_error := Some (images_error n) |},
     emit (ConsoleError "LoRA training failed:") w)
  else
    let w1 :=
      emit (TrainingsCreate
              (String.concat "|" (in_training_images input))
              (in_trigger_word input)) w in
    match reply with
    | CreateOk tid _ =>
        ({| out_success := true;
            out_replicate_training_id := Some tid;
            out_lora_weights_url := None;
            out_sample_images := None;
            out_training_duration_seconds := duration;
            out_estimated_cost_usd := Some cost_usd;
            out_error := None |}, w1)
    | CreateThrows m =>
        ({| out_success := false;
            out_replicate_training_id := None;
            out_lora_weights_url := None;
            out_sample_images := None;
            out_training_duration_seconds := duration;
            out_estimated_cost_usd := None;
            out_error := Some (default "LoRA training failed" m) |},
         emit (ConsoleError "LoRA training failed:") w1)
    end.

(* ================================================================== *)
(** ** The train-lora route (src/unnamed/part_012): POST, GET *)
(* ================================================================== *)
Record StartLoRATrainingRequest := mkRequest {
  rq_model_id : option string;
  rq_model_name : option string;
  rq_gender : option Gender;
  rq_training_images : option (list string);
  rq_trigger_word : option string;
  rq_steps : option N;
  rq_learning_rate : option QArith_base.Q
}.

Record StartLoRATrainingResponse := mkStartResponse {
  sr_success : bool;
  sr_training_job_id : string;
  sr_model_id : string;
  sr_trigger_word : string;
  sr_estimated_duration_minutes : N;
  sr_estimated_cost_usd : QArith_base.Q;
  sr_message : string
}.

Record TrainEnv := mkTrainEnv {
  supabase_configured : bool;      (* createServerClient() is not null *)
  random_code : nat;               (* Math.floor(Math.random() * 100) *)
  random_suffix : nat;             (* Math.floor(Math.random() * 1000) *)
  model_uuid : string;             (* gen_random_uuid() of the ai_models row *)
  job_uuid : string;               (* gen_random_uuid() of the job row *)
  model_insert_error : option string;  (* the insert is rejected, message *)
  job_insert_error : option string;    (* the same, for the job row *)
  create_reply : CreateReply;
  elapsed_ms : N;
  t_js_now : string;
  t_db_now : string;
  js_toUpperCase : string -> string   (* String.prototype.toUpperCase *)
}.

Definition duplicate_key : string :=
  "duplicate key value violates unique constraint".

Definition foreign_key : string :=
  "insert or update on table violates foreign key constraint".

(** [supabase.from('ai_models').insert(row).select().single()]: rejected by
    the database for a reason of its own ([err]) or because the primary key
    is taken. *)
Definition db_insert_model (err : option string) (row : Model.t) (w : World)
  : (string + Model.t) * World :=
  let w1 := emit (DbInsertModel row) w in
  match err with
  | Some m => (inl m, w1)
  | None =>
      match models w !! Model.id row with
      | Some _ => (inl duplicate_key, w1)
      | None =>
          (inr row,
           {| jobs := jobs w1;
              models := <[Model.id row := row]> (models w1);
              log := log w1;
              past := past w1 |})
      end
  end.

(** [supabase.from('lora_training_jobs').insert(row).select().single()]:
    also rejected when [model_id] references no model. *)
Definition db_insert_job (err : option string) (row : Job.t) (w : World)
  : (string + Job.t) * World :=
  let w1 := emit (DbInsertJob row) w in
  match err with
  | Some m => (inl m, w1)
  | None =>
      match jobs w !! Job.id row, models w !! Job.model_id row with
      | Some _, _ => (inl duplicate_key, w1)
      | None, None => (inl foreign_key, w1)
      | None, Some _ =>
          (inr row,
           {| jobs := <[Job.id row := row]> (jobs w1);
              models := models w1;
              log := log w1;
              past := jobs w :: past w1 |})
      end
  end.

Definition rate_default : QArith_base.Q := QArith_base.Qmake 4 10000.

Definition dquote : string := String "034"%char EmptyString.

Definition model_code_prefix (g : Gender) : string :=
  match g with
  | male => "M"
  | female => "F"
  | non_binary => "N"
  end.

(** The validation of lines 31 and 41: the error of the 400 response, if
    any. *)
Definition validate_request (body : StartLoRATrainingRequest) : option string :=
  match rq_gender body, rq_training_images body with
  | Some _, Some images =>
      if negb (truthy (rq_model_name body)) || (length images <? 8)%nat then
        Some "Missing required fields. Need: model_name, gender, and 8-12 training_images"
      else if (20 <? length images)%nat then
        Some "Maximum 20 training images allowed"
      else None
  | _, _ =>
      Some "Missing required fields. Need: model_name, gender, and 8-12 training_images"
  end.

(** "Create or get model record": the model id, or the 500 response. *)
Definition create_or_get_model (body : StartLoRATrainingRequest)
    (g : Gender) (images : list string) (env : TrainEnv) (w : World)
  : (string + string) * World :=
  if truthy (rq_model_id body) then
    (inr (default "" (rq_model_id body)), w)
  else
    let modelCode :=
      model_code_prefix g ++ padStart 2 "0"%char (pretty (random_code env)) in
    let first := List.hd "" images in
    let row :=
      {| Model.id := model_uuid env;
         Model.model_code := modelCode;
         Model.name := default "" (rq_model_name body);
         Model.gender := g;
         Model.base_image_url := first;
         Model.thumbnail_url := Some first;
         Model.is_active := false;
         Model.updated_at := t_db_now env;
         Model.lora_training_job_id := None;
         Model.lora_trigger_word := None;
         Model.lora_weights_url := None;
         Model.has_lora_training := false |} in
    match db_insert_model (model_insert_error env) row w with
    | (inl m, w1) =>
        (inl ("Failed to create model: " ++ m),
         emit (ConsoleError "Error creating model:") w1)
    | (inr newModel, w1) => (inr (Model.id newModel), w1)
    end.

(** The row of "Create training job record". *)
Definition new_job_row (env : TrainEnv) (modelId : string)
    (images : list string) (triggerWord : string) (steps : N)
    (rate : QArith_base.Q) : Job.t :=
  {| Job.id := job_uuid env;
     Job.model_id := modelId;
     Job.training_images := images;
     Job.trigger_word := triggerWord;
     Job.steps := steps;
     Job.learning_rate := rate;
     Job.batch_size := 1;
     Job.resolution := 512;
     Job.replicate_training_id := None;
     Job.status := pending;
     Job.progress := 0;
     Job.error_message := None;
     Job.lora_weights_url := None;
     Job.sample_images := None;
     Job.started_at := None;
     Job.completed_at := None |}.

Definition uploading_patch : Job.patch :=
  Job.mkPatch (Some uploading) (Some 10) None None None None None None.

Definition start_failed_patch (trainingResult : LoRATrainingOutput)
  : Job.patch :=
  Job.mkPatch (Some failed) (Some 0) None (out_error trainingResult)
    None None None None.

Definition start_training_patch (env : TrainEnv)
    (trainingResult : LoRATrainingOutput) : Job.patch :=
  Job.mkPatch (Some training) (Some 20)
    (out_replicate_training_id trainingResult)
    None None None (Some (t_js_now env)) None.

(** [trainingInput] of the route. *)
Definition training_input (images : list string) (triggerWord : string)
    (steps : N) (rate : QArith_base.Q) : LoRATrainingInput :=
  {| in_training_images := images;
     in_trigger_word := triggerWord;
     in_steps := Some steps;
     in_learning_rate := Some rate;
     in_rank := None |}.

(** From "Update job status to uploading" to the end of the handler, for the
    job row [jid] that was just inserted. *)
Definition launch_training (env : TrainEnv) (jid modelId triggerWord : string)
    (model_name : string) (images : list string) (steps : N)
    (rate : QArith_base.Q) (w2 : World)
  : Response StartLoRATrainingResponse * World :=
  let trainingInput := training_input images triggerWord steps rate in
  let w3 := db_update_job (t_db_now env) jid uploading_patch w2 in
  let '(trainingResult, w4) :=
    startLoRATraining trainingInput (create_reply env) (elapsed_ms env) w3 in
  if negb (out_success trainingResult)
     || negb (truthy (out_replicate_training_id trainingResult))
  then
    (mkResponse 500 false None
       (Some (js_or_default (out_error trainingResult)
                "Failed to start training")),
     db_update_job (t_db_now env) jid (start_failed_patch trainingResult) w4)
  else
    (ok_with
       {| sr_success := true;
          sr_training_job_id := jid;
          sr_model_id := modelId;
          sr_trigger_word := triggerWord;
          sr_estimated_duration_minutes := 2;
          sr_estimated_cost_usd := cost_usd;
          sr_message :=
            "LoRA training started for model " ++ dquote
            ++ model_name ++ dquote
            ++ ". Training will take ~2 minutes." |},
     db_update_job (t_db_now env) jid
       (start_training_patch env trainingResult) w4).

Definition POST_train_lora (body : StartLoRATrainingRequest) (env : TrainEnv)
    (w : World) : Response StartLoRATrainingResponse * World :=
  if negb (supabase_configured env) then
    (fail_with 500 "Database not configured", w)
  else
    match validate_request body with
    | Some msg => (fail_with 400 msg, w)
    | None =>
        let images := default [] (rq_training_images body) in
        let g := default female (rq_gender body) in
        let model_name := default "" (rq_model_name body) in
        let triggerWord :=
          if truthy (rq_trigger_word body)
          then default "" (rq_trigger_word body)
          else generateTriggerWord (js_toUpperCase env) model_name
                 (random_suffix env) in
        match create_or_get_model body g images env w with
        | (inl msg, w1) => (fail_with 500 msg, w1)
        | (inr modelId, w1) =>
            let steps := js_or_num (rq_steps body) 1000 in
            let rate := js_or_rate (rq_learning_rate body) rate_default in
            let row := new_job_row env modelId images triggerWord steps rate in
            match db_insert_job (job_insert_error env) row w1 with
            | (inl m, w2) =>
                (fail_with 500 ("Failed to create training job: " ++ m),
                 emit (ConsoleError "Error creating training job:") w2)
            | (inr trainingJob, w2) =>
                launch_training env (Job.id trainingJob) modelId triggerWord
                  model_name images steps rate w2
            end
        end
    end.

(** [GET /api/models/train-lora?training_job_id=...]: it only reads. *)
Record StatusData := mkStatusData {
  sd_training_job : Job.t;
  sd_status : JobStatus;
  sd_progress : Z;
  sd_error_message : option string;
  sd_lora_weights_url : option string;
  sd_sample_images : option (list string)
}.

Definition GET_train_lora (configured : bool) (trainingJobId : option string)
    (w : World) : Response StatusData :=
  if negb configured then fail_with 500 "Database not configured"
  else if negb (truthy trainingJobId) then
    fail_with 400 "Missing training_job_id parameter"
  else
    match jobs w !! default "" trainingJobId with
    | None => fail_with 404 "Training job not found"
    | Some trainingJob =>
        ok_with {| sd_training_job := trainingJob;
                   sd_status := Job.status trainingJob;
                   sd_progress := Job.progress trainingJob;
                   sd_error_message := Job.error_message trainingJob;
                   sd_lora_weights_url := Job.lora_weights_url trainingJob;
                   sd_sample_images := Job.sample_images trainingJob |}
    end.

(* ================================================================== *)
(** ** src/agents/lora-trainer.ts: waitForTrainingCompletion *)
(* ================================================================== *)
Definition maxWaitTime : N := 30 * 60 * 1000.

Definition pollInterval : N := 30 * 1000.

(** One turn of the loop as the outside world decides it: the provider's
    reply, the milliseconds the status check took, and the milliseconds by
    which the timer fired later than [pollInterval]. *)
Record Tick := mkTick {
  tick_reply : GetReply;
  tick_latency : N;
  tick_oversleep : N
}.

Definition timeout_output (trainingId : string) : LoRATrainingOutput :=
  {| out_success := false;
     out_replicate_training_id := Some trainingId;
     out_lora_weights_url := None;
     out_sample_images := None;
     out_training_duration_seconds := None;
     out_estimated_cost_usd := None;
     out_error := Some "Training timeout after 30 minutes" |}.

(** The [while] loop; [elapsed] is [Date.now() - startTime] at the test,
    [k] counts the turns already taken. [None]: the fuel ran out with the
    loop still turning. *)
Fixpoint wait_loop (fuel : nat) (trainingId : string) (ticks : nat -> Tick)
    (k : nat) (elapsed : N) (w : World) : option LoRATrainingOutput * World :=
  match fuel with
  | O => (None, w)
  | S fuel' =>
      if (elapsed <? maxWaitTime)%N then
        let tk := ticks k in
        let '(status, w1) := checkTrainingStatus trainingId (tick_reply tk) w in
        let elapsed1 := (elapsed + tick_latency tk)%N in
        let duration := Some (Z.of_N elapsed1 / 1000) in
        match st_status status with
        | Replicate.succeeded =>
            let '(loraWeightsUrl, sampleImages) :=
              extract_output (st_output status) in
            (Some {| out_success := true;
                     out_replicate_training_id := Some trainingId;
                     out_lora_weights_url := loraWeightsUrl;
                     out_sample_images := Some sampleImages;
                     out_training_duration_seconds := duration;
                     out_estimated_cost_usd := Some cost_usd;
                     out_error := None |}, w1)
        | Replicate.failed | Replicate.canceled =>
            (Some {| out_success := false;
                     out_replicate_training_id := Some trainingId;
                     out_lora_weights_url := None;
                     out_sample_images := None;
                     out_training_duration_seconds := duration;
                     out_estimated_cost_usd := None;
                     out_error :=
                       Some (js_or_default (st_error status)
                               ("Training "
                                ++ Replicate.to_string (st_status status))) |},
             emit (ConsoleError
                     ("Training " ++ Replicate.to_string (st_status status)
                      ++ ":")) w1)
        | _ =>
            wait_loop fuel' trainingId ticks (S k)
              (elapsed1 + pollInterval + tick_oversleep tk)%N w1
        end
      else
        (Some (timeout_output trainingId),
         emit (ConsoleError "Training timeout after 30 minutes") w)
  end.

Definition waitForTrainingCompletion (fuel : nat) (trainingId : string)
    (ticks : nat -> Tick) (w : World) : option LoRATrainingOutput * World :=
  wait_loop fuel trainingId ticks 0 0%N w.

(** Calls of [checkTrainingStatus] recorded in a log. *)
Fixpoint polls_made (l : list Event) : nat :=
  match l with
  | [] => 0
  | TrainingsGet _ :: r => S (polls_made r)
  | _ :: r => polls_made r
  end.

(* ================================================================== *)
(** ** src/components/model/ModelLoRATrain.tsx: pollTrainingStatus *)
(* ================================================================== *)

(** [fetch('/api/models/poll-training', ...)]: the promise rejects, or the
    request reaches the route, which runs in the environment [env]. *)
Inductive FetchOutcome :=
| FetchRejects
| FetchResolves (env : PollEnv).

Record ClientState := mkClient {
  isTraining : bool;
  trainingProgress : Z;
  trainingStatus : string;
  client_error : string
}.

(** One turn of the loop after the sleep: the component's state, whether
    [completed] was set, and the store. *)
Definition poll_turn (jobId : string) (f : FetchOutcome) (cs : ClientState)
    (w : World) : ClientState * bool * World :=
  match f with
  | FetchRejects => (cs, false, emit (ConsoleError "Polling error:") w)
  | FetchResolves env =>
      let '(statusRes, w1) :=
        POST_poll_training (mkPollBody (Some jobId)) env w in
      if ((200 <=? http_status statusRes) && (http_status statusRes <=? 299))%nat
      then
        match success statusRes, data statusRes with
        | true, Some d =>
            let cs1 :=
              {| isTraining := isTraining cs;
                 trainingProgress := d_progress d;
                 trainingStatus :=
                   "Training " ++ JobStatus_to_string (d_status d) ++ "...";
                 client_error := client_error cs |} in
            match d_status d with
            | completed =>
                ({| isTraining := false;
                    trainingProgress := trainingProgress cs1;
                    trainingStatus := "Training completed successfully!";
                    client_error := client_error cs1 |}, true, w1)
            | failed | cancelled =>
                ({| isTraining := false;
                    trainingProgress := trainingProgress cs1;
                    trainingStatus := trainingStatus cs1;
                    client_error :=
                      js_or_default (d_error_message d)
                        ("Training " ++ JobStatus_to_string (d_status d)) |},
                 true, w1)
            | _ => (cs1, false, w1)
            end
        | _, _ => (cs, false, w1)
        end
      else (cs, false, w1)
  end.

(** [while (!completed)]; [None]: the fuel ran out with the loop still
    turning. *)
Fixpoint pollTrainingStatus (fuel : nat) (jobId : string)
    (fetches : nat -> FetchOutcome) (k : nat) (cs : ClientState) (w : World)
  : option ClientState * World :=
  match fuel with
  | O => (None, w)
  | S fuel' =>
      let '(cs1, completed', w1) := poll_turn jobId (fetches k) cs w in
      if completed' then (Some cs1, w1)
      else pollTrainingStatus fuel' jobId fetches (S k) cs1 w1
  end.

(* ================================================================== *)
(** ** Runs of the two routes *)
(* ================================================================== *)
Inductive Op :=
| OpStart (body : StartLoRATrainingRequest) (env : TrainEnv)
| OpPoll (body : PollBody) (env : PollEnv).

Definition step (op : Op) (w : World) : World :=
  match op with
  | OpStart body env => snd (POST_train_lora body env w)
  | OpPoll body env => snd (POST_poll_training body env w)
  end.

Definition run (ops : list Op) (w : World) : World :=
  fold_left (fun acc op => step op acc) ops w.

(** The database before any training request: some models, no job. *)
Definition initial (ms : gmap string Model.t) : World :=
  {| jobs := ∅; models := ms; log := []; past := [] |}.

(* ================================================================== *)
(** ** Calls of the poll route that overlap *)
(* ================================================================== *)

(** The poll route awaits the provider (route.ts 76) between reading the
    job row (29-33) and writing it (118-127, 144-147), and the server runs
    other calls in the meantime. What a call holds across that wait: the id
    of the request, the row as it read it, and the provider's status. *)
Record PollPending := mkPollPending {
  pp_trainingJobId : string;
  pp_trainingJob : Job.t;
  pp_replicateStatus : LoRATrainingStatus
}.

(** route.ts 18-78: the call ends with an answer, or it has read its row
    and the provider has answered. *)
Definition poll_read (body : PollBody) (env : PollEnv) (w : World)
  : (Response PollData + PollPending) * World :=
  if negb (truthy (training_job_id body)) then
    (inl (fail_with 400 "Missing training_job_id"), w)
  else
    let trainingJobId := default "" (training_job_id body) in
    match jobs w !! trainingJobId with
    | None => (inl (fail_with 404 "Training job not found"), w)
    | Some trainingJob =>
        if is_terminal (Job.status trainingJob) then
          (inl (ok_with
                  {| d_status := Job.status trainingJob;
                     d_progress := Job.progress trainingJob;
                     d_lora_weights_url := Job.lora_weights_url trainingJob;
                     d_sample_images := Job.sample_images trainingJob;
                     d_error_message := Job.error_message trainingJob;
                     d_message := None |}), w)
        else if negb (truthy (Job.replicate_training_id trainingJob)) then
          (inl (ok_with
                  {| d_status := Job.status trainingJob;
                     d_progress := Job.progress trainingJob;
                     d_lora_weights_url := None;
                     d_sample_images := None;
                     d_error_message := None;
                     d_message :=
                       Some "Training not yet started on Replicate" |}), w)
        else
          let '(replicateStatus, w1) :=
            checkTrainingStatus
              (default "" (Job.replicate_training_id trainingJob))
              (get_reply env) w in
          (inr (mkPollPending trainingJobId trainingJob replicateStatus), w1)
    end.

(** route.ts 80-162: the writes and the answer, from the row as it was
    read; [env] gives the clocks at the time of the writes. The update of
    the job row has no condition on the row's current status. *)
Definition poll_write (p : PollPending) (env : PollEnv) (w1 : World)
  : Response PollData * World :=
  let trainingJobId := pp_trainingJobId p in
  let trainingJob := pp_trainingJob p in
  let replicateStatus := pp_replicateStatus p in
  let dbUpdate := poll_dbUpdate env trainingJob replicateStatus in
  let w2 :=
    match st_status replicateStatus with
    | Replicate.succeeded =>
        db_update_model (db_now env) (Job.model_id trainingJob)
          (completion_patch trainingJobId trainingJob replicateStatus) w1
    | Replicate.failed | Replicate.canceled =>
        emit (ConsoleError
                ("Training "
                 ++ Replicate.to_string (st_status replicateStatus)
                 ++ ":")) w1
    | _ => w1
    end in
  let w3 :=
    match dbUpdate with
    | Some u => db_update_job (db_now env) trainingJobId u w2
    | None => w2
    end in
  let u := default empty_patch dbUpdate in
  (ok_with
     {| d_status := default (Job.status trainingJob) (Job.p_status u);
        d_progress := default (Job.progress trainingJob) (Job.p_progress u);
        d_lora_weights_url :=
          js_or (Job.p_lora_weights_url u) (Job.lora_weights_url trainingJob);
        d_sample_images :=
          js_or_list (Job.p_sample_images u) (Job.sample_images trainingJob);
        d_error_message :=
          js_or (Job.p_error_message u) (Job.error_message trainingJob);
        d_message := None |}, w3).

(** The server between two moves: the store and the calls of the poll route
    that wait for their turn to write, oldest first. *)
Record Server := mkServer {
  world : World;
  waiting_polls : list PollPending
}.

(** A call that runs from its first line to its last while no other call
    does anything; a call of the poll route up to the provider's answer; the
    [i]-th waiting call resumes and ends. *)
Inductive Move :=
| Alone (op : Op)
| PollReads (body : PollBody) (env : PollEnv)
| PollWrites (i : nat) (env : PollEnv).

Definition move (m : Move) (s : Server) : Server :=
  match m with
  | Alone op => mkServer (step op (world s)) (waiting_polls s)
  | PollReads body env =>
      match poll_read body env (world s) with
      | (inl _, w1) => mkServer w1 (waiting_polls s)
      | (inr p, w1) => mkServer w1 (waiting_polls s ++ [p])%list
      end
  | PollWrites i env =>
      match waiting_polls s !! i with
      | Some p =>
          mkServer (snd (poll_write p env (world s))) (delete i (waiting_polls s))
      | None => s
      end
  end.

Definition play (moves : list Move) (s : Server) : Server :=
  fold_left (fun acc m => move m acc) moves s.

(** A server on which no call is under way. *)
Definition idle (w : World) : Server := mkServer w [].

(** The rows that the waiting calls hold were not terminal when they were
    read. *)
Definition waiting_ok (s : Server) : Prop :=
  Forall (fun p => is_terminal (Job.status (pp_trainingJob p)) = false)
    (waiting_polls s).

(** The row that the [i]-th waiting call is about to write is the row that
    it read: nothing has written it in the meantime. *)
Definition reads_still_hold (m : Move) (s : Server) : Prop :=
  match m with
  | PollWrites i _ =>
      match waiting_polls s !! i with
      | Some p =>
          jobs (world s) !! pp_trainingJobId p = Some (pp_trainingJob p)
      | None => True
      end
  | _ => True
  end.

(** No call of the poll route writes a row that has changed since the call
    read it. *)
Fixpoint calm (moves : list Move) (s : Server) : Prop :=
  match moves with
  | [] => True
  | m :: r => reads_still_hold m s /\ calm r (move m s)
  end.

(* ================================================================== *)
(** ** A running example *)
(* ================================================================== *)
Module Demo.
Definition images : list string :=
  ["https://s/1.jpg"; "https://s/2.jpg"; "https://s/3.jpg"; "https://s/4.jpg";
   "https://s/5.jpg"; "https://s/6.jpg"; "https://s/7.jpg"; "https://s/8.jpg"].

Definition body : StartLoRATrainingRequest :=
  mkRequest None (Some "Sarah") (Some female) (Some images) (Some "TOK")
    None None.

Definition env : TrainEnv :=
  {| supabase_configured := true;
     random_code := 7;
     random_suffix := 42;
     model_uuid := "model-1";
     job_uuid := "job-1";
     model_insert_error := None;
     job_insert_error := None;
     create_reply := CreateOk "trn-1" Replicate.starting;
     elapsed_ms := 1200;
     t_js_now := "2025-01-01T10:00:00.000Z";
     t_db_now := "2025-01-01 10:00:00+00";
     js_toUpperCase := upper_ascii |}.

Definition at_poll (reply : GetReply) : PollEnv :=
  {| get_reply := reply;
     js_now := "2025-01-01T10:02:00.000Z";
     db_now := "2025-01-01 10:02:00+00" |}.

Definition processing : GetReply :=
  GetOk Replicate.processing None OutAbsent None.

Definition succeeded (o : Output) : GetReply :=
  GetOk Replicate.succeeded None o None.

Definition poll (reply : GetReply) : Op :=
  OpPoll (mkPollBody (Some "job-1")) (at_poll reply).

(** The store once the training of "job-1" has been started. *)
Definition started : World := run [OpStart body env] (initial ∅).

Definition started_job : Job.t :=
  {| Job.id := "job-1";
     Job.model_id := "model-1";
     Job.training_images := images;
     Job.trigger_word := "TOK";
     Job.steps := 1000;
     Job.learning_rate := rate_default;
     Job.batch_size := 1;
     Job.resolution := 512;
     Job.replicate_training_id := Some "trn-1";
     Job.status := training;
     Job.progress := 20;
     Job.error_message := None;
     Job.lora_weights_url := None;
     Job.sample_images := None;
     Job.started_at := Some "2025-01-01T10:00:00.000Z";
     Job.completed_at := None |}.
End Demo.

(** What makes the train-lora route refuse a request body. *)
Definition invalid_request (body : StartLoRATrainingRequest) : Prop :=
  truthy (rq_model_name body) = false
  \/ rq_gender body = None
  \/ rq_training_images body = None
  \/ exists images, rq_training_images body = Some images
                    /\ (length images < 8 \/ 20 < length images)%nat.

Module Unconfigured.
(** A request without a model name, on a server whose Supabase variables
    are not set. *)
Definition body : StartLoRATrainingRequest :=
  mkRequest None None (Some female) (Some Demo.images) (Some "TOK")
    None None.

Definition env : TrainEnv :=
  {| supabase_configured := false;
     random_code := 7;
     random_suffix := 42;
     model_uuid := "model-1";
     job_uuid := "job-1";
     model_insert_error := None;
     job_insert_error := None;
     create_reply := CreateOk "trn-1" Replicate.starting;
     elapsed_ms := 1200;
     t_js_now := "2025-01-01T10:00:00.000Z";
     t_db_now := "2025-01-01 10:00:00+00";
     js_toUpperCase := upper_ascii |}.
End Unconfigured.

(* ================================================================== *)
(** ** The success path *)
(* ================================================================== *)

(** A job row that the provider is working on. *)
Record running (job : Job.t) (mid tid : string) : Prop := {
  running_status : Job.status job = training;
  running_model : Job.model_id job = mid;
  running_tid : Job.replicate_training_id job = Some tid
}.

(** The model that a request names, or the one that will be created for
    it. *)
Definition model_ready (body : StartLoRATrainingRequest) (env : TrainEnv)
    (w : World) (mid : string) : Prop :=
  (truthy (rq_model_id body) = false
   /\ model_insert_error env = None
   /\ models w !! model_uuid env = None
   /\ mid = model_uuid env)
  \/ (rq_model_id body = Some mid /\ mid ≠ "" /\ is_Some (models w !! mid)).

(** The outcome of [startLoRATraining] as the route reads it: the patch of
    the last update of the handler. *)
Definition final_patch (env : TrainEnv) (r : LoRATrainingOutput) : Job.patch :=
  if negb (out_success r) || negb (truthy (out_replicate_training_id r))
  then start_failed_patch r
  else start_training_patch env r.

(** The row after an update, which the columns may refuse, and the record
    of the writes after it. *)
Definition updated (p : Job.patch) (row : Job.t) : Job.t :=
  if Job.accepts p then Job.apply p row else row.

Definition recorded (p : Job.patch) (before : gmap string Job.t)
    (earlier : list (gmap string Job.t)) : list (gmap string Job.t) :=
  if Job.accepts p then before :: earlier else earlier.

(** The row that a started training leaves: in training with the provider's
    id, or, when that id is wider than its column and the last update of the
    route is refused, still uploading. *)
Definition started_row (tid : string) (job : Job.t) : Prop :=
  if (characters tid <=? 100)%nat
  then Job.status job = training /\ Job.progress job = 20
       /\ Job.replicate_training_id job = Some tid
  else Job.status job = uploading /\ Job.progress job = 10
       /\ Job.replicate_training_id job = None.

(* ================================================================== *)
(** ** The status of a job only moves forward *)
(* ================================================================== *)
Definition status_forward (a b : JobStatus) : Prop :=
  (rank a <= rank b)%nat /\ (is_terminal a = true -> b = a).

(** Every row of [older] is still there in [newer], [R]-related to what it
    was. *)
Definition rows_related (R : Job.t -> Job.t -> Prop)
    (older newer : gmap string Job.t) : Prop :=
  forall j a, older !! j = Some a -> exists b, newer !! j = Some b /\ R a b.

(** The same along a whole record of writes, most recent first. *)
Fixpoint history_related (R : Job.t -> Job.t -> Prop)
    (newest : gmap string Job.t) (earlier : list (gmap string Job.t)) : Prop :=
  match earlier with
  | [] => True
  | t :: r => rows_related R t newest /\ history_related R t r
  end.

Definition row_forward (a b : Job.t) : Prop :=
  status_forward (Job.status a) (Job.status b).

Definition rows_ok (I : Job.t -> Prop) (m : gmap string Job.t) : Prop :=
  forall j a, m !! j = Some a -> I a.

(** The rows of the table have the property [I], and the record of writes
    relates each content of a row to the next by [R]. *)
Definition sound (R : Job.t -> Job.t -> Prop) (I : Job.t -> Prop)
    (w : World) : Prop :=
  rows_ok I (jobs w) /\ history_related R (jobs w) (past w).

(** The first table of a run's record is the table the run began with. *)
Definition origin (w : World) : gmap string Job.t :=
  List.last (past w) (jobs w).

(* ================================================================== *)
(** ** Progress and payload along the lifecycle *)
(* ================================================================== *)

(** What a row created by the train-lora route looks like in each status. *)
Definition job_ok (j : Job.t) : Prop :=
  match Job.status j with
  | pending => Job.progress j = 0 /\ Job.lora_weights_url j = None
  | uploading => Job.progress j = 10 /\ Job.lora_weights_url j = None
  | training => 20 <= Job.progress j <= 90 /\ Job.lora_weights_url j = None
  | completed => Job.progress j = 100
  | failed => Job.progress j = 0 /\ Job.lora_weights_url j = None
  | cancelled => False
  end.

(** A write keeps or raises the progress, or it marks the job failed and
    sets the progress to 0. *)
Definition progress_kept_or_failed (a b : Job.t) : Prop :=
  Job.progress a <= Job.progress b
  \/ (Job.status b = failed /\ Job.progress b = 0).

(* ================================================================== *)
(** ** The update of the model on completion *)
(* ================================================================== *)

(** Updates of [ai_models] that the handlers issued on behalf of the job
    [jid] (they carry [lora_training_job_id: jid]). *)
Fixpoint completion_updates (jid : string) (l : list Event) : nat :=
  match l with
  | [] => 0
  | DbUpdateModel _ p :: r =>
      (if bool_decide (Model.p_lora_training_job_id p = Some jid)
       then 1 else 0) + completion_updates jid r
  | _ :: r => completion_updates jid r
  end.

(** The calls to the provider recorded in a log, most recent first. *)
Fixpoint provider_calls (l : list Event) : list Event :=
  match l with
  | [] => []
  | TrainingsCreate i t :: r => TrainingsCreate i t :: provider_calls r
  | TrainingsGet t :: r => TrainingsGet t :: provider_calls r
  | _ :: r => provider_calls r
  end.

(** Every completed job has had its update of the model issued once, every
    other job never. *)
Definition accounted (w : World) : Prop :=
  forall j,
    completion_updates j (log w)
    = match jobs w !! j with
      | Some job => if bool_decide (Job.status job = completed) then 1 else 0
      | None => 0
      end%nat.

Module NoOutput.
(** The training of "job-1" is started and the provider then reports
    succeeded without an output. *)
Definition ops : list Op :=
  [OpStart Demo.body Demo.env; Demo.poll (Demo.succeeded OutAbsent)].
End NoOutput.

Definition weights_output (url : string) (version : option string)
    (images : option (list string)) : Output :=
  OutObject (Some url) version images.

Module Scenario.
Definition weights : Output :=
  weights_output "https://x/y.safetensors" None None.

Definition ops : list Op :=
  [OpStart Demo.body Demo.env;
   Demo.poll Demo.processing; Demo.poll Demo.processing;
   Demo.poll Demo.processing; Demo.poll (Demo.succeeded weights)].
End Scenario.

(* ================================================================== *)
(** ** The two polling loops and time *)
(* ================================================================== *)

(** The provider answers, and the training is neither finished nor lost. *)
Definition waiting (r : GetReply) : Prop :=
  match r with
  | GetOk Replicate.starting _ _ _ | GetOk Replicate.processing _ _ _ => True
  | _ => False
  end.

Module Stuck.
(** The component's state when [handleStartTraining] starts the loop. *)
Definition client : ClientState :=
  {| isTraining := true;
     trainingProgress := 20;
     trainingStatus := "Training in progress...";
     client_error := "" |}.

(** Every request reaches the route and the provider reports processing. *)
Definition fetches (k : nat) : FetchOutcome :=
  FetchResolves (Demo.at_poll Demo.processing).

(** The same provider seen from waitForTrainingCompletion: it answers at
    once and the timer is exact. *)
Definition ticks (k : nat) : Tick :=
  {| tick_reply := Demo.processing; tick_latency := 0; tick_oversleep := 0 |}.
End Stuck.

(* ================================================================== *)
(** ** src/agents/lora-trainer.ts: generateTrainingCaption *)
(* ================================================================== *)

Definition captionVariations (triggerWord : string) : list string :=
  [ "full body photo of " ++ triggerWord
      ++ " person, standing pose, white background";
    triggerWord ++ " person full length portrait, centered, studio lighting";
    "full body shot of " ++ triggerWord
      ++ " person, athletic wear, professional photography";
    triggerWord ++ " person complete figure, front view, high quality image";
    "professional full body photo of " ++ triggerWord
      ++ " person, clean background";
    triggerWord ++ " person full body, natural pose, studio environment";
    "full length portrait of " ++ triggerWord
      ++ " person, detailed features, well lit";
    triggerWord ++ " person head to toe, standing position, minimal background";
    "full body photograph of " ++ triggerWord
      ++ " person, fashion photography style";
    triggerWord
      ++ " person full figure, centered composition, professional lighting" ].

(** [imageIndex] is a natural number; [totalImages] is not read. *)
Definition generateTrainingCaption (triggerWord : string)
    (imageIndex totalImages : nat) : string :=
  let variations := captionVariations triggerWord in
  let index := (imageIndex mod length variations)%nat in
  List.nth index variations "".

(* ================================================================== *)
(** ** src/components/model/ModelLoRATrain.tsx: the selection of files and
       handleStartTraining *)
(* ================================================================== *)

Record File := mkFile { file_name : string; file_type : string }.

(** The state of the component: [client] holds [isTraining],
    [trainingProgress], [trainingStatus] and [error]. *)
Record Component := mkComponent {
  selectedFiles : list File;
  previewUrls : list string;
  isProcessing : bool;
  client : ClientState;
  trainingJobId : option string;
  result : option StartLoRATrainingResponse;
  modelName : string;
  gender : Gender
}.

Definition set_error (msg : string) (cs : ClientState) : ClientState :=
  {| isTraining := isTraining cs;
     trainingProgress := trainingProgress cs;
     trainingStatus := trainingStatus cs;
     client_error := msg |}.

Definition is_image (f : File) : bool := String.prefix "image/" (file_type f).

(** The body shared by [handleFileSelect] and [handleDrop]; [files] is the
    list of the event, [createObjectURL] what [URL.createObjectURL] answers
    during this call. *)
Definition add_files (createObjectURL : File -> string) (files : list File)
    (c : Component) : Component :=
  let files := List.filter is_image files in
  if (20 <? length files)%nat then
    {| selectedFiles := selectedFiles c;
       previewUrls := previewUrls c;
       isProcessing := isProcessing c;
       client := set_error "Maximum 20 images allowed" (client c);
       trainingJobId := trainingJobId c;
       result := result c;
       modelName := modelName c;
       gender := gender c |}
  else if (0 <? length files)%nat then
    let combinedFiles := firstn 20 (selectedFiles c ++ files)%list in
    {| selectedFiles := combinedFiles;
       previewUrls := List.map createObjectURL combinedFiles;
       isProcessing := isProcessing c;
       client := set_error "" (client c);
       trainingJobId := trainingJobId c;
       result := None;
       modelName := modelName c;
       gender := gender c |}
  else c.

Definition handleFileSelect := add_files.
Definition handleDrop := add_files.

(** [prev.filter((_, i) => i !== index)] on both lists. *)
Definition removeFile (index : nat) (c : Component) : Component :=
  {| selectedFiles := delete index (selectedFiles c);
     previewUrls := delete index (previewUrls c);
     isProcessing := isProcessing c;
     client := client c;
     trainingJobId := trainingJobId c;
     result := result c;
     modelName := modelName c;
     gender := gender c |}.

(** What one [fetch('/api/upload', ...)] does: the promise rejects, or the
    route answers with [ok], [success] and [url]. *)
Inductive UploadReply :=
| UploadThrows (message : option string)
| UploadAnswers (ok success : bool) (url : option string).

(** "Step 1: Upload all images", from image [i] on: the message of the
    error thrown, or the urls. *)
Fixpoint upload_from (uploads : nat -> UploadReply) (i : nat)
    (files : list File) : string + list string :=
  match files with
  | [] => inr []
  | _ :: rest =>
      match uploads i with
      | UploadThrows m => inl (default "Training failed" m)
      | UploadAnswers ok success url =>
          if negb ok then inl ("Failed to upload image " ++ pretty (i + 1)%nat)
          else if negb success || negb (truthy url) then
            inl ("Upload failed for image " ++ pretty (i + 1)%nat)
          else
            match upload_from uploads (S i) rest with
            | inl e => inl e
            | inr urls => inr (default "" url :: urls)
            end
      end
  end.

(** The body of the request to the train-lora route. *)
Definition training_request (c : Component) (uploadedUrls : list string)
  : StartLoRATrainingRequest :=
  {| rq_model_id := None;
     rq_model_name := Some (modelName c);
     rq_gender := Some (gender c);
     rq_training_images := Some uploadedUrls;
     rq_trigger_word := None;
     rq_steps := Some 1000%N;
     rq_learning_rate := None |}.

(** [fetch('/api/models/train-lora', ...)]: the promise rejects, or the
    request reaches the route, which runs in the environment [env]. *)
Inductive TrainFetch :=
| TrainFetchRejects (message : option string)
| TrainFetchResolves (env : TrainEnv).

(** The [catch] of handleStartTraining. *)
Definition start_caught (msg : string) (c : Component) : Component :=
  {| selectedFiles := selectedFiles c;
     previewUrls := previewUrls c;
     isProcessing := false;
     client := {| isTraining := false;
                  trainingProgress := trainingProgress (client c);
                  trainingStatus := trainingStatus (client c);
                  client_error := msg |};
     trainingJobId := trainingJobId c;
     result := result c;
     modelName := modelName c;
     gender := gender c |}.

(** handleStartTraining up to the call of [pollTrainingStatus], which it
    does not await: the component, the store, and the job id handed to the
    polling loop when the training was started. *)
Definition handleStartTraining (uploads : nat -> UploadReply)
    (fetched : TrainFetch) (c : Component) (w : World)
  : Component * World * option string :=
  if (length (selectedFiles c) <? 8)%nat then
    ({| selectedFiles := selectedFiles c;
        previewUrls := previewUrls c;
        isProcessing := isProcessing c;
        client :=
          set_error "Please upload at least 8 images for training" (client c);
        trainingJobId := trainingJobId c;
        result := result c;
        modelName := modelName c;
        gender := gender c |}, w, None)
  else if String.eqb (modelName c) "" then
    ({| selectedFiles := selectedFiles c;
        previewUrls := previewUrls c;
        isProcessing := isProcessing c;
        client :=
          set_error "Please fill in required fields: name and gender"
            (client c);
        trainingJobId := trainingJobId c;
        result := result c;
        modelName := modelName c;
        gender := gender c |}, w, None)
  else
    match upload_from uploads 0 (selectedFiles c) with
    | inl msg => (start_caught msg c, w, None)
    | inr uploadedUrls =>
        let c1 :=
          {| selectedFiles := selectedFiles c;
             previewUrls := previewUrls c;
             isProcessing := false;
             client := {| isTraining := true;
                          trainingProgress := trainingProgress (client c);
                          trainingStatus := "Starting LoRA training...";
                          client_error := "" |};
             trainingJobId := trainingJobId c;
             result := result c;
             modelName := modelName c;
             gender := gender c |} in
        match fetched with
        | TrainFetchRejects m =>
            (start_caught (default "Training failed" m) c1, w, None)
        | TrainFetchResolves env =>
            let '(trainingRes, w1) :=
              POST_train_lora (training_request c uploadedUrls) env w in
            if negb ((200 <=? http_status trainingRes)
                     && (http_status trainingRes <=? 299))%nat
            then (start_caught "Failed to start LoRA training" c1, w1, None)
            else
              match success trainingRes, data trainingRes with
              | true, Some trainingResponse =>
                  ({| selectedFiles := selectedFiles c1;
                      previewUrls := previewUrls c1;
                      isProcessing := false;
                      client :=
                        {| isTraining := true;
                           trainingProgress := 20;
                           trainingStatus := "Training in progress...";
                           client_error := "" |};
                      trainingJobId :=
                        Some (sr_training_job_id trainingResponse);
                      result := Some trainingResponse;
                      modelName := modelName c1;
                      gender := gender c1 |},
                   w1, Some (sr_training_job_id trainingResponse))
              | _, _ =>
                  (start_caught
                     (js_or_default (error trainingRes)
                        "Failed to start training") c1, w1, None)
              end
        end
    end.

(* ================================================================== *)
(** ** Vocabulary of the further properties *)
(* ================================================================== *)

(** The row of the job [jid] is the same in both stores. *)
Definition same_job (w w' : World) (jid : string) : Prop :=
  jobs w' !! jid = jobs w !! jid.

Definition same_model (w w' : World) (mid : string) : Prop :=
  models w' !! mid = models w !! mid.

(** Where a row created by the train-lora route keeps its provider id, its
    timestamps and its error message, status by status. *)
Definition references_ok (j : Job.t) : Prop :=
  match Job.status j with
  | pending | uploading =>
      Job.replicate_training_id j = None /\ Job.started_at j = None
      /\ Job.completed_at j = None /\ Job.error_message j = None
  | training =>
      truthy (Job.replicate_training_id j) = true
      /\ is_Some (Job.started_at j)
      /\ Job.completed_at j = None /\ Job.error_message j = None
  | completed =>
      truthy (Job.replicate_training_id j) = true
      /\ is_Some (Job.started_at j)
      /\ is_Some (Job.completed_at j) /\ Job.error_message j = None
  | failed => Job.completed_at j = None
  | cancelled => False
  end.


(** The time on the clock of waitForTrainingCompletion when it tests its
    condition for turn [k], counted from the start. *)
Fixpoint elapsed_at (ticks : nat -> Tick) (k : nat) : N :=
  match k with
  | O => 0
  | S i =>
      (elapsed_at ticks i + tick_latency (ticks i) + pollInterval
       + tick_oversleep (ticks i))%N
  end.

Definition all_A_Z_0_9 (s : string) : bool :=
  forallb is_A_Z_0_9 (list_ascii_of_string s).

Definition is_digit (c : ascii) : bool :=
  let n := nat_of_ascii c in ((48 <=? n) && (n <=? 57))%nat.

(** The suffix of a trigger word: three digits. *)
Definition suffix_ok (random : nat) : bool :=
  let s := padStart 3 "0"%char (pretty random) in
  (String.length s =? 3)%nat && forallb is_digit (list_ascii_of_string s).

(* ================================================================== *)
(** ** The form of the component and further scenarios *)
(* ================================================================== *)

(** The state of the component when it is mounted. *)
Definition initial_component : Component :=
  {| selectedFiles := [];
     previewUrls := [];
     isProcessing := false;
     client := {| isTraining := false;
                  trainingProgress := 0;
                  trainingStatus := "";
                  client_error := "" |};
     trainingJobId := None;
     result := None;
     modelName := "";
     gender := female |}.

(** What the user does to the form. *)
Inductive UiEvent :=
| SelectFiles (createObjectURL : File -> string) (files : list File)
| DropFiles (createObjectURL : File -> string) (files : list File)
| RemoveFile (index : nat)
| TypeName (name : string)
| ChooseGender (g : Gender).

Definition ui_step (e : UiEvent) (c : Component) : Component :=
  match e with
  | SelectFiles url files => handleFileSelect url files c
  | DropFiles url files => handleDrop url files c
  | RemoveFile index => removeFile index c
  | TypeName name =>
      {| selectedFiles := selectedFiles c;
         previewUrls := previewUrls c;
         isProcessing := isProcessing c;
         client := client c;
         trainingJobId := trainingJobId c;
         result := result c;
         modelName := name;
         gender := gender c |}
  | ChooseGender g =>
      {| selectedFiles := selectedFiles c;
         previewUrls := previewUrls c;
         isProcessing := isProcessing c;
         client := client c;
         trainingJobId := trainingJobId c;
         result := result c;
         modelName := modelName c;
         gender := g |}
  end.

Definition ui_run (events : list UiEvent) (c : Component) : Component :=
  fold_left (fun acc e => ui_step e acc) events c.

(** At most 20 files, one preview per file, images only. *)
Definition selection_ok (c : Component) : Prop :=
  (length (selectedFiles c) <= 20)%nat
  /\ length (previewUrls c) = length (selectedFiles c)
  /\ Forall (fun f => is_image f = true) (selectedFiles c).

Module Form.
Definition photo (n : string) : File := mkFile (n ++ ".jpg") "image/jpeg".

(** Eight photos selected at once and a name typed in. *)
Definition filled : Component :=
  ui_run [SelectFiles (fun f => "blob:" ++ file_name f)
            [photo "1"; photo "2"; photo "3"; photo "4";
             photo "5"; photo "6"; photo "7"; photo "8"];
          TypeName "Sarah"] initial_component.

(** The upload route stores every file. *)
Definition uploads (i : nat) : UploadReply :=
  UploadAnswers true true (Some ("https://s/" ++ pretty (i + 1)%nat ++ ".jpg")).
End Form.

Module Wide.
(** The server of the running example, with a provider whose id for the
    training has 101 characters. *)
Definition tid : string := "trn-" ++ repeat_char "9"%char 97.

Definition env : TrainEnv :=
  {| supabase_configured := true;
     random_code := 7;
     random_suffix := 42;
     model_uuid := "model-1";
     job_uuid := "job-1";
     model_insert_error := None;
     job_insert_error := None;
     create_reply := CreateOk tid Replicate.starting;
     elapsed_ms := 1200;
     t_js_now := "2025-01-01T10:00:00.000Z";
     t_db_now := "2025-01-01 10:00:00+00";
     js_toUpperCase := upper_ascii |}.
End Wide.

Module Second.
(** A second training, for another person, started on the same server. *)
Definition body : StartLoRATrainingRequest :=
  mkRequest None (Some "Tom") (Some male) (Some Demo.images) None None None.

Definition env : TrainEnv :=
  {| supabase_configured := true;
     random_code := 12;
     random_suffix := 345;
     model_uuid := "model-2";
     job_uuid := "job-2";
     model_insert_error := None;
     job_insert_error := None;
     create_reply := CreateOk "trn-2" Replicate.starting;
     elapsed_ms := 900;
     t_js_now := "2025-01-01T10:01:00.000Z";
     t_db_now := "2025-01-01 10:01:00+00";
     js_toUpperCase := upper_ascii |}.
End Second.

Module Overlap.
Definition poll1 : PollBody := mkPollBody (Some "job-1").

Definition poll2 : PollBody := mkPollBody (Some "job-2").

(** Calls that overlap without harm: a poll of "job-1" waits for the
    provider while a second training is started and polled; each poll then
    writes the row it read. *)
Definition calm_moves : list Move :=
  [Alone (OpStart Demo.body Demo.env);
   PollReads poll1 (Demo.at_poll Demo.processing);
   Alone (OpStart Second.body Second.env);
   PollReads poll2 (Demo.at_poll (Demo.succeeded Scenario.weights));
   PollWrites 0 (Demo.at_poll Demo.processing);
   PollWrites 0 (Demo.at_poll Demo.processing)].

(** Two polls of "job-1" overlap. The first reads the row in training and
    the provider answers it with processing; before it writes, a second
    poll runs from start to end, on which the provider reports succeeded. *)
Definition second_completes : list Move :=
  [Alone (OpStart Demo.body Demo.env);
   PollReads poll1 (Demo.at_poll Demo.processing);
   Alone (Demo.poll (Demo.succeeded Scenario.weights))].

(** Then the first poll writes. *)
Definition stale_write : list Move :=
  (second_completes ++ [PollWrites 0 (Demo.at_poll Demo.processing)])%list.

End Overlap.

Module Refused.
(** The server of the running example, with a provider that refuses. *)
Definition env : TrainEnv :=
  {| supabase_configured := true;
     random_code := 7;
     random_suffix := 42;
     model_uuid := "model-1";
     job_uuid := "job-1";
     model_insert_error := None;
     job_insert_error := None;
     create_reply := CreateThrows (Some "Invalid version");
     elapsed_ms := 1200;
     t_js_now := "2025-01-01T10:00:00.000Z";
     t_db_now := "2025-01-01 10:00:00+00";
     js_toUpperCase := upper_ascii |}.

(** A request for a model that is not in the table. *)
Definition body : StartLoRATrainingRequest :=
  mkRequest (Some "model-9") (Some "Sarah") (Some female) (Some Demo.images)
    (Some "TOK") None None.
End Refused.

Module Quick.
(** The provider reports processing three times, then succeeded; each
    status check takes 400 ms. *)
Definition ticks (i : nat) : Tick :=
  {| tick_reply := if (i <? 3)%nat then Demo.processing
                   else Demo.succeeded Scenario.weights;
     tick_latency := 400;
     tick_oversleep := 0 |}.
End Quick.

(* ================================================================== *)
(** ** Facts about the primitives, the handlers and the runs *)
(* ================================================================== *)

Example generateTriggerWord_Sarah :
  generateTriggerWord upper_ascii "Sarah J." 7 = "SARAHJ007".
Proof. reflexivity. Qed.

Example started_has_job : jobs Demo.started !! "job-1" = Some Demo.started_job.
Proof. vm_compute. reflexivity. Qed.

Lemma truthy_Some (s : string) : truthy (Some s) = true <-> s ≠ "".
Proof.
  unfold truthy. destruct (String.eqb_spec s ""); simpl; split; congruence.
Qed.

Lemma js_or_default_truthy (s d : string) :
  s ≠ "" -> js_or_default (Some s) d = s.
Proof.
  intros H. unfold js_or_default.
  destruct (String.eqb_spec s ""); congruence.
Qed.

Lemma keep_truthy_Some (s : string) : s ≠ "" -> keep_truthy (Some s) = Some s.
Proof.
  intros H. unfold keep_truthy. apply truthy_Some in H. now rewrite H.
Qed.

Lemma keep_truthy_default (o : option string) (d : string) :
  js_or_default (keep_truthy o) d = js_or_default o d.
Proof.
  unfold keep_truthy, js_or_default, truthy.
  destruct o as [s|]; [|reflexivity].
  destruct (String.eqb_spec s ""); simpl; [reflexivity|].
  destruct (String.eqb_spec s ""); congruence.
Qed.

(** The poll route on a job that the provider knows: the three writes-or-not
    spelled out. *)
Lemma poll_active (w : World) (jid : string) (job : Job.t) (env : PollEnv) :
  jid ≠ "" ->
  jobs w !! jid = Some job ->
  is_terminal (Job.status job) = false ->
  truthy (Job.replicate_training_id job) = true ->
  let rs_w1 :=
    checkTrainingStatus (default "" (Job.replicate_training_id job))
      (get_reply env) w in
  let rs := fst rs_w1 in
  let w2 :=
    match st_status rs with
    | Replicate.succeeded =>
        db_update_model (db_now env) (Job.model_id job)
          (completion_patch jid job rs) (snd rs_w1)
    | Replicate.failed | Replicate.canceled =>
        emit (ConsoleError
                ("Training " ++ Replicate.to_string (st_status rs) ++ ":"))
          (snd rs_w1)
    | _ => snd rs_w1
    end in
  snd (POST_poll_training (mkPollBody (Some jid)) env w)
  = match poll_dbUpdate env job rs with
    | Some p => db_update_job (db_now env) jid p w2
    | None => w2
    end.
Proof.
  intros Hid Hjob Hterm Hrid. unfold POST_poll_training.
  cbn [training_job_id]. apply truthy_Some in Hid. rewrite Hid.
  cbn [negb from_option]. unfold id at 1.
  rewrite Hjob, Hterm, Hrid. cbn [negb].
  destruct (checkTrainingStatus _ _ _) as [rs w1]. reflexivity.
Qed.

Lemma checkTrainingStatus_store (tid : string) (reply : GetReply) (w : World) :
  let w1 := snd (checkTrainingStatus tid reply w) in
  jobs w1 = jobs w /\ models w1 = models w /\ past w1 = past w.
Proof. destruct reply; simpl; auto. Qed.

Lemma db_update_job_jobs (now jid : string) (p : Job.patch) (w : World)
    (old : Job.t) :
  jobs w !! jid = Some old ->
  Job.accepts p = true ->
  jobs (db_update_job now jid p w) = <[jid := Job.apply p old]> (jobs w).
Proof. intros H Ha. unfold db_update_job. now rewrite H, Ha. Qed.

(** An update that the columns refuse leaves the tables and the record of
    the writes as they were. *)
Lemma db_update_job_refused (now jid : string) (p : Job.patch) (w : World) :
  Job.accepts p = false ->
  db_update_job now jid p w = emit (DbUpdateJob jid p) w.
Proof.
  intros Ha. unfold db_update_job. rewrite Ha. now destruct (jobs w !! jid).
Qed.

(** The progress that the handlers write passes the CHECK of the column. *)
Lemma accepts_progress (s : option JobStatus) (x : Z)
    (e u : option string) (i : option (list string)) (a c : option string) :
  0 <= x <= 100 -> Job.accepts (Job.mkPatch s (Some x) None e u i a c) = true.
Proof.
  intros H. unfold Job.accepts. cbn.
  apply andb_true_intro. split; [apply Z.leb_le | apply Z.leb_le]; lia.
Qed.

(** The last update of a started training is refused exactly when the
    provider's id is wider than its column. *)
Lemma start_training_patch_accepts (env : TrainEnv) (r : LoRATrainingOutput) :
  Job.accepts (start_training_patch env r)
  = from_option (fun s => (characters s <=? 100)%nat) true
      (out_replicate_training_id r).
Proof. unfold Job.accepts. cbn. apply andb_true_r. Qed.

Lemma start_failed_patch_accepts (r : LoRATrainingOutput) :
  Job.accepts (start_failed_patch r) = true.
Proof. reflexivity. Qed.

Lemma poll_dbUpdate_accepts (env : PollEnv) (job : Job.t)
    (rs : LoRATrainingStatus) (p : Job.patch) :
  poll_dbUpdate env job rs = Some p -> Job.accepts p = true.
Proof.
  unfold poll_dbUpdate. destruct (st_status rs); try discriminate;
    try destruct (extract_output _); intros [= <-];
    apply accepts_progress; lia.
Qed.

Lemma db_update_job_models (now jid : string) (p : Job.patch) (w : World) :
  Job.p_status p ≠ Some completed ->
  models (db_update_job now jid p w) = models w.
Proof.
  intros Hp. unfold db_update_job.
  destruct (jobs w !! jid) as [old|] eqn:E; [|reflexivity].
  destruct (Job.accepts p); [|reflexivity].
  simpl. unfold update_model_on_lora_completion.
  destruct (bool_decide (Job.status (Job.apply p old) = completed)) eqn:Hn;
    [|reflexivity].
  destruct (bool_decide (Job.status old = completed)) eqn:Ho; [reflexivity|].
  apply bool_decide_eq_true_1 in Hn. apply bool_decide_eq_false_1 in Ho.
  simpl in Hn. destruct (Job.p_status p); simpl in Hn; congruence.
Qed.

(** Reduce a poll of an active job to the writes it makes, for the reply at
    hand. *)
Ltac at_active_poll Hid Hjob Hterm Hrid Hreply :=
  rewrite (poll_active _ _ _ _ Hid Hjob Hterm Hrid);
  rewrite Hreply;
  cbn [checkTrainingStatus fst snd st_status st_output poll_dbUpdate].

(** The polled row after the write of [dbUpdate]. *)
Ltac polled_row Hjob :=
  erewrite db_update_job_jobs
    by first [ simpl; exact Hjob | apply accepts_progress; lia ];
  apply lookup_insert_eq.

Lemma not_terminal_not_completed (s : JobStatus) :
  is_terminal s = false -> s ≠ completed.
Proof. destruct s; simpl; congruence. Qed.

(** The poll route writes a job row only through [poll_dbUpdate], whose
    status, if any, is training, completed or failed. *)
Lemma poll_dbUpdate_status (env : PollEnv) (job : Job.t)
    (rs : LoRATrainingStatus) (p : Job.patch) :
  poll_dbUpdate env job rs = Some p ->
  Job.p_status p = Some training \/ Job.p_status p = Some completed
  \/ Job.p_status p = Some failed.
Proof.
  unfold poll_dbUpdate. destruct (st_status rs); try discriminate;
    try destruct (extract_output _); intros [= <-]; simpl; auto.
Qed.

Lemma wait_loop_terminal_reply (fuel : nat) (tid : string)
    (ticks : nat -> Tick) (k : nat) (elapsed : N) (w : World)
    (s : Replicate.Status) (logs err : option string) (out : Output) :
  (elapsed < maxWaitTime)%N ->
  tick_reply (ticks k) = GetOk s logs out err ->
  s = Replicate.failed \/ s = Replicate.canceled ->
  exists o, fst (wait_loop (S fuel) tid ticks k elapsed w) = Some o
            /\ out_success o = false
            /\ out_error o
               = Some (js_or_default err ("Training " ++ Replicate.to_string s)).
Proof.
  intros Hlt Hreply Hs. cbn [wait_loop].
  apply N.ltb_lt in Hlt. rewrite Hlt, Hreply.
  cbn [checkTrainingStatus st_status st_error].
  destruct Hs as [-> | ->]; eexists; (split; [reflexivity|]); simpl;
    now rewrite keep_truthy_default.
Qed.

Lemma validate_request_invalid (body : StartLoRATrainingRequest) :
  invalid_request body -> exists msg, validate_request body = Some msg.
Proof.
  unfold invalid_request, validate_request.
  intros [H | [H | [H | (images & H & Hlen)]]].
  - rewrite H. destruct (rq_gender body), (rq_training_images body); simpl; eauto.
  - rewrite H. eauto.
  - rewrite H. destruct (rq_gender body); eauto.
  - rewrite H. destruct (rq_gender body); [|eauto].
    destruct Hlen as [Hlen | Hlen].
    + apply Nat.ltb_lt in Hlen. rewrite Hlen, orb_true_r. eauto.
    + apply Nat.ltb_lt in Hlen. rewrite Hlen.
      destruct (_ || _); eauto.
Qed.

Lemma create_or_get_model_ready (body : StartLoRATrainingRequest)
    (g : Gender) (images : list string) (env : TrainEnv) (w : World)
    (mid : string) :
  model_ready body env w mid ->
  exists w1, create_or_get_model body g images env w = (inr mid, w1)
             /\ jobs w1 = jobs w /\ is_Some (models w1 !! mid).
Proof.
  unfold create_or_get_model.
  intros [(Hid & Herr & Hfresh & ->) | (Hid & Hne & Hm)].
  - rewrite Hid. unfold db_insert_model. rewrite Herr. cbn [Model.id].
    rewrite Hfresh. eexists. split; [reflexivity|]. simpl.
    split; [reflexivity|]. rewrite lookup_insert_eq. eauto.
  - rewrite Hid. apply truthy_Some in Hne. rewrite Hne. simpl. eauto.
Qed.

(** *** What the primitives do to the store *)
Lemma startLoRATraining_store (input : LoRATrainingInput)
    (reply : CreateReply) (ms : N) (w : World) :
  let w1 := snd (startLoRATraining input reply ms w) in
  jobs w1 = jobs w /\ models w1 = models w /\ past w1 = past w.
Proof.
  unfold startLoRATraining.
  destruct (_ || _)%nat; [simpl; auto|]. destruct reply; simpl; auto.
Qed.

Lemma startLoRATraining_result (input : LoRATrainingInput)
    (reply : CreateReply) (ms : N) (w w' : World) :
  fst (startLoRATraining input reply ms w)
  = fst (startLoRATraining input reply ms w').
Proof.
  unfold startLoRATraining.
  destruct (_ || _)%nat; [reflexivity|]. destruct reply; reflexivity.
Qed.

Lemma db_update_job_trigger (now jid : string) (p : Job.patch) (w : World)
    (old : Job.t) :
  jobs w !! jid = Some old ->
  Job.accepts p = true ->
  models (db_update_job now jid p w)
  = update_model_on_lora_completion now old (Job.apply p old) (models w).
Proof. intros H Ha. unfold db_update_job. now rewrite H, Ha. Qed.

Lemma db_update_job_past (now jid : string) (p : Job.patch) (w : World)
    (old : Job.t) :
  jobs w !! jid = Some old ->
  Job.accepts p = true ->
  past (db_update_job now jid p w) = jobs w :: past w.
Proof. intros H Ha. unfold db_update_job. now rewrite H, Ha. Qed.

Lemma launch_training_store (env : TrainEnv)
    (jid mid tw name : string) (images : list string) (steps : N)
    (rate : QArith_base.Q) (w2 : World) (row : Job.t) :
  jobs w2 !! jid = Some row ->
  let r := fst (startLoRATraining (training_input images tw steps rate)
                  (create_reply env) (elapsed_ms env) w2) in
  let up := Job.apply uploading_patch row in
  let w' := snd (launch_training env jid mid tw name images steps rate w2) in
  jobs w' = <[jid := updated (final_patch env r) up]> (jobs w2)
  /\ past w' = recorded (final_patch env r) (<[jid := up]> (jobs w2))
                (jobs w2 :: past w2)
  /\ models w' = models w2.
Proof.
  intros Hrow r up w'. subst w'. unfold launch_training.
  set (w3 := db_update_job (t_db_now env) jid uploading_patch w2).
  assert (H3j : jobs w3 = <[jid := up]> (jobs w2))
    by (apply db_update_job_jobs; [assumption | reflexivity]).
  assert (H3p : past w3 = jobs w2 :: past w2)
    by (eapply db_update_job_past; [eassumption | reflexivity]).
  assert (H3m : models w3 = models w2).
  { apply db_update_job_models. discriminate. }
  assert (Hr : fst (startLoRATraining (training_input images tw steps rate)
                      (create_reply env) (elapsed_ms env) w3) = r)
    by apply startLoRATraining_result.
  pose proof (startLoRATraining_store (training_input images tw steps rate)
                (create_reply env) (elapsed_ms env) w3) as Hst.
  destruct (startLoRATraining _ _ _ w3) as [r' w4].
  cbn [fst snd] in Hr, Hst. subst r'. destruct Hst as (H4j & H4m & H4p).
  assert (Hup : jobs w4 !! jid = Some up)
    by (rewrite H4j, H3j; apply lookup_insert_eq).
  assert (Hfin : forall p, Job.p_status p ≠ Some completed ->
    let w5 := db_update_job (t_db_now env) jid p w4 in
    jobs w5 = <[jid := updated p up]> (jobs w2)
    /\ past w5 = recorded p (<[jid := up]> (jobs w2)) (jobs w2 :: past w2)
    /\ models w5 = models w2).
  { intros p Hp w5. subst w5. unfold updated, recorded.
    destruct (Job.accepts p) eqn:Ha.
    - split; [|split].
      + rewrite (db_update_job_jobs _ _ _ _ _ Hup Ha), H4j, H3j.
        apply insert_insert_eq.
      + rewrite (db_update_job_past _ _ _ _ _ Hup Ha), H4j, H4p, H3j, H3p.
        reflexivity.
      + rewrite db_update_job_models; [congruence | assumption].
    - rewrite (db_update_job_refused _ _ _ _ Ha). cbn [emit jobs past models].
      rewrite H4j, H4p, H4m, H3j, H3p, H3m. auto. }
  unfold final_patch.
  destruct (negb (out_success r) || negb (truthy _)); cbn [snd];
    apply Hfin; discriminate.
Qed.

Lemma create_or_get_model_store (body : StartLoRATrainingRequest) (g : Gender)
    (images : list string) (env : TrainEnv) (w : World) :
  let w1 := snd (create_or_get_model body g images env w) in
  jobs w1 = jobs w /\ past w1 = past w.
Proof.
  unfold create_or_get_model. destruct (truthy (rq_model_id body)); [auto|].
  unfold db_insert_model. destruct (model_insert_error env); [simpl; auto|].
  cbn [Model.id]. destruct (models w !! model_uuid env); simpl; auto.
Qed.

(** The job table after the train-lora route: untouched, or one new row
    that went through pending and uploading to its last status. *)
Lemma start_store (body : StartLoRATrainingRequest) (env : TrainEnv)
    (w : World) :
  let w' := snd (POST_train_lora body env w) in
  (jobs w' = jobs w /\ past w' = past w)
  \/ exists mid images tw steps rate r,
       let jid := job_uuid env in
       let row := new_job_row env mid images tw steps rate in
       let up := Job.apply uploading_patch row in
       jobs w !! jid = None
       /\ jobs w' = <[jid := updated (final_patch env r) up]> (jobs w)
       /\ past w' = recorded (final_patch env r)
                      (<[jid := up]> (<[jid := row]> (jobs w)))
                      (<[jid := row]> (jobs w) :: jobs w :: past w).
Proof.
  unfold POST_train_lora.
  destruct (negb (supabase_configured env)); [now left|].
  destruct (validate_request body); [now left|].
  set (images := default [] (rq_training_images body)).
  set (g := default female (rq_gender body)).
  set (name := default "" (rq_model_name body)).
  set (tw := if truthy (rq_trigger_word body) then _ else _).
  pose proof (create_or_get_model_store body g images env w) as Hc.
  destruct (create_or_get_model body g images env w) as [[msg | mid] w1];
    cbn [snd] in Hc; destruct Hc as [Hj1 Hp1]; [now left|].
  set (steps := js_or_num (rq_steps body) 1000).
  set (rate := js_or_rate (rq_learning_rate body) rate_default).
  set (row := new_job_row env mid images tw steps rate).
  unfold db_insert_job. change (Job.id row) with (job_uuid env).
  destruct (job_insert_error env); [now left|].
  destruct (jobs w1 !! job_uuid env) eqn:Hfresh; [now left|].
  destruct (models w1 !! Job.model_id row); [|now left].
  right. exists mid, images, tw, steps, rate.
  set (w2 := {| jobs := _; models := _; log := _; past := _ |}).
  assert (Hrow : jobs w2 !! job_uuid env = Some row)
    by apply lookup_insert_eq.
  eexists. cbn zeta. change (Job.id row) with (job_uuid env). subst row.
  destruct (launch_training_store env (job_uuid env) mid tw name images
              steps rate w2 _ Hrow) as (Hj & Hp & _).
  split; [now rewrite <- Hj1|]. split.
  - rewrite Hj. subst w2. cbn [jobs emit]. rewrite Hj1.
    apply insert_insert_eq.
  - rewrite Hp. subst w2. cbn [jobs past emit]. now rewrite Hj1, Hp1.
Qed.

Lemma checkTrainingStatus_updates (tid : string) (reply : GetReply)
    (w : World) (j : string) :
  completion_updates j (log (snd (checkTrainingStatus tid reply w)))
  = completion_updates j (log w).
Proof. destruct reply; reflexivity. Qed.

Lemma db_update_job_updates (now jid : string) (p : Job.patch) (w : World)
    (j : string) :
  completion_updates j (log (db_update_job now jid p w))
  = completion_updates j (log w).
Proof.
  unfold db_update_job. destruct (jobs w !! jid); [|reflexivity].
  now destruct (Job.accepts p).
Qed.

Lemma poll_dbUpdate_completed (env : PollEnv) (job : Job.t)
    (rs : LoRATrainingStatus) (p : Job.patch) :
  poll_dbUpdate env job rs = Some p ->
  Job.p_status p = Some completed <-> st_status rs = Replicate.succeeded.
Proof.
  unfold poll_dbUpdate. destruct (st_status rs); try discriminate;
    try destruct (extract_output _); intros [= <-]; simpl;
    split; congruence.
Qed.

(** What one call of the poll route does to the store: nothing, or it
    rewrites the polled row, which was not terminal, with [dbUpdate], after
    having issued the update of the model when the provider reports
    succeeded. *)
Lemma poll_effect (body : PollBody) (env : PollEnv) (w : World) :
  let w' := snd (POST_poll_training body env w) in
  (jobs w' = jobs w /\ past w' = past w
   /\ forall j, completion_updates j (log w') = completion_updates j (log w))
  \/ exists jid old rs p,
       jobs w !! jid = Some old
       /\ is_terminal (Job.status old) = false
       /\ poll_dbUpdate env old rs = Some p
       /\ jobs w' = <[jid := Job.apply p old]> (jobs w)
       /\ past w' = jobs w :: past w
       /\ forall j,
            completion_updates j (log w')
            = ((if bool_decide (j = jid /\ Job.p_status p = Some completed)
                then 1 else 0) + completion_updates j (log w))%nat.
Proof.
  unfold POST_poll_training.
  destruct (negb (truthy (training_job_id body))); [now left|].
  set (jid := default "" (training_job_id body)).
  destruct (jobs w !! jid) as [job|] eqn:Hjob; [|now left].
  destruct (is_terminal (Job.status job)) eqn:Hterm; [now left|].
  destruct (negb (truthy (Job.replicate_training_id job))); [now left|].
  pose proof (checkTrainingStatus_store
                (default "" (Job.replicate_training_id job))
                (get_reply env) w) as Hst.
  pose proof (checkTrainingStatus_updates
                (default "" (Job.replicate_training_id job))
                (get_reply env) w) as Hlog.
  destruct (checkTrainingStatus _ _ _) as [rs w1]. simpl in Hst, Hlog.
  destruct Hst as (Hj1 & _ & Hp1). cbn [snd].
  set (w2 := match st_status rs with
             | Replicate.succeeded => _
             | Replicate.failed | Replicate.canceled => _
             | _ => w1 end).
  assert (H2 : jobs w2 = jobs w /\ past w2 = past w
               /\ forall j,
                    completion_updates j (log w2)
                    = ((if bool_decide
                             (j = jid /\ st_status rs = Replicate.succeeded)
                        then 1 else 0) + completion_updates j (log w))%nat).
  { subst w2. split; [|split].
    - destruct (st_status rs); simpl; assumption.
    - destruct (st_status rs); simpl; assumption.
    - intros j. rewrite <- Hlog.
      destruct (st_status rs);
        cbn [log emit db_update_model completion_updates completion_patch
             Model.p_lora_training_job_id];
        try (rewrite bool_decide_eq_false_2 by (intros [_ H]; discriminate);
             reflexivity).
      f_equal. destruct (decide (j = jid)) as [->|Hne].
      + rewrite !bool_decide_eq_true_2; auto.
      + rewrite !bool_decide_eq_false_2; [reflexivity | tauto | congruence]. }
  destruct H2 as (Hj2 & Hp2 & Hl2).
  destruct (poll_dbUpdate env job rs) as [p|] eqn:Hp.
  - assert (Hjob2 : jobs w2 !! jid = Some job) by now rewrite Hj2.
    right. exists jid, job, rs, p.
    pose proof (poll_dbUpdate_accepts _ _ _ _ Hp) as Ha.
    rewrite (db_update_job_jobs _ _ _ _ _ Hjob2 Ha).
    rewrite (db_update_job_past _ _ _ _ _ Hjob2 Ha), Hj2, Hp2.
    repeat split; try assumption. intros j.
    rewrite db_update_job_updates, Hl2. f_equal.
    apply poll_dbUpdate_completed in Hp.
    destruct (decide (j = jid /\ st_status rs = Replicate.succeeded))
      as [[-> Hs] | Hn].
    + rewrite !bool_decide_eq_true_2; tauto.
    + rewrite !bool_decide_eq_false_2; tauto.
  - left. repeat split; try assumption. intros j. rewrite Hl2.
    rewrite bool_decide_eq_false_2; [reflexivity|].
    intros [_ Hs]. unfold poll_dbUpdate in Hp. rewrite Hs in Hp.
    destruct (extract_output _); discriminate.
Qed.

(** The job table after the poll route: untouched, or the polled row, which
    was not terminal, rewritten with [dbUpdate]. *)
Lemma poll_store (body : PollBody) (env : PollEnv) (w : World) :
  let w' := snd (POST_poll_training body env w) in
  (jobs w' = jobs w /\ past w' = past w)
  \/ exists jid old rs p,
       jobs w !! jid = Some old
       /\ is_terminal (Job.status old) = false
       /\ poll_dbUpdate env old rs = Some p
       /\ jobs w' = <[jid := Job.apply p old]> (jobs w)
       /\ past w' = jobs w :: past w.
Proof.
  destruct (poll_effect body env w)
    as [(Hj & Hp & _) | (jid & old & rs & p & H1 & H2 & H3 & H4 & H5 & _)];
    [left; auto | right; exists jid, old, rs, p; auto].
Qed.

(** Row by row: the polled row, if the route wrote it, is the old row with
    [dbUpdate] applied; every other row is as it was. *)
Lemma poll_rows (body : PollBody) (env : PollEnv) (w : World) (j : string) :
  let w' := snd (POST_poll_training body env w) in
  jobs w' !! j = jobs w !! j
  \/ exists old rs p,
       jobs w !! j = Some old
       /\ is_terminal (Job.status old) = false
       /\ poll_dbUpdate env old rs = Some p
       /\ jobs w' !! j = Some (Job.apply p old).
Proof.
  destruct (poll_store body env w)
    as [[Hj _] | (jid & old & rs & p & Hold & Hterm & Hp & Hj & _)];
    cbv zeta; rewrite Hj; [now left|].
  destruct (decide (j = jid)) as [->|Hne].
  - right. exists old, rs, p. rewrite lookup_insert_eq. auto.
  - left. now rewrite lookup_insert_ne.
Qed.

Lemma status_forward_refl (s : JobStatus) : status_forward s s.
Proof. split; auto. Qed.

Lemma status_forward_trans (a b c : JobStatus) :
  status_forward a b -> status_forward b c -> status_forward a c.
Proof.
  intros [H1 T1] [H2 T2]. split; [lia|].
  intros Ha. specialize (T1 Ha). subst b. auto.
Qed.

Lemma last_cons_default {A} (r : list A) (t d : A) :
  List.last (t :: r) d = List.last r t.
Proof.
  revert t d. induction r as [|x r IH]; intros t d; [reflexivity|].
  change (List.last (x :: r) d = List.last (x :: r) t).
  now rewrite !IH.
Qed.

Section Rows.
Variable R : Job.t -> Job.t -> Prop.

Lemma rows_related_refl (m : gmap string Job.t) :
  (forall a, R a a) -> rows_related R m m.
Proof. intros HR j a Ha. eauto. Qed.

Lemma rows_related_trans (m1 m2 m3 : gmap string Job.t) :
  (forall a b c, R a b -> R b c -> R a c) ->
  rows_related R m1 m2 -> rows_related R m2 m3 -> rows_related R m1 m3.
Proof.
  intros HR H12 H23 j a Ha.
  destruct (H12 j a Ha) as (b & Hb & Hab).
  destruct (H23 j b Hb) as (c & Hc & Hbc). eauto.
Qed.

(** Writing one row [j]: the row it replaces, if any, must be related to
    the new one. *)
Lemma rows_related_insert (m : gmap string Job.t) (j : string) (b : Job.t) :
  (forall a, R a a) ->
  (forall a, m !! j = Some a -> R a b) ->
  rows_related R m (<[j := b]> m).
Proof.
  intros Hrefl Hj k a Ha. destruct (decide (k = j)) as [->|Hne].
  - exists b. rewrite lookup_insert_eq. auto.
  - exists a. rewrite lookup_insert_ne by congruence. auto.
Qed.

Lemma history_related_last (newest : gmap string Job.t)
    (earlier : list (gmap string Job.t)) :
  (forall a, R a a) ->
  (forall a b c, R a b -> R b c -> R a c) ->
  history_related R newest earlier ->
  rows_related R (List.last earlier newest) newest.
Proof.
  intros Hrefl Htrans. revert newest.
  induction earlier as [|t r IH]; intros newest H.
  - now apply rows_related_refl.
  - destruct H as [H1 H2]. specialize (IH t H2).
    rewrite last_cons_default. eapply rows_related_trans; eassumption.
Qed.
End Rows.

Lemma rows_ok_insert (I : Job.t -> Prop) (m : gmap string Job.t)
    (j : string) (b : Job.t) :
  rows_ok I m -> I b -> rows_ok I (<[j := b]> m).
Proof.
  intros Hm Hb k a. destruct (decide (k = j)) as [->|Hne].
  - rewrite lookup_insert_eq. now intros [= <-].
  - rewrite lookup_insert_ne by congruence. apply Hm.
Qed.

(** A relation between the old and the new content of a row, and a property
    of rows, that every single write of the two routes respects, hold along
    every run. *)
Section Lifecycle.
Variable R : Job.t -> Job.t -> Prop.
Variable I : Job.t -> Prop.

Hypothesis R_refl : forall a, R a a.

Hypothesis poll_patch :
  forall env old rs p,
    I old -> is_terminal (Job.status old) = false ->
    poll_dbUpdate env old rs = Some p ->
    R old (Job.apply p old) /\ I (Job.apply p old).

Hypothesis start_uploading :
  forall env mid images tw steps rate,
    let row := new_job_row env mid images tw steps rate in
    R row (Job.apply uploading_patch row)
    /\ I (Job.apply uploading_patch row).

Hypothesis start_final :
  forall env mid images tw steps rate r,
    let up := Job.apply uploading_patch
                (new_job_row env mid images tw steps rate) in
    R up (Job.apply (final_patch env r) up)
    /\ I (Job.apply (final_patch env r) up).

Lemma poll_sound (body : PollBody) (env : PollEnv) (w : World) :
  sound R I w -> sound R I (snd (POST_poll_training body env w)).
Proof.
  intros [Hok Hh].
  destruct (poll_store body env w)
    as [[Hj Hp] | (jid & old & rs & p & Hold & Hterm & Hup & Hj & Hp)];
    unfold sound; rewrite Hj, Hp; [auto|].
  destruct (poll_patch env old rs p (Hok _ _ Hold) Hterm Hup) as [HR HI].
  split; [now apply rows_ok_insert|].
  split; [|assumption].
  apply rows_related_insert; [assumption|].
  intros a Ha. rewrite Hold in Ha. now injection Ha as <-.
Qed.

Lemma start_sound (body : StartLoRATrainingRequest) (env : TrainEnv)
    (w : World) :
  sound R I w -> sound R I (snd (POST_train_lora body env w)).
Proof.
  intros [Hok Hh].
  destruct (start_store body env w)
    as [[Hj Hp] | (mid & images & tw & steps & rate & r & Hfresh & Hj & Hp)];
    unfold sound; rewrite Hj, Hp; [auto|].
  destruct (start_uploading env mid images tw steps rate) as [Ru Iu].
  destruct (start_final env mid images tw steps rate r) as [Rf If].
  unfold updated, recorded.
  destruct (Job.accepts (final_patch env r));
    (split; [now apply rows_ok_insert|]);
    cbn [history_related]; repeat split; try assumption.
  - match goal with
    | |- rows_related R (<[?j := ?u]> (<[?j := ?n]> ?m)) (<[?j := ?f]> ?m) =>
        replace (<[j := f]> m) with (<[j := f]> (<[j := u]> (<[j := n]> m)))
          by now rewrite !insert_insert_eq
    end.
    apply rows_related_insert; [assumption|].
    intros a. rewrite lookup_insert_eq. now intros [= <-].
  - apply rows_related_insert; [assumption|].
    intros a. rewrite lookup_insert_eq. now intros [= <-].
  - apply rows_related_insert; [assumption|].
    intros a. rewrite Hfresh. discriminate.
  - match goal with
    | |- rows_related R (<[?j := ?n]> ?m) (<[?j := ?u]> ?m) =>
        replace (<[j := u]> m) with (<[j := u]> (<[j := n]> m))
          by now rewrite insert_insert_eq
    end.
    apply rows_related_insert; [assumption|].
    intros a. rewrite lookup_insert_eq. now intros [= <-].
  - apply rows_related_insert; [assumption|].
    intros a. rewrite Hfresh. discriminate.
Qed.

Lemma step_sound (op : Op) (w : World) :
  sound R I w -> sound R I (step op w).
Proof. destruct op; [apply start_sound | apply poll_sound]. Qed.

Lemma run_sound (ops : list Op) (w : World) :
  sound R I w -> sound R I (run ops w).
Proof.
  revert w. induction ops as [|op ops IH]; intros w H; [assumption|].
  apply IH. now apply step_sound.
Qed.
End Lifecycle.

Lemma final_patch_status (env : TrainEnv) (r : LoRATrainingOutput) :
  (Job.p_status (final_patch env r) = Some failed
   /\ Job.p_progress (final_patch env r) = Some 0
   /\ Job.p_replicate_training_id (final_patch env r) = None)
  \/ (Job.p_status (final_patch env r) = Some training
      /\ Job.p_progress (final_patch env r) = Some 20
      /\ truthy (Job.p_replicate_training_id (final_patch env r)) = true).
Proof.
  unfold final_patch.
  destruct (out_success r); cbn [negb orb]; [|left; auto].
  destruct (truthy (out_replicate_training_id r)) eqn:E; cbn [negb];
    [right | left]; auto.
Qed.

Lemma final_patch_weights (env : TrainEnv) (r : LoRATrainingOutput) :
  Job.p_lora_weights_url (final_patch env r) = None.
Proof. unfold final_patch. now destruct (_ || _). Qed.

Lemma step_origin (op : Op) (w : World) : origin (step op w) = origin w.
Proof.
  unfold origin. destruct op as [body env | body env]; cbn [step].
  - destruct (start_store body env w)
      as [[Hj Hp] | (mid & images & tw & steps & rate & r & _ & Hj & Hp)];
      rewrite Hp; [now rewrite Hj|].
    unfold recorded. destruct (Job.accepts _);
      now rewrite !last_cons_default.
  - destruct (poll_store body env w)
      as [[Hj Hp] | (jid & old & rs & p & _ & _ & _ & Hj & Hp)];
      rewrite Hp; [now rewrite Hj|].
    now rewrite last_cons_default.
Qed.

Lemma run_origin (ops : list Op) (w : World) : origin (run ops w) = origin w.
Proof.
  revert w. induction ops as [|op ops IH]; intros w; [reflexivity|].
  cbn [run fold_left]. fold (run ops (step op w)).
  now rewrite IH, step_origin.
Qed.

Lemma run_forward (ops : list Op) (w : World) :
  history_related row_forward (jobs w) (past w) ->
  history_related row_forward (jobs (run ops w)) (past (run ops w)).
Proof.
  intros H.
  apply (run_sound row_forward (fun _ => True)); [| | | | split; [|exact H]].
  - intros a. apply status_forward_refl.
  - intros env old rs p _ Hterm Hp. split; [|exact I].
    apply poll_dbUpdate_status in Hp. unfold row_forward, status_forward.
    cbn [Job.apply Job.status]. rewrite Hterm.
    destruct (Job.status old); try discriminate;
      destruct Hp as [-> | [-> | ->]]; simpl; split; (lia || discriminate).
  - intros env mid images tw steps rate. split; [|exact I].
    split; simpl; [lia | discriminate].
  - intros env mid images tw steps rate r. split; [|exact I].
    unfold row_forward, status_forward. cbn [Job.apply Job.status].
    destruct (final_patch_status env r) as [(-> & _) | (-> & _)]; simpl;
      split; (lia || discriminate).
  - intros j a _. exact I.
Qed.

Lemma poll_write_progress (env : PollEnv) (old : Job.t)
    (rs : LoRATrainingStatus) (p : Job.patch) :
  job_ok old -> is_terminal (Job.status old) = false ->
  poll_dbUpdate env old rs = Some p ->
  progress_kept_or_failed old (Job.apply p old) /\ job_ok (Job.apply p old).
Proof.
  unfold poll_dbUpdate, job_ok, progress_kept_or_failed.
  intros Hok Hterm Hp.
  destruct (st_status rs); try discriminate;
    try destruct (extract_output _) as [url imgs];
    injection Hp as <-; cbn [Job.apply Job.status Job.progress
      Job.lora_weights_url Job.p_status Job.p_progress
      Job.p_lora_weights_url from_option];
    unfold id;
    destruct (Job.status old); try discriminate; intuition lia.
Qed.

Lemma run_progress (ops : list Op) (w : World) :
  rows_ok job_ok (jobs w) ->
  history_related progress_kept_or_failed (jobs w) (past w) ->
  rows_ok job_ok (jobs (run ops w))
  /\ history_related progress_kept_or_failed
       (jobs (run ops w)) (past (run ops w)).
Proof.
  intros Hok Hh.
  apply (run_sound progress_kept_or_failed job_ok);
    [| | | | split; assumption].
  - intros a. left. lia.
  - apply poll_write_progress.
  - intros env mid images tw steps rate.
    unfold progress_kept_or_failed, job_ok. simpl. split; [left; lia | auto].
  - intros env mid images tw steps rate r.
    unfold progress_kept_or_failed, job_ok.
    cbn [Job.apply Job.status Job.progress Job.lora_weights_url].
    rewrite final_patch_weights.
    destruct (final_patch_status env r) as [(-> & -> & _) | (-> & -> & _)];
      simpl; intuition lia.
Qed.

(** The poll route issues the update of the model exactly when it writes
    status completed. *)
Lemma poll_updates (body : PollBody) (env : PollEnv) (w : World) :
  let w' := snd (POST_poll_training body env w) in
  (jobs w' = jobs w
   /\ forall j, completion_updates j (log w') = completion_updates j (log w))
  \/ exists jid old rs p,
       jobs w !! jid = Some old
       /\ is_terminal (Job.status old) = false
       /\ poll_dbUpdate env old rs = Some p
       /\ jobs w' = <[jid := Job.apply p old]> (jobs w)
       /\ forall j,
            completion_updates j (log w')
            = ((if bool_decide (j = jid /\ Job.p_status p = Some completed)
                then 1 else 0) + completion_updates j (log w))%nat.
Proof.
  destruct (poll_effect body env w)
    as [(Hj & _ & Hl) | (jid & old & rs & p & H1 & H2 & H3 & H4 & _ & H6)];
    [left; auto | right; exists jid, old, rs, p; auto].
Qed.

Lemma create_or_get_model_updates (body : StartLoRATrainingRequest)
    (g : Gender) (images : list string) (env : TrainEnv) (w : World)
    (j : string) :
  completion_updates j (log (snd (create_or_get_model body g images env w)))
  = completion_updates j (log w).
Proof.
  unfold create_or_get_model. destruct (truthy (rq_model_id body)); [auto|].
  unfold db_insert_model. destruct (model_insert_error env); [reflexivity|].
  cbn [Model.id]. destruct (models w !! model_uuid env); reflexivity.
Qed.

Lemma startLoRATraining_updates (input : LoRATrainingInput)
    (reply : CreateReply) (ms : N) (w : World) (j : string) :
  completion_updates j (log (snd (startLoRATraining input reply ms w)))
  = completion_updates j (log w).
Proof.
  unfold startLoRATraining.
  destruct (_ || _)%nat; [reflexivity|]. destruct reply; reflexivity.
Qed.

(** The train-lora route never issues the update of the model. *)
Lemma start_updates (body : StartLoRATrainingRequest) (env : TrainEnv)
    (w : World) (j : string) :
  completion_updates j (log (snd (POST_train_lora body env w)))
  = completion_updates j (log w).
Proof.
  unfold POST_train_lora.
  destruct (negb (supabase_configured env)); [reflexivity|].
  destruct (validate_request body); [reflexivity|].
  set (images := default [] (rq_training_images body)).
  set (g := default female (rq_gender body)).
  pose proof (create_or_get_model_updates body g images env w j) as Hc.
  destruct (create_or_get_model body g images env w) as [[msg | mid] w1];
    cbn [snd] in Hc; [assumption|].
  unfold db_insert_job.
  destruct (job_insert_error env); [assumption|].
  destruct (jobs w1 !! _); [assumption|].
  destruct (models w1 !! _); [|assumption].
  unfold launch_training.
  match goal with
  | |- context [startLoRATraining ?i ?r ?m ?w3] =>
      pose proof (startLoRATraining_updates i r m w3 j) as Hs;
      destruct (startLoRATraining i r m w3) as [res w4]
  end.
  cbn [snd] in Hs. rewrite db_update_job_updates in Hs.
  destruct (_ || _); cbn [snd]; rewrite db_update_job_updates, Hs; exact Hc.
Qed.

Lemma step_accounted (op : Op) (w : World) : accounted w -> accounted (step op w).
Proof.
  intros Hacc j. destruct op as [body env | body env]; cbn [step].
  - rewrite start_updates, Hacc.
    destruct (start_store body env w)
      as [[Hj _] | (mid & images & tw & steps & rate & r & Hfresh & Hj & _)];
      rewrite Hj; [reflexivity|].
    destruct (decide (j = job_uuid env)) as [->|Hne].
    + rewrite Hfresh, lookup_insert_eq. unfold updated.
      destruct (Job.accepts _); [|reflexivity].
      cbn [Job.apply Job.status].
      destruct (final_patch_status env r) as [(-> & _) | (-> & _)];
        reflexivity.
    + now rewrite lookup_insert_ne by congruence.
  - destruct (poll_updates body env w)
      as [[Hj Hl] | (jid & old & rs & p & Hold & Hterm & Hp & Hj & Hl)].
    + now rewrite Hl, Hj.
    + rewrite Hl, Hj, Hacc. destruct (decide (j = jid)) as [->|Hne].
      * rewrite Hold, lookup_insert_eq.
        rewrite (bool_decide_eq_false_2 (Job.status old = completed))
          by now apply not_terminal_not_completed.
        cbn [Job.apply Job.status].
        apply poll_dbUpdate_status in Hp.
        destruct Hp as [Hp | [Hp | Hp]]; rewrite Hp; cbn [from_option id];
          [ rewrite !bool_decide_eq_false_2
          | rewrite !bool_decide_eq_true_2
          | rewrite !bool_decide_eq_false_2 ];
          first [ reflexivity | discriminate | tauto
                | intros [_ H]; discriminate | auto ].
      * rewrite lookup_insert_ne by congruence.
        rewrite bool_decide_eq_false_2 by tauto. reflexivity.
Qed.

Lemma run_accounted (ops : list Op) (w : World) :
  accounted w -> accounted (run ops w).
Proof.
  revert w. induction ops as [|op ops IH]; intros w H; [assumption|].
  apply IH. now apply step_accounted.
Qed.

Lemma sql_update_model_lookup (now mid : string) (f : Model.t -> Model.t)
    (ms : gmap string Model.t) (m : Model.t) :
  ms !! mid = Some m ->
  sql_update_model now mid f ms !! mid
  = Some (Model.update_updated_at now (f m)).
Proof.
  intros H. unfold sql_update_model. rewrite H. apply lookup_insert_eq.
Qed.

Lemma db_update_job_log (now jid : string) (p : Job.patch) (w : World) :
  log (db_update_job now jid p w) = DbUpdateJob jid p :: log w.
Proof.
  unfold db_update_job. destruct (jobs w !! jid); [|reflexivity].
  now destruct (Job.accepts p).
Qed.

(** A poll of a job that the provider knows asks the provider once, for the
    id stored in the row, whatever the answer. *)
Lemma poll_asks_provider (w : World) (jid tid : string) (job : Job.t)
    (env : PollEnv) :
  jid ≠ "" ->
  jobs w !! jid = Some job ->
  is_terminal (Job.status job) = false ->
  Job.replicate_training_id job = Some tid -> tid ≠ "" ->
  provider_calls (log (snd (POST_poll_training (mkPollBody (Some jid)) env w)))
  = TrainingsGet tid :: provider_calls (log w).
Proof.
  intros Hid Hjob Hterm Htid Hne.
  assert (Hrid : truthy (Job.replicate_training_id job) = true)
    by (rewrite Htid; now apply truthy_Some).
  rewrite (poll_active _ _ _ _ Hid Hjob Hterm Hrid). rewrite Htid.
  cbn [from_option]. unfold id.
  destruct (get_reply env) as [st logs out err | m];
    cbn [checkTrainingStatus fst snd st_status];
    [destruct st|]; cbn [poll_dbUpdate st_status];
    try destruct (extract_output _);
    rewrite ?db_update_job_log; reflexivity.
Qed.

(** The same poll issues the update of the model exactly when the provider
    reports succeeded. *)
Lemma poll_active_updates (w : World) (jid : string) (job : Job.t)
    (env : PollEnv) (st : Replicate.Status) (logs err : option string)
    (out : Output) (j : string) :
  jid ≠ "" ->
  jobs w !! jid = Some job ->
  is_terminal (Job.status job) = false ->
  truthy (Job.replicate_training_id job) = true ->
  get_reply env = GetOk st logs out err ->
  completion_updates j
    (log (snd (POST_poll_training (mkPollBody (Some jid)) env w)))
  = ((if bool_decide (j = jid /\ st = Replicate.succeeded) then 1 else 0)
     + completion_updates j (log w))%nat.
Proof.
  intros Hid Hjob Hterm Hrid Hreply.
  at_active_poll Hid Hjob Hterm Hrid Hreply.
  destruct st; cbn [poll_dbUpdate st_status];
    try destruct (extract_output _);
    rewrite ?db_update_job_updates;
    cbn [log emit db_update_model completion_updates completion_patch
         Model.p_lora_training_job_id];
    try (rewrite bool_decide_eq_false_2 by (intros [_ H]; discriminate);
         reflexivity).
  f_equal. destruct (decide (j = jid)) as [->|Hne].
  - rewrite !bool_decide_eq_true_2; auto.
  - rewrite !bool_decide_eq_false_2; [reflexivity | tauto | congruence].
Qed.

(** A poll on which the provider reports processing. *)
Lemma poll_processing (w : World) (jid : string) (job : Job.t)
    (env : PollEnv) (logs err : option string) (out : Output) :
  jid ≠ "" ->
  jobs w !! jid = Some job ->
  is_terminal (Job.status job) = false ->
  truthy (Job.replicate_training_id job) = true ->
  get_reply env = GetOk Replicate.processing logs out err ->
  let w' := snd (POST_poll_training (mkPollBody (Some jid)) env w) in
  (exists job', jobs w' !! jid = Some job'
                /\ Job.status job' = training
                /\ Job.model_id job' = Job.model_id job
                /\ Job.replicate_training_id job'
                   = Job.replicate_training_id job
                /\ Job.id job' = Job.id job
                /\ Job.trigger_word job' = Job.trigger_word job)
  /\ models w' = models w.
Proof.
  intros Hid Hjob Hterm Hrid Hreply w'. subst w'.
  at_active_poll Hid Hjob Hterm Hrid Hreply.
  split.
  - eexists. split.
    + polled_row Hjob.
    + cbn. auto.
  - rewrite db_update_job_models; [reflexivity | discriminate].
Qed.

(** A poll on which the provider reports succeeded: the row is completed
    with the url that [extract_output] finds, if it finds one, and the model
    of the job, if there is one, is flagged and activated. *)
Lemma poll_succeeded (w : World) (jid : string) (job : Job.t)
    (env : PollEnv) (logs err : option string) (out : Output) :
  jid ≠ "" ->
  jobs w !! jid = Some job ->
  is_terminal (Job.status job) = false ->
  truthy (Job.replicate_training_id job) = true ->
  get_reply env = GetOk Replicate.succeeded logs out err ->
  let w' := snd (POST_poll_training (mkPollBody (Some jid)) env w) in
  (exists job', jobs w' !! jid = Some job'
                /\ Job.status job' = completed
                /\ Job.progress job' = 100
                /\ Job.lora_weights_url job'
                   = from_option Some (Job.lora_weights_url job)
                       (fst (extract_output out)))
  /\ (is_Some (models w !! Job.model_id job) ->
      exists m', models w' !! Job.model_id job = Some m'
                 /\ Model.has_lora_training m' = true
                 /\ Model.is_active m' = true
                 /\ Model.lora_training_job_id m' = Some (Job.id job)
                 /\ Model.lora_trigger_word m' = Some (Job.trigger_word job)
                 /\ (is_Some (fst (extract_output out)) ->
                     Model.lora_weights_url m' = fst (extract_output out))).
Proof.
  intros Hid Hjob Hterm Hrid Hreply w'. subst w'.
  at_active_poll Hid Hjob Hterm Hrid Hreply.
  destruct (extract_output out) as [url imgs] eqn:Hx. cbn [fst].
  set (w1 := db_update_model _ _ _ _).
  assert (Hjob1 : jobs w1 !! jid = Some job) by exact Hjob.
  split.
  - eexists. split.
    + erewrite db_update_job_jobs by first [exact Hjob1 | reflexivity].
      apply lookup_insert_eq.
    + cbn. auto.
  - intros [m Hm].
    erewrite db_update_job_trigger by first [exact Hjob1 | reflexivity].
    unfold update_model_on_lora_completion.
    cbn [Job.apply Job.status Job.p_status from_option id Job.model_id].
    rewrite bool_decide_eq_true_2 by reflexivity.
    rewrite bool_decide_eq_false_2
      by now apply not_terminal_not_completed.
    cbn [negb andb]. subst w1. cbn [models db_update_model].
    erewrite sql_update_model_lookup
      by (apply sql_update_model_lookup; exact Hm).
    eexists. split; [reflexivity|]. cbn.
    repeat split; try reflexivity. now intros [u ->].
Qed.

Lemma validate_request_ok (body : StartLoRATrainingRequest) (name : string)
    (g : Gender) (images : list string) :
  rq_model_name body = Some name -> name ≠ "" ->
  rq_gender body = Some g ->
  rq_training_images body = Some images ->
  (8 <= length images <= 20)%nat ->
  validate_request body = None.
Proof.
  intros Hname Hne Hg Himg [Hlo Hhi]. unfold validate_request.
  rewrite Hg, Himg, Hname. apply truthy_Some in Hne. rewrite Hne.
  rewrite (proj2 (Nat.ltb_ge _ _) Hlo), (proj2 (Nat.ltb_ge _ _) Hhi).
  reflexivity.
Qed.

Lemma js_or_default_if (o : option string) (d : string) :
  (if truthy o then default "" o else d) = js_or_default o d.
Proof.
  destruct o as [x|]; [|reflexivity]. unfold truthy, js_or_default.
  now destruct (String.eqb x "").
Qed.

Lemma create_or_get_model_calls (body : StartLoRATrainingRequest)
    (g : Gender) (images : list string) (env : TrainEnv) (w : World) :
  provider_calls (log (snd (create_or_get_model body g images env w)))
  = provider_calls (log w).
Proof.
  unfold create_or_get_model. destruct (truthy (rq_model_id body)); [auto|].
  unfold db_insert_model. destruct (model_insert_error env); [reflexivity|].
  cbn [Model.id]. destruct (models w !! model_uuid env); reflexivity.
Qed.

(** Once the job row is inserted, the handler asks the provider for one
    training, with the images and the trigger word of the row. *)
Lemma launch_training_calls (env : TrainEnv) (jid mid tw name : string)
    (images : list string) (steps : N) (rate : QArith_base.Q) (w2 : World) :
  (8 <= length images <= 20)%nat ->
  provider_calls
    (log (snd (launch_training env jid mid tw name images steps rate w2)))
  = TrainingsCreate (String.concat "|" images) tw :: provider_calls (log w2).
Proof.
  intros [Hlo Hhi]. unfold launch_training, startLoRATraining, training_input.
  cbn [in_training_images in_trigger_word].
  rewrite (proj2 (Nat.ltb_ge _ _) Hlo), (proj2 (Nat.ltb_ge _ _) Hhi).
  cbn [orb].
  destruct (create_reply env) as [tid st | m];
    cbn [out_success out_replicate_training_id negb orb];
    try destruct (truthy (Some tid)); cbn [negb snd];
    rewrite !db_update_job_log; cbn [provider_calls log emit];
    rewrite !db_update_job_log; reflexivity.
Qed.

(** A valid request on a working server leaves a running job row. *)
Lemma start_leaves_running (body : StartLoRATrainingRequest) (env : TrainEnv)
    (w : World) (name mid tid : string) (g : Gender)
    (images : list string) (st : Replicate.Status) :
  supabase_configured env = true ->
  rq_model_name body = Some name -> name ≠ "" ->
  rq_gender body = Some g ->
  rq_training_images body = Some images ->
  (8 <= length images <= 20)%nat ->
  model_ready body env w mid ->
  job_insert_error env = None ->
  jobs w !! job_uuid env = None ->
  create_reply env = CreateOk tid st -> tid ≠ "" ->
  (characters tid <= 100)%nat ->
  let tw := js_or_default (rq_trigger_word body)
              (generateTriggerWord (js_toUpperCase env) name
                 (random_suffix env)) in
  let w1 := snd (POST_train_lora body env w) in
  (exists job, jobs w1 !! job_uuid env = Some job /\ running job mid tid
               /\ Job.id job = job_uuid env
               /\ Job.trigger_word job = tw
               /\ Job.progress job = 20)
  /\ is_Some (models w1 !! mid)
  /\ provider_calls (log w1)
     = TrainingsCreate (String.concat "|" images) tw :: provider_calls (log w).
Proof.
  intros Hcfg Hname Hne Hg Himg Hlen Hready Herr Hfresh Hreply Htid Hwidth.
  cbv zeta.
  unfold POST_train_lora. rewrite Hcfg. cbn [negb].
  rewrite (validate_request_ok body name g images) by assumption.
  rewrite Hg, Himg, Hname. cbn [from_option]. cbv beta delta [id].
  pose proof (create_or_get_model_calls body g images env w) as Hcalls.
  destruct (create_or_get_model_ready body g images env w mid Hready)
    as (w1 & Hw1 & Hj1 & Hm1).
  rewrite Hw1 in Hcalls |- *. cbn [snd] in Hcalls.
  destruct Hm1 as [m Hm1].
  change (if truthy (rq_trigger_word body)
          then from_option (fun x : string => x) "" (rq_trigger_word body)
          else generateTriggerWord (js_toUpperCase env) name
                 (random_suffix env))
    with (if truthy (rq_trigger_word body)
          then default "" (rq_trigger_word body)
          else generateTriggerWord (js_toUpperCase env) name
                 (random_suffix env)).
  rewrite js_or_default_if.
  set (tw := js_or_default _ _).
  set (steps := js_or_num (rq_steps body) 1000).
  set (rate := js_or_rate (rq_learning_rate body) rate_default).
  set (row := new_job_row env mid images tw steps rate).
  unfold db_insert_job. change (Job.id row) with (job_uuid env).
  change (Job.model_id row) with mid.
  rewrite Herr, Hj1, Hfresh, Hm1.
  set (w2 := {| jobs := _; models := _; log := _; past := _ |}).
  assert (Hrow : jobs w2 !! job_uuid env = Some row)
    by apply lookup_insert_eq.
  destruct (launch_training_store env (job_uuid env) mid tw name images
              steps rate w2 row Hrow) as (Hj & _ & Hm).
  cbv zeta. change (Job.id row) with (job_uuid env).
  rewrite Hj, Hm.
  rewrite (launch_training_calls env (job_uuid env) mid tw name images
             steps rate w2 Hlen).
  split; [|split; [subst w2; cbn [models emit]; eauto|]];
    [|subst w2; cbn [log emit provider_calls]; now rewrite Hcalls].
  eexists. split; [apply lookup_insert_eq|].
  unfold startLoRATraining, training_input. cbn [in_training_images].
  destruct Hlen as [Hlo Hhi].
  rewrite (proj2 (Nat.ltb_ge _ _) Hlo), (proj2 (Nat.ltb_ge _ _) Hhi).
  cbn [orb]. rewrite Hreply. cbn [fst]. unfold final_patch.
  cbn [out_success out_replicate_training_id negb].
  apply truthy_Some in Htid. rewrite Htid. cbn [negb orb].
  unfold updated. rewrite start_training_patch_accepts.
  cbn [out_replicate_training_id from_option].
  rewrite (proj2 (Nat.leb_le _ _) Hwidth).
  repeat split; reflexivity.
Qed.






(** *** Calls of the poll route that overlap *)

(** A call of the poll route that nothing interrupts is its two halves, one
    after the other. *)
Lemma poll_read_write (body : PollBody) (env : PollEnv) (w : World) :
  POST_poll_training body env w
  = match poll_read body env w with
    | (inl r, w1) => (r, w1)
    | (inr p, w1) => poll_write p env w1
    end.
Proof.
  unfold POST_poll_training, poll_read.
  destruct (negb (truthy (training_job_id body))); [reflexivity|].
  destruct (jobs w !! default "" (training_job_id body)); [|reflexivity].
  destruct (is_terminal _); [reflexivity|].
  destruct (negb (truthy _)); [reflexivity|].
  destruct (checkTrainingStatus _ _ _). reflexivity.
Qed.

(** The first half writes to no table; the row it hands on is the row of
    the table, is not terminal and has a provider id. *)
Lemma poll_read_store (body : PollBody) (env : PollEnv) (w : World) :
  let r := poll_read body env w in
  jobs (snd r) = jobs w /\ models (snd r) = models w
  /\ past (snd r) = past w
  /\ (forall j, completion_updates j (log (snd r))
                = completion_updates j (log w))
  /\ forall p, fst r = inr p ->
               jobs w !! pp_trainingJobId p = Some (pp_trainingJob p)
               /\ is_terminal (Job.status (pp_trainingJob p)) = false.
Proof.
  unfold poll_read.
  destruct (negb (truthy (training_job_id body)));
    [cbn; repeat split; auto; discriminate|].
  destruct (jobs w !! default "" (training_job_id body)) as [job|] eqn:Hjob;
    [|cbn; repeat split; auto; discriminate].
  destruct (is_terminal _) eqn:Hterm;
    [cbn; repeat split; auto; discriminate|].
  destruct (negb (truthy _)); [cbn; repeat split; auto; discriminate|].
  pose proof (checkTrainingStatus_store
                (default "" (Job.replicate_training_id job))
                (get_reply env) w) as Hst.
  pose proof (checkTrainingStatus_updates
                (default "" (Job.replicate_training_id job))
                (get_reply env) w) as Hlog.
  destruct (checkTrainingStatus _ _ _) as [rs w1]. cbn [fst snd] in *.
  destruct Hst as (Hj & Hm & Hp). repeat split; try assumption.
  - now injection H as <-.
  - now injection H as <-.
Qed.

(** What the second half does to the store when the row is still the row
    that was read: what a whole call of the route does ([poll_effect]). *)
Lemma poll_write_effect (p : PollPending) (env : PollEnv) (w : World) :
  jobs w !! pp_trainingJobId p = Some (pp_trainingJob p) ->
  let w' := snd (poll_write p env w) in
  (jobs w' = jobs w /\ past w' = past w
   /\ forall j, completion_updates j (log w') = completion_updates j (log w))
  \/ exists u,
       poll_dbUpdate env (pp_trainingJob p) (pp_replicateStatus p) = Some u
       /\ jobs w' = <[pp_trainingJobId p := Job.apply u (pp_trainingJob p)]>
                      (jobs w)
       /\ past w' = jobs w :: past w
       /\ forall j,
            completion_updates j (log w')
            = ((if bool_decide (j = pp_trainingJobId p
                                /\ Job.p_status u = Some completed)
                then 1 else 0) + completion_updates j (log w))%nat.
Proof.
  destruct p as [jid job rs]. cbn [pp_trainingJobId pp_trainingJob
                                   pp_replicateStatus].
  intros Hjob. unfold poll_write.
  cbn [pp_trainingJobId pp_trainingJob pp_replicateStatus snd].
  set (w2 := match st_status rs with
             | Replicate.succeeded => _
             | Replicate.failed | Replicate.canceled => _
             | _ => w end).
  assert (H2 : jobs w2 = jobs w /\ past w2 = past w
               /\ forall j,
                    completion_updates j (log w2)
                    = ((if bool_decide
                             (j = jid /\ st_status rs = Replicate.succeeded)
                        then 1 else 0) + completion_updates j (log w))%nat).
  { subst w2. split; [|split].
    - destruct (st_status rs); reflexivity.
    - destruct (st_status rs); reflexivity.
    - intros j.
      destruct (st_status rs);
        cbn [log emit db_update_model completion_updates completion_patch
             Model.p_lora_training_job_id];
        try (rewrite bool_decide_eq_false_2 by (intros [_ H]; discriminate);
             reflexivity).
      f_equal. destruct (decide (j = jid)) as [->|Hne].
      + rewrite !bool_decide_eq_true_2; auto.
      + rewrite !bool_decide_eq_false_2; [reflexivity | tauto | congruence]. }
  destruct H2 as (Hj2 & Hp2 & Hl2).
  destruct (poll_dbUpdate env job rs) as [u|] eqn:Hu.
  - assert (Hjob2 : jobs w2 !! jid = Some job) by now rewrite Hj2.
    right. exists u.
    pose proof (poll_dbUpdate_accepts _ _ _ _ Hu) as Ha.
    rewrite (db_update_job_jobs _ _ _ _ _ Hjob2 Ha).
    rewrite (db_update_job_past _ _ _ _ _ Hjob2 Ha), Hj2, Hp2.
    repeat split. intros j.
    rewrite db_update_job_updates, Hl2. f_equal.
    apply poll_dbUpdate_completed in Hu.
    destruct (decide (j = jid /\ st_status rs = Replicate.succeeded))
      as [[-> Hs] | Hn].
    + rewrite !bool_decide_eq_true_2; tauto.
    + rewrite !bool_decide_eq_false_2; tauto.
  - left. repeat split; try assumption. intros j. rewrite Hl2.
    rewrite bool_decide_eq_false_2; [reflexivity|].
    intros [_ Hs]. unfold poll_dbUpdate in Hu. rewrite Hs in Hu.
    destruct (extract_output _); discriminate.
Qed.

Lemma move_waiting_ok (m : Move) (s : Server) :
  waiting_ok s -> waiting_ok (move m s).
Proof.
  unfold waiting_ok. intros H. destruct m as [op | body env | i env];
    cbn [move].
  - exact H.
  - pose proof (poll_read_store body env (world s)) as Hr. cbv zeta in Hr.
    destruct (poll_read body env (world s)) as [[r | p] w1];
      cbn [waiting_polls]; [exact H|].
    destruct Hr as (_ & _ & _ & _ & Hp).
    apply Forall_app. split; [exact H|].
    constructor; [|constructor]. now apply (Hp p).
  - destruct (waiting_polls s !! i); [|exact H].
    cbn [waiting_polls]. now apply Forall_delete.
Qed.

Lemma play_cons (m : Move) (moves : list Move) (s : Server) :
  play (m :: moves) s = play moves (move m s).
Proof. reflexivity. Qed.

Section Overlapping.
Variable R : Job.t -> Job.t -> Prop.
Variable I : Job.t -> Prop.

Hypothesis R_refl : forall a, R a a.

Hypothesis poll_patch :
  forall env old rs p,
    I old -> is_terminal (Job.status old) = false ->
    poll_dbUpdate env old rs = Some p ->
    R old (Job.apply p old) /\ I (Job.apply p old).

Hypothesis start_uploading :
  forall env mid images tw steps rate,
    let row := new_job_row env mid images tw steps rate in
    R row (Job.apply uploading_patch row)
    /\ I (Job.apply uploading_patch row).

Hypothesis start_final :
  forall env mid images tw steps rate r,
    let up := Job.apply uploading_patch
                (new_job_row env mid images tw steps rate) in
    R up (Job.apply (final_patch env r) up)
    /\ I (Job.apply (final_patch env r) up).

Lemma move_sound (m : Move) (s : Server) :
  reads_still_hold m s -> waiting_ok s ->
  sound R I (world s) -> sound R I (world (move m s)).
Proof.
  intros Hcalm Hwait Hs. destruct m as [op | body env | i env]; cbn [move].
  - cbn [world]. now apply step_sound.
  - pose proof (poll_read_store body env (world s)) as Hr. cbv zeta in Hr.
    destruct (poll_read body env (world s)) as [[r | p] w1];
      cbn [world snd] in *; destruct Hr as (Hj & _ & Hp & _);
      unfold sound; now rewrite Hj, Hp.
  - cbn [reads_still_hold] in Hcalm.
    destruct (waiting_polls s !! i) as [p|] eqn:Hi; [|exact Hs].
    cbn [world].
    assert (Hterm : is_terminal (Job.status (pp_trainingJob p)) = false).
    { unfold waiting_ok in Hwait. rewrite Forall_lookup in Hwait.
      exact (Hwait i p Hi). }
    destruct Hs as [Hok Hh].
    destruct (poll_write_effect p env (world s) Hcalm)
      as [(Hj & Hp & _) | (u & Hu & Hj & Hp & _)];
      unfold sound; rewrite Hj, Hp; [auto|].
    destruct (poll_patch env _ _ u (Hok _ _ Hcalm) Hterm Hu) as [HR HI].
    split; [now apply rows_ok_insert|].
    split; [|assumption].
    apply rows_related_insert; [assumption|].
    intros a Ha. rewrite Hcalm in Ha. now injection Ha as <-.
Qed.

Lemma play_sound (moves : list Move) :
  forall s, calm moves s -> waiting_ok s ->
            sound R I (world s) -> sound R I (world (play moves s)).
Proof.
  induction moves as [|m moves IH]; intros s Hcalm Hwait Hs; [assumption|].
  destruct Hcalm as [Hm Hrest]. rewrite play_cons. apply IH.
  - assumption.
  - now apply move_waiting_ok.
  - now apply move_sound.
Qed.
End Overlapping.

Lemma move_origin (m : Move) (s : Server) :
  reads_still_hold m s -> origin (world (move m s)) = origin (world s).
Proof.
  intros Hcalm. destruct m as [op | body env | i env]; cbn [move].
  - apply step_origin.
  - pose proof (poll_read_store body env (world s)) as Hr. cbv zeta in Hr.
    destruct (poll_read body env (world s)) as [[r | p] w1];
      cbn [world snd] in *; destruct Hr as (Hj & _ & Hp & _);
      unfold origin; now rewrite Hj, Hp.
  - cbn [reads_still_hold] in Hcalm.
    destruct (waiting_polls s !! i) as [p|]; [|reflexivity].
    cbn [world]. unfold origin.
    destruct (poll_write_effect p env (world s) Hcalm)
      as [(Hj & Hp & _) | (u & _ & Hj & Hp & _)];
      rewrite Hp; [now rewrite Hj|].
    now rewrite last_cons_default.
Qed.

Lemma play_origin (moves : list Move) :
  forall s, calm moves s -> origin (world (play moves s)) = origin (world s).
Proof.
  induction moves as [|m moves IH]; intros s Hcalm; [reflexivity|].
  destruct Hcalm as [Hm Hrest]. rewrite play_cons, IH by assumption.
  now apply move_origin.
Qed.



(** Calls that do not overlap: the moves are whole calls, every read holds,
    and the play is the run. *)
Lemma play_alone (ops : list Op) :
  forall s, play (List.map Alone ops) s
            = mkServer (run ops (world s)) (waiting_polls s).
Proof.
  induction ops as [|op ops IH]; intros s; [now destruct s|].
  cbn [List.map]. rewrite play_cons, IH. reflexivity.
Qed.

Lemma calm_alone (ops : list Op) :
  forall s, calm (List.map Alone ops) s.
Proof.
  induction ops as [|op ops IH]; intros s; [exact I|].
  split; [exact I | apply IH].
Qed.

Lemma play_forward (moves : list Move) (s : Server) :
  calm moves s -> waiting_ok s ->
  history_related row_forward (jobs (world s)) (past (world s)) ->
  history_related row_forward (jobs (world (play moves s)))
    (past (world (play moves s))).
Proof.
  intros Hcalm Hwait H.
  apply (play_sound row_forward (fun _ => True));
    [| | | | assumption | assumption | split; [|exact H]].
  - intros a. apply status_forward_refl.
  - intros env old rs p _ Hterm Hp. split; [|exact I].
    apply poll_dbUpdate_status in Hp. unfold row_forward, status_forward.
    cbn [Job.apply Job.status]. rewrite Hterm.
    destruct (Job.status old); try discriminate;
      destruct Hp as [-> | [-> | ->]]; simpl; split; (lia || discriminate).
  - intros env mid images tw steps rate. split; [|exact I].
    split; simpl; [lia | discriminate].
  - intros env mid images tw steps rate r. split; [|exact I].
    unfold row_forward, status_forward. cbn [Job.apply Job.status].
    destruct (final_patch_status env r) as [(-> & _) | (-> & _)]; simpl;
      split; (lia || discriminate).
  - intros j a _. exact I.
Qed.

Lemma play_progress (moves : list Move) (s : Server) :
  calm moves s -> waiting_ok s ->
  rows_ok job_ok (jobs (world s)) ->
  history_related progress_kept_or_failed (jobs (world s)) (past (world s)) ->
  rows_ok job_ok (jobs (world (play moves s)))
  /\ history_related progress_kept_or_failed
       (jobs (world (play moves s))) (past (world (play moves s))).
Proof.
  intros Hcalm Hwait Hok Hh.
  apply (play_sound progress_kept_or_failed job_ok);
    [| | | | assumption | assumption | split; assumption].
  - intros a. left. lia.
  - apply poll_write_progress.
  - intros env mid images tw steps rate.
    unfold progress_kept_or_failed, job_ok. simpl. split; [left; lia | auto].
  - intros env mid images tw steps rate r.
    unfold progress_kept_or_failed, job_ok.
    cbn [Job.apply Job.status Job.progress Job.lora_weights_url].
    rewrite final_patch_weights.
    destruct (final_patch_status env r) as [(-> & -> & _) | (-> & -> & _)];
      simpl; intuition lia.
Qed.

(** Along a play in which every read holds, from a server on which no call
    is under way: the record of the writes, its first table, and the rows of
    the table the play began with. *)
Lemma play_status_forward (store : gmap string Job.t)
    (ms : gmap string Model.t) (moves : list Move) :
  let s0 := idle {| jobs := store; models := ms; log := []; past := [] |} in
  calm moves s0 ->
  let w := world (play moves s0) in
  history_related row_forward (jobs w) (past w)
  /\ origin w = store
  /\ forall j a,
       store !! j = Some a ->
       exists b, jobs w !! j = Some b
                 /\ (rank (Job.status a) <= rank (Job.status b))%nat
                 /\ (is_terminal (Job.status a) = true ->
                     Job.status b = Job.status a).
Proof.
  intros s0 Hcalm w.
  assert (Hwait : waiting_ok s0) by constructor.
  assert (Hh : history_related row_forward (jobs w) (past w))
    by (apply play_forward; [assumption | assumption | exact I]).
  assert (Ho : origin w = store) by (unfold w; now rewrite play_origin).
  split; [assumption|]. split; [assumption|].
  intros j a Ha.
  pose proof (history_related_last row_forward (jobs w) (past w)) as Hl.
  fold (origin w) in Hl. rewrite Ho in Hl.
  destruct (Hl (fun x => status_forward_refl _)
               (fun x y z => status_forward_trans _ _ _) Hh j a Ha)
    as (b & Hb & Hr & Ht).
  exists b. auto.
Qed.


Lemma play_progress_kept (ms : gmap string Model.t) (moves : list Move) :
  calm moves (idle (initial ms)) ->
  let w := world (play moves (idle (initial ms))) in
  history_related progress_kept_or_failed (jobs w) (past w)
  /\ origin w = ∅
  /\ rows_ok job_ok (jobs w).
Proof.
  intros Hcalm w.
  assert (Hwait : waiting_ok (idle (initial ms))) by constructor.
  destruct (play_progress moves (idle (initial ms)) Hcalm Hwait)
    as [Hok Hh].
  - intros j a. cbn. rewrite lookup_empty. discriminate.
  - exact I.
  - split; [exact Hh|]. split; [|exact Hok].
    unfold w. now rewrite play_origin.
Qed.

(** The play [Overlap.calm_moves] is calm. *)
Lemma calm_moves_are_calm : calm Overlap.calm_moves (idle (initial ∅)).
Proof. repeat split; vm_compute; reflexivity. Qed.

Example sixty_polls_then_timeout :
  polls_made
    (log (snd (waitForTrainingCompletion 61 "trn-1" Stuck.ticks (initial ∅))))
  = 60%nat.
Proof. vm_compute. reflexivity. Qed.

(* ================================================================== *)
(** ** The properties of the specification, C1 to C10 *)
(* ================================================================== *)

(** C1, as stated, fails: the job "job-1" is in training; a poll during
    which the provider's status call throws "fetch failed" leaves the row
    failed, with that text as its error message. *)
Lemma provider_error_counterexample :
  let w' := step (Demo.poll (GetThrows (Some "fetch failed"))) Demo.started in
  Job.status <$> jobs Demo.started !! "job-1" = Some training
  /\ Job.status <$> jobs w' !! "job-1" = Some failed
  /\ Job.error_message <$> jobs w' !! "job-1" = Some (Some "fetch failed").
Proof. vm_compute. auto. Qed.

(** C1, amended. When the provider's status call throws during a poll of a
    job that is not terminal and has a provider id, checkTrainingStatus logs
    the error and reports the status failed, and the route records the job
    as failed with progress 0 and the thrown message as error message
    ("Failed to check status" when what was thrown is not an Error,
    "Training failed" when the message is empty); the table of models is
    left as it was. A rejected request of the client to the route, in
    contrast, is logged by the client loop, which goes on and leaves both
    tables alone. *)
Theorem provider_error_recorded_as_failure (w : World) (jid : string)
    (job : Job.t) (env : PollEnv) (m : option string) :
  jid ≠ "" ->
  jobs w !! jid = Some job ->
  is_terminal (Job.status job) = false ->
  truthy (Job.replicate_training_id job) = true ->
  get_reply env = GetThrows m ->
  let w' := snd (POST_poll_training (mkPollBody (Some jid)) env w) in
  (exists job', jobs w' !! jid = Some job'
                /\ Job.status job' = failed
                /\ Job.progress job' = 0
                /\ Job.error_message job'
                   = Some (js_or_default
                             (Some (default "Failed to check status" m))
                             "Training failed"))
  /\ In (ConsoleError "Failed to check training status:") (log w')
  /\ models w' = models w
  /\ forall (cs : ClientState),
       let t := poll_turn jid FetchRejects cs w in
       fst t = (cs, false) /\ jobs (snd t) = jobs w
       /\ models (snd t) = models w.
Proof.
  intros Hid Hjob Hterm Hrid Hreply w'. subst w'.
  at_active_poll Hid Hjob Hterm Hrid Hreply.
  split; [|split; [|split]].
  - eexists. split.
    + polled_row Hjob.
    + cbn. auto.
  - unfold db_update_job. simpl. rewrite Hjob. simpl. auto.
  - rewrite db_update_job_models; [reflexivity | discriminate].
  - intros cs. simpl. auto.
Qed.

Lemma provider_error_recorded_as_failure_witness :
  let w' := step (Demo.poll (GetThrows (Some "fetch failed"))) Demo.started in
  (exists job', jobs w' !! "job-1" = Some job'
                /\ Job.status job' = failed
                /\ Job.progress job' = 0
                /\ Job.error_message job' = Some "fetch failed")
  /\ In (ConsoleError "Failed to check training status:") (log w')
  /\ models w' = models Demo.started
  /\ forall (cs : ClientState),
       let t := poll_turn "job-1" FetchRejects cs Demo.started in
       fst t = (cs, false) /\ jobs (snd t) = jobs Demo.started
       /\ models (snd t) = models Demo.started.
Proof.
  apply (provider_error_recorded_as_failure Demo.started "job-1"
           Demo.started_job (Demo.at_poll (GetThrows (Some "fetch failed")))
           (Some "fetch failed"));
    first [ discriminate | vm_compute; reflexivity ].
Defined.




(** C3. Polling a job that is already completed, failed or cancelled answers
    with that status and the stored payload and returns the store exactly as
    it was: no row of either table is written, nothing is logged, the
    provider is not called; a second call, whatever the provider would say,
    answers the same. The GET route, which cannot write, answers with the
    same stored fields. *)
Theorem terminal_poll_is_read_only (w : World) (jid : string) (job : Job.t)
    (env env' : PollEnv) :
  jid ≠ "" ->
  jobs w !! jid = Some job ->
  is_terminal (Job.status job) = true ->
  POST_poll_training (mkPollBody (Some jid)) env w
  = (ok_with {| d_status := Job.status job;
                d_progress := Job.progress job;
                d_lora_weights_url := Job.lora_weights_url job;
                d_sample_images := Job.sample_images job;
                d_error_message := Job.error_message job;
                d_message := None |}, w)
  /\ POST_poll_training (mkPollBody (Some jid)) env'
       (snd (POST_poll_training (mkPollBody (Some jid)) env w))
     = POST_poll_training (mkPollBody (Some jid)) env w
  /\ GET_train_lora true (Some jid) w
     = ok_with {| sd_training_job := job;
                  sd_status := Job.status job;
                  sd_progress := Job.progress job;
                  sd_error_message := Job.error_message job;
                  sd_lora_weights_url := Job.lora_weights_url job;
                  sd_sample_images := Job.sample_images job |}.
Proof.
  intros Hid Hjob Hterm.
  assert (Hcall : forall e,
    POST_poll_training (mkPollBody (Some jid)) e w
    = (ok_with {| d_status := Job.status job;
                  d_progress := Job.progress job;
                  d_lora_weights_url := Job.lora_weights_url job;
                  d_sample_images := Job.sample_images job;
                  d_error_message := Job.error_message job;
                  d_message := None |}, w)).
  { intros e. unfold POST_poll_training. cbn [training_job_id].
    apply truthy_Some in Hid. rewrite Hid. cbn [negb from_option].
    unfold id at 1. now rewrite Hjob, Hterm. }
  split; [apply Hcall|]. split.
  - rewrite (Hcall env). cbn [snd]. apply Hcall.
  - unfold GET_train_lora. cbn [negb]. apply truthy_Some in Hid.
    rewrite Hid. cbn [negb from_option]. unfold id at 1. now rewrite Hjob.
Qed.

(** C3 at the job of the running example once the provider has
    reported a failure. *)
Lemma terminal_poll_is_read_only_witness :
  let w := step (Demo.poll (GetOk Replicate.failed None OutAbsent
                              (Some "out of memory"))) Demo.started in
  let job := Job.apply
               (Job.mkPatch (Some failed) (Some 0) None (Some "out of memory")
                  None None None None) Demo.started_job in
  POST_poll_training (mkPollBody (Some "job-1")) (Demo.at_poll Demo.processing) w
  = (ok_with {| d_status := failed;
                d_progress := 0;
                d_lora_weights_url := None;
                d_sample_images := None;
                d_error_message := Some "out of memory";
                d_message := None |}, w)
  /\ POST_poll_training (mkPollBody (Some "job-1"))
       (Demo.at_poll (Demo.succeeded Scenario.weights))
       (snd (POST_poll_training (mkPollBody (Some "job-1"))
               (Demo.at_poll Demo.processing) w))
     = POST_poll_training (mkPollBody (Some "job-1"))
         (Demo.at_poll Demo.processing) w
  /\ GET_train_lora true (Some "job-1") w
     = ok_with {| sd_training_job := job;
                  sd_status := failed;
                  sd_progress := 0;
                  sd_error_message := Some "out of memory";
                  sd_lora_weights_url := None;
                  sd_sample_images := None |}.
Proof.
  intros w job.
  apply (terminal_poll_is_read_only w "job-1" job
           (Demo.at_poll Demo.processing)
           (Demo.at_poll (Demo.succeeded Scenario.weights)));
    first [ discriminate | vm_compute; reflexivity ].
Defined.

(** C4, as stated, fails: two calls of the poll route for "job-1" overlap.
    The first read the row in training and was told processing; the second,
    meanwhile, completed the job. The first call then writes its update,
    which has no condition on the current status: the completed job is
    back in training, with progress 30. *)
Lemma stale_poll_counterexample :
  let before := world (play Overlap.second_completes (idle (initial ∅))) in
  let after := world (play Overlap.stale_write (idle (initial ∅))) in
  Job.status <$> jobs before !! "job-1" = Some completed
  /\ Job.status <$> jobs after !! "job-1" = Some training
  /\ Job.progress <$> jobs after !! "job-1" = Some 30
  /\ past after = jobs before :: past before.
Proof. vm_compute. auto. Qed.

(** C4, amended. Take any content of the job table and any play of the two
    routes in which calls may overlap (a poll reads its row, waits for the
    provider while other calls run, then writes) but no poll writes a row
    that has changed since it read it. Along the record of all writes to
    job rows that the play makes, from the table it began with to the last
    one, every row stays in the table and its status never moves back on
    the path pending, uploading, training, terminal; a status that is
    completed, failed or cancelled is never changed again. This holds in
    particular of every sequence of calls that do not overlap. *)
Theorem status_only_moves_forward (store : gmap string Job.t)
    (ms : gmap string Model.t) :
  let w0 := {| jobs := store; models := ms; log := []; past := [] |} in
  let forward (w : World) :=
    history_related row_forward (jobs w) (past w)
    /\ origin w = store
    /\ forall j a,
         store !! j = Some a ->
         exists b, jobs w !! j = Some b
                   /\ (rank (Job.status a) <= rank (Job.status b))%nat
                   /\ (is_terminal (Job.status a) = true ->
                       Job.status b = Job.status a) in
  (forall moves, calm moves (idle w0) -> forward (world (play moves (idle w0))))
  /\ (forall ops, forward (run ops w0)).
Proof.
  intros w0 forward. split.
  - intros moves Hcalm. exact (play_status_forward store ms moves Hcalm).
  - intros ops.
    pose proof (play_status_forward store ms (List.map Alone ops)
                  (calm_alone ops _)) as H.
    cbv zeta in H. rewrite play_alone in H. exact H.
Qed.

Lemma status_only_moves_forward_witness :
  let w := world (play Overlap.calm_moves (idle (initial ∅))) in
  history_related row_forward (jobs w) (past w)
  /\ origin w = ∅
  /\ forall j a,
       (∅ : gmap string Job.t) !! j = Some a ->
       exists b, jobs w !! j = Some b
                 /\ (rank (Job.status a) <= rank (Job.status b))%nat
                 /\ (is_terminal (Job.status a) = true ->
                     Job.status b = Job.status a).
Proof.
  apply (proj1 (status_only_moves_forward ∅ ∅) Overlap.calm_moves).
  repeat split; vm_compute; reflexivity.
Defined.

(** C5. A valid start request with 8 to 20 images (with or without a
    trigger word), on a server whose database and provider accept it (the
    provider's id fits its column of 100 characters), followed by three
    polls on which the provider reports processing and one on which it
    reports succeeded with an output whose weights are a url, ends with the
    job completed at progress 100, its lora_weights_url equal to that url,
    and the model of the job with has_lora_training true, active, and
    carrying the url, the job's id and its trigger word. On the way the
    provider was asked for one training, with the images and the trigger
    word of the job, and four times for the status of that training; the
    route issued its update of the model once. *)
Theorem start_then_succeed (body : StartLoRATrainingRequest) (env : TrainEnv)
    (w : World) (name mid tid url : string) (g : Gender)
    (images : list string) (st : Replicate.Status)
    (p1 p2 p3 p4 : PollEnv) (version : option string)
    (samples : option (list string)) :
  supabase_configured env = true ->
  rq_model_name body = Some name -> name ≠ "" ->
  rq_gender body = Some g ->
  rq_training_images body = Some images ->
  (8 <= length images <= 20)%nat ->
  model_ready body env w mid ->
  job_insert_error env = None ->
  jobs w !! job_uuid env = None -> job_uuid env ≠ "" ->
  create_reply env = CreateOk tid st -> tid ≠ "" ->
  (characters tid <= 100)%nat ->
  get_reply p1 = Demo.processing ->
  get_reply p2 = Demo.processing ->
  get_reply p3 = Demo.processing ->
  get_reply p4 = Demo.succeeded (weights_output url version samples) ->
  url ≠ "" ->
  let poll := OpPoll (mkPollBody (Some (job_uuid env))) in
  let tw := js_or_default (rq_trigger_word body)
              (generateTriggerWord (js_toUpperCase env) name
                 (random_suffix env)) in
  let w' := run [OpStart body env; poll p1; poll p2; poll p3; poll p4] w in
  (exists job, jobs w' !! job_uuid env = Some job
               /\ Job.status job = completed
               /\ Job.progress job = 100
               /\ Job.lora_weights_url job = Some url)
  /\ (exists m, models w' !! mid = Some m
                /\ Model.has_lora_training m = true
                /\ Model.is_active m = true
                /\ Model.lora_weights_url m = Some url
                /\ Model.lora_training_job_id m = Some (job_uuid env)
                /\ Model.lora_trigger_word m = Some tw)
  /\ provider_calls (log w')
     = TrainingsGet tid :: TrainingsGet tid :: TrainingsGet tid
       :: TrainingsGet tid
       :: TrainingsCreate (String.concat "|" images) tw
       :: provider_calls (log w)
  /\ completion_updates (job_uuid env) (log w')
     = S (completion_updates (job_uuid env) (log w)).
Proof.
  intros Hcfg Hname Hne Hg Himg Hlen Hready Herr Hfresh Hjid
    Hreply Htid Hwidth H1 H2 H3 H4 Hurl poll tw w'.
  subst w' poll. cbn [run fold_left step].
  destruct (start_leaves_running body env w name mid tid g images st)
    as [(j0 & Hj0 & R0 & I0 & T0 & _) [Hm0 C0]]; try assumption.
  fold tw in T0, C0.
  pose proof (start_updates body env w (job_uuid env)) as U0.
  set (w0 := snd (POST_train_lora body env w)) in *.
  assert (Hstep : forall (v : World) (job : Job.t) (pe : PollEnv),
    jobs v !! job_uuid env = Some job -> running job mid tid ->
    Job.id job = job_uuid env -> Job.trigger_word job = tw ->
    is_Some (models v !! mid) ->
    get_reply pe = Demo.processing ->
    let v' := snd (POST_poll_training (mkPollBody (Some (job_uuid env))) pe v) in
    (exists job', jobs v' !! job_uuid env = Some job' /\ running job' mid tid
                  /\ Job.id job' = job_uuid env /\ Job.trigger_word job' = tw)
    /\ is_Some (models v' !! mid)
    /\ provider_calls (log v') = TrainingsGet tid :: provider_calls (log v)
    /\ completion_updates (job_uuid env) (log v')
       = completion_updates (job_uuid env) (log v)).
  { intros v job pe Hjob [Rs Rm Rt] Hi Ht Hm Hpe v'. subst v'.
    assert (Hterm : is_terminal (Job.status job) = false) by now rewrite Rs.
    assert (Hrid : truthy (Job.replicate_training_id job) = true)
      by (rewrite Rt; now apply truthy_Some).
    destruct (poll_processing v (job_uuid env) job pe None None OutAbsent)
      as [(job' & Hj' & Hs' & Hm' & Ht' & Hi' & Hw') Hms]; try assumption.
    split; [|split; [now rewrite Hms|split]].
    - exists job'. split; [assumption|].
      repeat split; congruence.
    - now apply (poll_asks_provider v (job_uuid env) tid job pe).
    - rewrite (poll_active_updates v (job_uuid env) job pe
                 Replicate.processing None None OutAbsent); try assumption.
      rewrite bool_decide_eq_false_2; [reflexivity|].
      intros [_ H]. discriminate. }
  destruct (Hstep w0 j0 p1 Hj0 R0 I0 T0 Hm0 H1)
    as [(j1 & Hj1 & R1 & I1 & T1) (Hm1 & C1 & U1)].
  set (w1 := snd (POST_poll_training _ p1 w0)) in *.
  destruct (Hstep w1 j1 p2 Hj1 R1 I1 T1 Hm1 H2)
    as [(j2 & Hj2 & R2 & I2 & T2) (Hm2 & C2 & U2)].
  set (w2 := snd (POST_poll_training _ p2 w1)) in *.
  destruct (Hstep w2 j2 p3 Hj2 R2 I2 T2 Hm2 H3)
    as [(j3 & Hj3 & R3 & I3 & T3) (Hm3 & C3 & U3)].
  set (w3 := snd (POST_poll_training _ p3 w2)) in *.
  destruct R3 as [Rs Rm Rt].
  assert (Hterm : is_terminal (Job.status j3) = false) by now rewrite Rs.
  assert (Hrid : truthy (Job.replicate_training_id j3) = true)
    by (rewrite Rt; now apply truthy_Some).
  assert (Hx : fst (extract_output (weights_output url version samples))
               = Some url).
  { unfold weights_output, extract_output. cbn [fst].
    apply truthy_Some in Hurl. now rewrite Hurl. }
  destruct (poll_succeeded w3 (job_uuid env) j3 p4 None None
              (weights_output url version samples))
    as [(j4 & Hj4 & Hs4 & Hp4 & Hu4) Hm4]; try assumption.
  rewrite Rm in Hm4.
  destruct (Hm4 Hm3) as (m' & Hm' & Hl & Ha & Hi & Hw & Hu).
  rewrite Hx in Hu4, Hu. split; [|split; [|split]].
  - exists j4. auto.
  - exists m'. rewrite I3 in Hi. rewrite T3 in Hw.
    repeat split; try assumption. apply Hu. eauto.
  - rewrite (poll_asks_provider w3 (job_uuid env) tid j3 p4); try assumption.
    now rewrite C3, C2, C1, C0.
  - rewrite (poll_active_updates w3 (job_uuid env) j3 p4
               Replicate.succeeded None None
               (weights_output url version samples)); try assumption.
    rewrite bool_decide_eq_true_2 by auto.
    now rewrite U3, U2, U1, U0.
Qed.

Lemma start_then_succeed_witness :
  let w' := run Scenario.ops (initial ∅) in
  (exists job, jobs w' !! "job-1" = Some job
               /\ Job.status job = completed
               /\ Job.progress job = 100
               /\ Job.lora_weights_url job = Some "https://x/y.safetensors")
  /\ (exists m, models w' !! "model-1" = Some m
                /\ Model.has_lora_training m = true
                /\ Model.is_active m = true
                /\ Model.lora_weights_url m = Some "https://x/y.safetensors"
                /\ Model.lora_training_job_id m = Some "job-1"
                /\ Model.lora_trigger_word m = Some "TOK")
  /\ provider_calls (log w')
     = [TrainingsGet "trn-1"; TrainingsGet "trn-1"; TrainingsGet "trn-1";
        TrainingsGet "trn-1";
        TrainingsCreate (String.concat "|" Demo.images) "TOK"]
  /\ completion_updates "job-1" (log w') = 1%nat.
Proof.
  apply (start_then_succeed Demo.body Demo.env (initial ∅) "Sarah" "model-1"
           "trn-1" "https://x/y.safetensors" female Demo.images
           Replicate.starting
           (Demo.at_poll Demo.processing) (Demo.at_poll Demo.processing)
           (Demo.at_poll Demo.processing)
           (Demo.at_poll (Demo.succeeded Scenario.weights)) None None);
    try reflexivity; try discriminate.
  - simpl. lia.
  - left. repeat split; reflexivity.
  - simpl. lia.
Defined.

(** C6. When the provider reports failed with an error text on a poll of a
    running job, the job row becomes failed with that text as its error
    message (and progress 0), and the table of models is left exactly as it
    was. *)
Theorem provider_failure_recorded (w : World) (jid : string) (job : Job.t)
    (env : PollEnv) (logs : option string) (out : Output) (msg : string) :
  jid ≠ "" ->
  jobs w !! jid = Some job ->
  is_terminal (Job.status job) = false ->
  truthy (Job.replicate_training_id job) = true ->
  msg ≠ "" ->
  get_reply env = GetOk Replicate.failed logs out (Some msg) ->
  let w' := snd (POST_poll_training (mkPollBody (Some jid)) env w) in
  (exists job', jobs w' !! jid = Some job'
                /\ Job.status job' = failed
                /\ Job.error_message job' = Some msg)
  /\ models w' = models w.
Proof.
  intros Hid Hjob Hterm Hrid Hmsg Hreply w'. subst w'.
  at_active_poll Hid Hjob Hterm Hrid Hreply.
  split.
  - eexists. split.
    + polled_row Hjob.
    + cbn. rewrite keep_truthy_Some by assumption.
      rewrite js_or_default_truthy by assumption. auto.
  - rewrite db_update_job_models; [reflexivity | discriminate].
Qed.

Lemma provider_failure_recorded_witness :
  let w' := step (Demo.poll (GetOk Replicate.failed None OutAbsent
                               (Some "out of memory"))) Demo.started in
  (exists job', jobs w' !! "job-1" = Some job'
                /\ Job.status job' = failed
                /\ Job.error_message job' = Some "out of memory")
  /\ models w' = models Demo.started.
Proof.
  apply (provider_failure_recorded Demo.started "job-1" Demo.started_job
           (Demo.at_poll (GetOk Replicate.failed None OutAbsent
                            (Some "out of memory")))
           None OutAbsent "out of memory");
    first [ discriminate | vm_compute; reflexivity ].
Defined.




(** C8, as stated, fails. The job "job-1" is in training with progress 20;
    a poll on which the provider reports failed writes progress 0. And when
    two polls of "job-1" overlap ([Overlap.stale_write]), the write of the
    first takes the progress from 100 back to 30 and the job is not
    failed. *)
Lemma progress_counterexample :
  let w' := step (Demo.poll (GetOk Replicate.failed None OutAbsent
                               (Some "out of memory"))) Demo.started in
  let before := world (play Overlap.second_completes (idle (initial ∅))) in
  let after := world (play Overlap.stale_write (idle (initial ∅))) in
  Job.progress <$> jobs Demo.started !! "job-1" = Some 20
  /\ Job.progress <$> jobs w' !! "job-1" = Some 0
  /\ past w' = jobs Demo.started :: past Demo.started
  /\ Job.progress <$> jobs before !! "job-1" = Some 100
  /\ Job.progress <$> jobs after !! "job-1" = Some 30
  /\ Job.status <$> jobs after !! "job-1" = Some training
  /\ past after = jobs before :: past before.
Proof. vm_compute. repeat split; reflexivity. Qed.

(** C8, amended. Start from a database without training jobs and take any
    play of the train-lora route and of the poll route in which calls may
    overlap but no poll writes a row that has changed since it read it (in
    particular any sequence of calls that do not overlap). Every write to a
    job row either keeps or raises the row's progress, or marks the job
    failed and sets its progress to 0; and the progress of every row is the
    one of its status: 0 pending, 10 uploading, 20 to 90 training, 100
    completed, 0 failed. *)
Theorem progress_monotone_until_failure (ms : gmap string Model.t) :
  let kept (w : World) :=
    history_related progress_kept_or_failed (jobs w) (past w)
    /\ origin w = ∅
    /\ rows_ok job_ok (jobs w) in
  (forall moves, calm moves (idle (initial ms)) ->
                 kept (world (play moves (idle (initial ms)))))
  /\ (forall ops, kept (run ops (initial ms))).
Proof.
  intros kept. split.
  - intros moves Hcalm. exact (play_progress_kept ms moves Hcalm).
  - intros ops.
    pose proof (play_progress_kept ms (List.map Alone ops)
                  (calm_alone ops _)) as H.
    cbv zeta in H. rewrite play_alone in H. exact H.
Qed.

Lemma progress_monotone_until_failure_witness :
  let w := world (play Overlap.calm_moves (idle (initial ∅))) in
  history_related progress_kept_or_failed (jobs w) (past w)
  /\ origin w = ∅
  /\ rows_ok job_ok (jobs w).
Proof.
  apply (proj1 (progress_monotone_until_failure ∅) Overlap.calm_moves).
  repeat split; vm_compute; reflexivity.
Defined.

(** C9. When the provider reports canceled for a job that is being polled,
    the route writes status failed, with the provider's error text when
    there is one and "Training canceled" otherwise; no poll ever turns a
    status that was not cancelled into cancelled; and
    waitForTrainingCompletion answers a canceled training with a failure
    carrying the same text. *)
Theorem canceled_is_recorded_as_failed :
  (forall (w : World) (jid : string) (job : Job.t) (env : PollEnv)
          (logs err : option string) (out : Output),
      jid ≠ "" ->
      jobs w !! jid = Some job ->
      is_terminal (Job.status job) = false ->
      truthy (Job.replicate_training_id job) = true ->
      get_reply env = GetOk Replicate.canceled logs out err ->
      exists job',
        jobs (snd (POST_poll_training (mkPollBody (Some jid)) env w)) !! jid
        = Some job'
        /\ Job.status job' = failed
        /\ Job.error_message job'
           = Some (js_or_default err "Training canceled"))
  /\ (forall (body : PollBody) (env : PollEnv) (w : World) (j : string)
             (job' : Job.t),
         jobs (snd (POST_poll_training body env w)) !! j = Some job' ->
         Job.status job' = cancelled ->
         exists job, jobs w !! j = Some job /\ Job.status job = cancelled)
  /\ (forall (fuel : nat) (tid : string) (ticks : nat -> Tick) (w : World)
             (logs err : option string) (out : Output),
         tick_reply (ticks 0%nat) = GetOk Replicate.canceled logs out err ->
         exists o,
           fst (waitForTrainingCompletion (S fuel) tid ticks w) = Some o
           /\ out_success o = false
           /\ out_error o = Some (js_or_default err "Training canceled")).
Proof.
  split; [|split].
  - intros w jid job env logs err out Hid Hjob Hterm Hrid Hreply.
    at_active_poll Hid Hjob Hterm Hrid Hreply.
    eexists. split.
    + polled_row Hjob.
    + cbn. now rewrite keep_truthy_default.
  - intros body env w j job' Hj Hc.
    destruct (poll_rows body env w j) as [Heq | (old & rs & p & _ & _ & Hp & Hnew)].
    + rewrite Heq in Hj. eauto.
    + rewrite Hnew in Hj. injection Hj as <-.
      apply poll_dbUpdate_status in Hp. simpl in Hc.
      destruct Hp as [Hp | [Hp | Hp]]; rewrite Hp in Hc; discriminate.
  - intros fuel tid ticks w logs err out Hreply.
    unfold waitForTrainingCompletion.
    destruct (wait_loop_terminal_reply fuel tid ticks 0 0%N w
                Replicate.canceled logs err out) as (o & Ho & Hs & He);
      [reflexivity | assumption | now right |].
    exists o. auto.
Qed.

Lemma canceled_is_recorded_as_failed_witness :
  exists job',
    jobs (step (Demo.poll (GetOk Replicate.canceled None OutAbsent None))
            Demo.started) !! "job-1" = Some job'
    /\ Job.status job' = failed
    /\ Job.error_message job' = Some "Training canceled".
Proof.
  apply (proj1 canceled_is_recorded_as_failed Demo.started "job-1"
           Demo.started_job
           (Demo.at_poll (GetOk Replicate.canceled None OutAbsent None))
           None None OutAbsent);
    first [ discriminate | vm_compute; reflexivity ].
Defined.

(** C10, as stated, fails: a request without a model name is answered with
    500, not 400, when the database client is not configured. *)
Lemma unconfigured_counterexample :
  invalid_request Unconfigured.body
  /\ fst (POST_train_lora Unconfigured.body Unconfigured.env (initial ∅))
     = fail_with 500 "Database not configured".
Proof. split; [left; reflexivity | reflexivity]. Qed.

(** C10, amended. With the database client configured, the train-lora route
    answers 400 and leaves the store and the log as they were (no database
    write, no remote call) whenever model_name or gender is missing,
    training_images is missing or has fewer than 8 or more than 20 entries;
    without the client it answers 500, again touching nothing.
    Independently, startLoRATraining answers success:false, with the
    "8-20 images" error and without calling the provider, for every number
    of images outside 8..20. *)
Theorem invalid_request_rejected :
  (forall (body : StartLoRATrainingRequest) (env : TrainEnv) (w : World),
      supabase_configured env = true ->
      invalid_request body ->
      http_status (fst (POST_train_lora body env w)) = 400%nat
      /\ success (fst (POST_train_lora body env w)) = false
      /\ snd (POST_train_lora body env w) = w)
  /\ (forall (body : StartLoRATrainingRequest) (env : TrainEnv) (w : World),
         supabase_configured env = false ->
         http_status (fst (POST_train_lora body env w)) = 500%nat
         /\ snd (POST_train_lora body env w) = w)
  /\ (forall (input : LoRATrainingInput) (reply : CreateReply) (ms : N)
             (w : World),
         let n := length (in_training_images input) in
         (n < 8 \/ 20 < n)%nat ->
         let r := startLoRATraining input reply ms w in
         out_success (fst r) = false
         /\ out_error (fst r) = Some (images_error n)
         /\ snd r = emit (ConsoleError "LoRA training failed:") w).
Proof.
  split; [|split].
  - intros body env w Hcfg Hbad. unfold POST_train_lora. rewrite Hcfg.
    destruct (validate_request_invalid body Hbad) as [msg ->]. simpl. auto.
  - intros body env w Hcfg. unfold POST_train_lora. rewrite Hcfg. simpl. auto.
  - intros input reply ms w n Hn r. subst r. unfold startLoRATraining.
    fold n.
    assert (Hb : ((n <? 8) || (20 <? n))%nat = true).
    { apply orb_true_iff. destruct Hn as [Hn | Hn]; [left | right];
        now apply Nat.ltb_lt. }
    rewrite Hb. simpl. auto.
Qed.

Lemma invalid_request_rejected_witness :
  (http_status (fst (POST_train_lora Unconfigured.body Demo.env Demo.started))
   = 400%nat
   /\ success (fst (POST_train_lora Unconfigured.body Demo.env Demo.started))
      = false
   /\ snd (POST_train_lora Unconfigured.body Demo.env Demo.started)
      = Demo.started)
  /\ out_success
       (fst (startLoRATraining
               (mkInput ["https://s/1.jpg"] "TOK" None None None)
               (CreateOk "trn-1" Replicate.starting) 5 Demo.started))
     = false.
Proof.
  split.
  - apply (proj1 invalid_request_rejected Unconfigured.body Demo.env
             Demo.started); [reflexivity | left; reflexivity].
  - apply (proj2 (proj2 invalid_request_rejected)
             (mkInput ["https://s/1.jpg"] "TOK" None None None)
             (CreateOk "trn-1" Replicate.starting) 5%N Demo.started).
    simpl. lia.
Defined.

(* ================================================================== *)
(** ** Further properties of the code, X1 to X16 *)
(* ================================================================== *)

(** *** Strings *)

Lemma string_length_app (a b : string) :
  String.length (a ++ b) = (String.length a + String.length b)%nat.
Proof. induction a as [|c a IH]; simpl; [reflexivity | now rewrite IH]. Qed.

Lemma all_A_Z_0_9_app (a b : string) :
  all_A_Z_0_9 (a ++ b) = all_A_Z_0_9 a && all_A_Z_0_9 b.
Proof.
  unfold all_A_Z_0_9. induction a as [|c a IH]; simpl; [reflexivity|].
  rewrite IH. now rewrite andb_assoc.
Qed.

Lemma sanitize_all (s : string) : all_A_Z_0_9 (sanitize s) = true.
Proof.
  unfold all_A_Z_0_9. induction s as [|c s IH]; simpl; [reflexivity|].
  destruct (is_A_Z_0_9 c) eqn:E; simpl; [|assumption].
  now rewrite E.
Qed.

Lemma substring_0_all (n : nat) (s : string) :
  all_A_Z_0_9 s = true -> all_A_Z_0_9 (String.substring 0 n s) = true.
Proof.
  unfold all_A_Z_0_9. revert s.
  induction n as [|n IH]; intros [|c s]; simpl; try reflexivity.
  intros H. apply andb_true_iff in H as [Hc Hs].
  rewrite Hc. simpl. now apply IH.
Qed.

Lemma substring_0_length (n : nat) (s : string) :
  (String.length (String.substring 0 n s) <= n)%nat.
Proof.
  revert s. induction n as [|n IH]; intros [|c s]; simpl; try lia.
  specialize (IH s). lia.
Qed.

Lemma digits_are_A_Z_0_9 (l : list ascii) :
  forallb is_digit l = true -> forallb is_A_Z_0_9 l = true.
Proof.
  induction l as [|c l IH]; simpl; [reflexivity|].
  intros H. apply andb_true_iff in H as [Hc Hl].
  rewrite (IH Hl), andb_true_r. unfold is_A_Z_0_9.
  unfold is_digit in Hc. now rewrite Hc, orb_true_r.
Qed.

(** Every number below 1000 is padded to exactly three digits. *)
Lemma suffix_ok_below_1000 (random : nat) :
  (random < 1000)%nat -> suffix_ok random = true.
Proof.
  intros H.
  assert (Hall : forallb suffix_ok (seq 0 1000) = true)
    by (vm_compute; reflexivity).
  rewrite forallb_forall in Hall. apply Hall. apply in_seq. lia.
Qed.

(** X1. A generated trigger word consists of capital letters and digits
    only and has between 3 and 13 characters: at most ten from the model's
    name and three digits (for a random number below 1000, as
    [Math.floor(Math.random() * 1000)] is), whatever the engine's
    toUpperCase does to the name. *)
Theorem trigger_word_shape (toUpperCase : string -> string)
    (modelName : string) (random : nat) :
  (random < 1000)%nat ->
  let t := generateTriggerWord toUpperCase modelName random in
  all_A_Z_0_9 t = true /\ (3 <= String.length t <= 13)%nat.
Proof.
  intros Hr t. subst t. unfold generateTriggerWord.
  pose proof (suffix_ok_below_1000 random Hr) as Hs.
  unfold suffix_ok in Hs. apply andb_true_iff in Hs as [Hlen Hdig].
  apply Nat.eqb_eq in Hlen. split.
  - rewrite all_A_Z_0_9_app. apply andb_true_iff. split.
    + apply substring_0_all, sanitize_all.
    + now apply digits_are_A_Z_0_9.
  - rewrite string_length_app, Hlen.
    pose proof (substring_0_length 10 (sanitize (toUpperCase modelName))).
    lia.
Qed.

Lemma trigger_word_shape_witness :
  let t := generateTriggerWord upper_ascii "Sarah J." 7 in
  all_A_Z_0_9 t = true /\ (3 <= String.length t <= 13)%nat.
Proof. apply (trigger_word_shape upper_ascii "Sarah J." 7). lia. Defined.

(** X2. Every training caption contains the trigger word; the caption
    depends on the image index only through its remainder modulo 10 and
    not at all on the total number of images. *)
Theorem caption_contains_trigger_word (triggerWord : string)
    (imageIndex totalImages : nat) :
  (exists before after,
      generateTrainingCaption triggerWord imageIndex totalImages
      = before ++ triggerWord ++ after)
  /\ forall total',
       generateTrainingCaption triggerWord (imageIndex + 10) total'
       = generateTrainingCaption triggerWord imageIndex totalImages.
Proof.
  unfold generateTrainingCaption.
  change (length (captionVariations triggerWord)) with 10%nat.
  split.
  - pose proof (Nat.mod_upper_bound imageIndex 10 ltac:(lia)) as Hlt.
    destruct (imageIndex mod 10)%nat as [|[|[|[|[|[|[|[|[|[|n]]]]]]]]]];
      try lia; cbn [captionVariations List.nth].
    + now exists "full body photo of ", " person, standing pose, white background".
    + now exists "", " person full length portrait, centered, studio lighting".
    + now exists "full body shot of ",
        " person, athletic wear, professional photography".
    + now exists "", " person complete figure, front view, high quality image".
    + now exists "professional full body photo of ",
        " person, clean background".
    + now exists "", " person full body, natural pose, studio environment".
    + now exists "full length portrait of ",
        " person, detailed features, well lit".
    + now exists "",
        " person head to toe, standing position, minimal background".
    + now exists "full body photograph of ",
        " person, fashion photography style".
    + now exists "",
        " person full figure, centered composition, professional lighting".
  - intros total'.
    replace ((imageIndex + 10) mod 10)%nat with (imageIndex mod 10)%nat;
      [reflexivity|].
    rewrite <- (Nat.Div0.add_mod_idemp_r imageIndex 10 10).
    rewrite Nat.Div0.mod_same, Nat.add_0_r. reflexivity.
Qed.

(** *** The poll route *)

Lemma sql_update_model_ne (now mid m : string) (f : Model.t -> Model.t)
    (ms : gmap string Model.t) :
  m ≠ mid -> sql_update_model now mid f ms !! m = ms !! m.
Proof.
  intros Hne. unfold sql_update_model.
  destruct (ms !! mid); [|reflexivity]. now rewrite lookup_insert_ne.
Qed.

Lemma db_update_job_frame (now jid : string) (p : Job.patch) (w : World) :
  let w' := db_update_job now jid p w in
  (forall j, j ≠ jid -> jobs w' !! j = jobs w !! j)
  /\ (forall m, (forall old, jobs w !! jid = Some old -> m ≠ Job.model_id old) ->
                models w' !! m = models w !! m).
Proof.
  unfold db_update_job. destruct (jobs w !! jid) as [old|] eqn:Hold.
  - destruct (Job.accepts p); [|cbn [jobs models emit]; auto].
    cbn [jobs models]. split.
    + intros j Hne. now rewrite lookup_insert_ne.
    + intros m Hm. unfold update_model_on_lora_completion.
      destruct (_ && _); [|reflexivity].
      apply sql_update_model_ne. cbn [Job.apply Job.model_id].
      now apply Hm.
  - cbn [jobs models emit]. auto.
Qed.

(** X3. A call of the poll route changes no job row but the one it is
    asked about, and no model row but the model of that job. *)
Theorem poll_touches_one_job_and_its_model (body : PollBody) (env : PollEnv)
    (w : World) :
  let jid := default "" (training_job_id body) in
  let w' := snd (POST_poll_training body env w) in
  (forall j, j ≠ jid -> same_job w w' j)
  /\ (forall m, (forall job, jobs w !! jid = Some job -> m ≠ Job.model_id job) ->
                same_model w w' m).
Proof.
  intros jid w'. subst w'. unfold same_job, same_model, POST_poll_training.
  destruct (negb (truthy (training_job_id body))); [now split|].
  fold jid. destruct (jobs w !! jid) as [job|] eqn:Hjob; [|now split].
  destruct (is_terminal (Job.status job)); [now split|].
  destruct (negb (truthy (Job.replicate_training_id job))); [now split|].
  pose proof (checkTrainingStatus_store
                (default "" (Job.replicate_training_id job))
                (get_reply env) w) as Hst.
  destruct (checkTrainingStatus _ _ _) as [rs w1]. cbn [snd] in Hst |- *.
  destruct Hst as (Hj1 & Hm1 & _).
  set (w2 := match st_status rs with
             | Replicate.succeeded => _
             | Replicate.failed | Replicate.canceled => _
             | _ => w1 end).
  assert (H2 : jobs w2 = jobs w
               /\ forall m, m ≠ Job.model_id job ->
                            models w2 !! m = models w !! m).
  { subst w2. destruct (st_status rs); cbn [jobs models emit db_update_model];
      (split; [assumption|]); intros m Hm; rewrite <- ?Hm1; try reflexivity.
    now apply sql_update_model_ne. }
  destruct H2 as [Hj2 Hm2].
  destruct (poll_dbUpdate env job rs) as [p|].
  - destruct (db_update_job_frame (db_now env) jid p w2) as [Fj Fm]. split.
    + intros j Hne. now rewrite (Fj j Hne), Hj2.
    + intros m Hm. specialize (Hm job eq_refl).
      rewrite Fm, Hm2; [reflexivity | assumption |].
      intros old Hold. rewrite Hj2, Hjob in Hold. now injection Hold as <-.
  - split.
    + intros j _. now rewrite Hj2.
    + intros m Hm. apply Hm2. now apply Hm.
Qed.

Lemma js_or_default_nonempty (a : option string) (d : string) :
  d ≠ "" -> js_or_default a d ≠ "".
Proof.
  intros Hd. unfold js_or_default. destruct a as [x|]; [|assumption].
  destruct (String.eqb_spec x ""); assumption.
Qed.

(** X4. Whenever a call of the poll route turns a job into failed, the row
    carries a non-empty error message: the provider's, or "Training failed"
    or "Training canceled" in its place. *)
Theorem poll_failure_has_message (body : PollBody) (env : PollEnv) (w : World)
    (j : string) (old new : Job.t) :
  jobs w !! j = Some old ->
  Job.status old ≠ failed ->
  jobs (snd (POST_poll_training body env w)) !! j = Some new ->
  Job.status new = failed ->
  exists msg, Job.error_message new = Some msg /\ msg ≠ "".
Proof.
  intros Hold Hnf Hnew Hf.
  destruct (poll_rows body env w j)
    as [Heq | (old' & rs & p & Hold' & _ & Hp & Hrow)].
  - rewrite Heq, Hold in Hnew. injection Hnew as <-. contradiction.
  - rewrite Hrow in Hnew. injection Hnew as <-.
    rewrite Hold in Hold'. injection Hold' as <-.
    unfold poll_dbUpdate in Hp.
    destruct (st_status rs) eqn:Hs; try discriminate;
      try destruct (extract_output _); injection Hp as <-;
      cbn [Job.apply Job.status Job.p_status from_option id] in Hf;
      try discriminate;
      cbn [Job.apply Job.error_message Job.p_error_message from_option];
      eexists; (split; [reflexivity|]);
      apply js_or_default_nonempty; discriminate.
Qed.

Lemma poll_failure_has_message_witness :
  exists msg,
    Job.error_message
      (Job.apply
         (Job.mkPatch (Some failed) (Some 0) None (Some "Training canceled")
            None None None None) Demo.started_job) = Some msg
    /\ msg ≠ "".
Proof.
  apply (poll_failure_has_message (mkPollBody (Some "job-1"))
           (Demo.at_poll (GetOk Replicate.canceled None OutAbsent None))
           Demo.started "job-1" Demo.started_job);
    first [ discriminate | vm_compute; reflexivity ].
Defined.











(** *** The train-lora route *)

(** The answer of the last part of the handler, read off the outcome of
    [startLoRATraining]. *)
Lemma launch_training_response (env : TrainEnv)
    (jid mid tw name : string) (images : list string) (steps : N)
    (rate : QArith_base.Q) (w2 : World) :
  let r := fst (startLoRATraining (training_input images tw steps rate)
                  (create_reply env) (elapsed_ms env) w2) in
  fst (launch_training env jid mid tw name images steps rate w2)
  = if negb (out_success r) || negb (truthy (out_replicate_training_id r))
    then mkResponse 500 false None
           (Some (js_or_default (out_error r) "Failed to start training"))
    else ok_with
           {| sr_success := true;
              sr_training_job_id := jid;
              sr_model_id := mid;
              sr_trigger_word := tw;
              sr_estimated_duration_minutes := 2;
              sr_estimated_cost_usd := cost_usd;
              sr_message :=
                "LoRA training started for model " ++ dquote
                ++ name ++ dquote ++ ". Training will take ~2 minutes." |}.
Proof.
  intros r. unfold launch_training.
  set (w3 := db_update_job (t_db_now env) jid uploading_patch w2).
  assert (Hr : fst (startLoRATraining (training_input images tw steps rate)
                      (create_reply env) (elapsed_ms env) w3) = r)
    by apply startLoRATraining_result.
  destruct (startLoRATraining _ _ _ w3) as [r' w4]. cbn [fst] in Hr.
  subst r'. now destruct (_ || _).
Qed.

(** The table of models after "Create or get model record": as it was, or
    with one new, inactive row under a fresh id. *)
Lemma create_or_get_model_models (body : StartLoRATrainingRequest)
    (g : Gender) (images : list string) (env : TrainEnv) (w : World) :
  let w1 := snd (create_or_get_model body g images env w) in
  models w1 = models w
  \/ (truthy (rq_model_id body) = false
      /\ models w !! model_uuid env = None
      /\ fst (create_or_get_model body g images env w) = inr (model_uuid env)
      /\ exists row, Model.is_active row = false
                     /\ Model.has_lora_training row = false
                     /\ models w1 = <[model_uuid env := row]> (models w)).
Proof.
  unfold create_or_get_model.
  destruct (truthy (rq_model_id body)) eqn:Hid; [now left|].
  unfold db_insert_model. destruct (model_insert_error env); [now left|].
  cbn [Model.id]. destruct (models w !! model_uuid env) eqn:Hm; [now left|].
  right. repeat split; try reflexivity. eexists. cbn [snd models emit].
  repeat split; reflexivity.
Qed.

(** The shape of a call of the train-lora route: it answers with an error
    and leaves the job table alone, or it inserts the pending row under a
    fresh id, for a model that exists, and runs [launch_training]. *)
Lemma start_shape (body : StartLoRATrainingRequest) (env : TrainEnv)
    (w : World) :
  let r := POST_train_lora body env w in
  let w1 := snd (create_or_get_model body (default female (rq_gender body))
                   (default [] (rq_training_images body)) env w) in
  (exists code msg,
      fst r = fail_with code msg
      /\ jobs (snd r) = jobs w
      /\ (models (snd r) = models w \/ models (snd r) = models w1))
  \/ exists mid tw name images steps rate w2,
       r = launch_training env (job_uuid env) mid tw name images steps rate w2
       /\ jobs w !! job_uuid env = None
       /\ jobs w2
          = <[job_uuid env := new_job_row env mid images tw steps rate]>
              (jobs w)
       /\ is_Some (models w2 !! mid)
       /\ models w2 = models w1.
Proof.
  unfold POST_train_lora.
  destruct (negb (supabase_configured env)).
  { left. do 2 eexists. cbn [fst snd]. auto. }
  destruct (validate_request body).
  { left. do 2 eexists. cbn [fst snd]. auto. }
  set (images := default [] (rq_training_images body)).
  set (g := default female (rq_gender body)).
  set (name := default "" (rq_model_name body)).
  set (tw := if truthy (rq_trigger_word body) then _ else _).
  pose proof (create_or_get_model_store body g images env w) as Hc.
  destruct (create_or_get_model body g images env w) as [[msg | mid] w1];
    cbn [snd] in Hc |- *; destruct Hc as [Hj1 Hp1].
  { left. do 2 eexists. cbn [fst snd]. auto. }
  set (steps := js_or_num (rq_steps body) 1000).
  set (rate := js_or_rate (rq_learning_rate body) rate_default).
  set (row := new_job_row env mid images tw steps rate).
  unfold db_insert_job. change (Job.id row) with (job_uuid env).
  change (Job.model_id row) with mid.
  destruct (job_insert_error env).
  { left. do 2 eexists. cbn [fst snd jobs models emit]. auto. }
  destruct (jobs w1 !! job_uuid env) eqn:Hfresh.
  { left. do 2 eexists. cbn [fst snd jobs models emit]. auto. }
  destruct (models w1 !! mid) eqn:Hm.
  2:{ left. do 2 eexists. cbn [fst snd jobs models emit]. auto. }
  right. exists mid, tw, name, images, steps, rate. eexists.
  split; [reflexivity|]. cbn [jobs models emit].
  rewrite <- Hj1. repeat split; eauto.
Qed.

(** [startLoRATraining] reports success with an id only when the provider
    has accepted the training and answered with that id. *)
Lemma startLoRATraining_success (input : LoRATrainingInput)
    (reply : CreateReply) (ms : N) (w : World) :
  let r := fst (startLoRATraining input reply ms w) in
  out_success r = true ->
  exists tid st, reply = CreateOk tid st
                 /\ out_replicate_training_id r = Some tid.
Proof.
  unfold startLoRATraining. destruct (_ || _)%nat; [discriminate|].
  destruct reply as [tid st | m]; [eauto | discriminate].
Qed.

(** An answer 200 of the train-lora route stands for a training that the
    provider has accepted and for a job row under the id of the answer. *)
Lemma start_ok_row (body : StartLoRATrainingRequest) (env : TrainEnv)
    (w : World) (d : StartLoRATrainingResponse) :
  fst (POST_train_lora body env w) = ok_with d ->
  let w' := snd (POST_train_lora body env w) in
  exists job tid st,
    create_reply env = CreateOk tid st
    /\ tid ≠ ""
    /\ jobs w' !! sr_training_job_id d = Some job
    /\ Job.trigger_word job = sr_trigger_word d
    /\ Job.model_id job = sr_model_id d
    /\ is_Some (models w' !! sr_model_id d)
    /\ started_row tid job.
Proof.
  intros Hok w'. subst w'.
  pose proof (start_shape body env w) as Hshape. cbv zeta in Hshape.
  destruct Hshape as [(code & msg & Hfail & _)
                     | (mid & tw & name & images & steps & rate & w2
                        & Hr & Hfresh & Hj2 & Hm2 & _)].
  - rewrite Hfail in Hok. discriminate.
  - rewrite Hr in Hok |- *.
    rewrite launch_training_response in Hok.
    assert (Hrow : jobs w2 !! job_uuid env
                   = Some (new_job_row env mid images tw steps rate))
      by (rewrite Hj2; apply lookup_insert_eq).
    destruct (launch_training_store env (job_uuid env) mid tw name images
                steps rate w2 _ Hrow) as (Hj & _ & Hm).
    unfold final_patch, updated in Hj.
    destruct (negb (out_success _) || negb (truthy _)) eqn:Hcond;
      [discriminate|].
    injection Hok as <-. cbn [sr_training_job_id sr_trigger_word sr_model_id].
    apply orb_false_iff in Hcond as [Hsucc Hrid].
    apply negb_false_iff in Hsucc, Hrid.
    destruct (startLoRATraining_success _ _ _ _ Hsucc)
      as (tid & st & Hreply & Htid).
    rewrite Htid in Hrid. apply truthy_Some in Hrid.
    rewrite start_training_patch_accepts, Htid in Hj.
    cbn [from_option] in Hj. unfold started_row.
    exists (if (characters tid <=? 100)%nat
            then Job.apply
                   (start_training_patch env
                      (fst (startLoRATraining
                              (training_input images tw steps rate)
                              (create_reply env) (elapsed_ms env) w2)))
                   (Job.apply uploading_patch
                      (new_job_row env mid images tw steps rate))
            else Job.apply uploading_patch
                   (new_job_row env mid images tw steps rate)), tid, st.
    rewrite Hj, Hm. split; [assumption|]. split; [assumption|].
    split; [apply lookup_insert_eq|].
    destruct (characters tid <=? 100)%nat; cbn;
      rewrite ?Htid; repeat split; try assumption; reflexivity.
Qed.

(** X9. When the train-lora route answers 200, the provider has accepted
    the training, and the job table holds, under the training_job_id of the
    answer, a row with the trigger word and the model id of the answer, for
    a model that exists. The row is in training with progress 20 and the
    provider's id when that id fits its column of 100 characters; when it
    does not, the database refuses the last update of the route, which does
    not read the refusal, and the row is still uploading with progress 10
    and no provider id. The GET route, asked for that id, reports the
    status and the progress of the row. *)
Theorem start_answer_is_stored (body : StartLoRATrainingRequest)
    (env : TrainEnv) (w : World) (d : StartLoRATrainingResponse) :
  fst (POST_train_lora body env w) = ok_with d ->
  let w' := snd (POST_train_lora body env w) in
  exists job tid st,
    create_reply env = CreateOk tid st
    /\ jobs w' !! sr_training_job_id d = Some job
    /\ Job.trigger_word job = sr_trigger_word d
    /\ Job.model_id job = sr_model_id d
    /\ is_Some (models w' !! sr_model_id d)
    /\ started_row tid job
    /\ (sr_training_job_id d ≠ "" ->
        exists sd,
          GET_train_lora true (Some (sr_training_job_id d)) w' = ok_with sd
          /\ sd_status sd = Job.status job
          /\ sd_progress sd = Job.progress job).
Proof.
  intros Hok w'.
  destruct (start_ok_row body env w d Hok)
    as (job & tid & st & Hreply & _ & Hjob & Ht & Hm & Hms & Hrow).
  fold w' in Hjob, Hms. exists job, tid, st.
  repeat (split; [assumption|]).
  intros Hid. unfold GET_train_lora. cbn [negb].
  apply truthy_Some in Hid. rewrite Hid. cbn [negb from_option].
  unfold id at 1. rewrite Hjob. eexists. split; [reflexivity|]. auto.
Qed.

Lemma start_answer_is_stored_witness :
  let w' := snd (POST_train_lora Demo.body Wide.env (initial ∅)) in
  exists job tid st,
    create_reply Wide.env = CreateOk tid st
    /\ jobs w' !! "job-1" = Some job
    /\ Job.trigger_word job = "TOK"
    /\ Job.model_id job = "model-1"
    /\ is_Some (models w' !! "model-1")
    /\ started_row tid job
    /\ ("job-1" ≠ "" ->
        exists sd,
          GET_train_lora true (Some "job-1") w' = ok_with sd
          /\ sd_status sd = Job.status job
          /\ sd_progress sd = Job.progress job).
Proof.
  apply (start_answer_is_stored Demo.body Wide.env (initial ∅)
           {| sr_success := true;
              sr_training_job_id := "job-1";
              sr_model_id := "model-1";
              sr_trigger_word := "TOK";
              sr_estimated_duration_minutes := 2;
              sr_estimated_cost_usd := cost_usd;
              sr_message :=
                "LoRA training started for model " ++ dquote
                ++ "Sarah" ++ dquote ++ ". Training will take ~2 minutes." |}).
  vm_compute. reflexivity.
Defined.

(** The same request when the provider's id has 101 characters: the route
    answers 200 and the row is left uploading, without provider id. *)
Example wide_provider_id_leaves_uploading :
  let r := POST_train_lora Demo.body Wide.env (initial ∅) in
  http_status (fst r) = 200%nat
  /\ Job.status <$> jobs (snd r) !! "job-1" = Some uploading
  /\ Job.progress <$> jobs (snd r) !! "job-1" = Some 10
  /\ Job.replicate_training_id <$> jobs (snd r) !! "job-1" = Some None.
Proof. vm_compute. auto. Qed.

(** X10. A call of the train-lora route changes no job row and no model
    row that was there before it: whatever it writes, it writes to rows it
    has inserted itself. *)
Theorem start_leaves_existing_rows (body : StartLoRATrainingRequest)
    (env : TrainEnv) (w : World) :
  let w' := snd (POST_train_lora body env w) in
  (forall j a, jobs w !! j = Some a -> jobs w' !! j = Some a)
  /\ (forall m a, models w !! m = Some a -> models w' !! m = Some a).
Proof.
  intros w'. subst w'.
  assert (Hgrow : forall m a,
    models w !! m = Some a ->
    models (snd (create_or_get_model body (default female (rq_gender body))
                   (default [] (rq_training_images body)) env w)) !! m
    = Some a).
  { intros m a Hm.
    destruct (create_or_get_model_models body
                (default female (rq_gender body))
                (default [] (rq_training_images body)) env w)
      as [-> | (_ & Hfresh & _ & row & _ & _ & ->)]; [assumption|].
    rewrite lookup_insert_ne; [assumption|]. congruence. }
  pose proof (start_shape body env w) as Hshape. cbv zeta in Hshape.
  destruct Hshape as [(code & msg & _ & Hj & [Hm | Hm])
                     | (mid & tw & name & images & steps & rate & w2
                        & Hr & Hfresh & Hj2 & _ & Hm2)].
  - rewrite Hj, Hm. auto.
  - rewrite Hj, Hm. auto.
  - rewrite Hr.
    assert (Hrow : jobs w2 !! job_uuid env
                   = Some (new_job_row env mid images tw steps rate))
      by (rewrite Hj2; apply lookup_insert_eq).
    destruct (launch_training_store env (job_uuid env) mid tw name images
                steps rate w2 _ Hrow) as (Hj & _ & Hm).
    rewrite Hj, Hm, Hj2, Hm2. split; [|assumption].
    intros j a Ha. rewrite insert_insert_eq.
    rewrite lookup_insert_ne; [assumption|]. congruence.
Qed.

(** A valid request for a model that is ready gets as far as
    [launch_training], with the pending row inserted. *)
Lemma start_valid_launches (body : StartLoRATrainingRequest) (env : TrainEnv)
    (w : World) (name mid : string) (g : Gender) (images : list string) :
  supabase_configured env = true ->
  rq_model_name body = Some name -> name ≠ "" ->
  rq_gender body = Some g ->
  rq_training_images body = Some images ->
  (8 <= length images <= 20)%nat ->
  model_ready body env w mid ->
  job_insert_error env = None ->
  jobs w !! job_uuid env = None ->
  exists tw steps rate w2,
    POST_train_lora body env w
    = launch_training env (job_uuid env) mid tw name images steps rate w2
    /\ jobs w2 !! job_uuid env
       = Some (new_job_row env mid images tw steps rate)
    /\ exists row, models w2 !! mid = Some row
                   /\ (truthy (rq_model_id body) = false ->
                       Model.is_active row = false
                       /\ Model.has_lora_training row = false).
Proof.
  intros Hcfg Hname Hne Hg Himg Hlen Hready Herr Hfresh.
  unfold POST_train_lora. rewrite Hcfg. cbn [negb].
  rewrite (validate_request_ok body name g images) by assumption.
  rewrite Hg, Himg, Hname. cbn [from_option]. cbv beta delta [id].
  assert (Hc : exists w1 row,
    create_or_get_model body g images env w = (inr mid, w1)
    /\ jobs w1 = jobs w /\ models w1 !! mid = Some row
    /\ (truthy (rq_model_id body) = false ->
        Model.is_active row = false /\ Model.has_lora_training row = false)).
  { unfold create_or_get_model.
    destruct Hready as [(Hid & Hme & Hmf & ->) | (Hid & Hmne & [row Hm])].
    - rewrite Hid. unfold db_insert_model. rewrite Hme. cbn [Model.id].
      rewrite Hmf. do 2 eexists. split; [reflexivity|].
      cbn [jobs models emit]. rewrite lookup_insert_eq.
      repeat split; reflexivity.
    - rewrite Hid. apply truthy_Some in Hmne. rewrite Hmne.
      cbn [from_option]. cbv beta delta [id].
      exists w, row. repeat split; try assumption; discriminate. }
  destruct Hc as (w1 & mrow & -> & Hj1 & Hm1 & Hnew).
  set (tw := if truthy (rq_trigger_word body) then _ else _).
  set (steps := js_or_num (rq_steps body) 1000).
  set (rate := js_or_rate (rq_learning_rate body) rate_default).
  set (row := new_job_row env mid images tw steps rate).
  unfold db_insert_job. change (Job.id row) with (job_uuid env).
  change (Job.model_id row) with mid.
  rewrite Herr, Hj1, Hfresh, Hm1.
  exists tw, steps, rate. eexists. split; [reflexivity|].
  cbn [jobs models emit]. split; [apply lookup_insert_eq|].
  exists mrow. auto.
Qed.

(** X7. When the provider refuses a valid start request (its create call
    throws), the route answers 500 with the provider's message, and the job
    row it had inserted is left failed, with progress 0, that message as
    error message and no provider id; the model row exists, and a model
    that the route created for the request stays inactive and without LoRA
    training. *)
Theorem provider_rejection_marks_job_failed
    (body : StartLoRATrainingRequest) (env : TrainEnv) (w : World)
    (name mid : string) (g : Gender) (images : list string)
    (m : option string) :
  supabase_configured env = true ->
  rq_model_name body = Some name -> name ≠ "" ->
  rq_gender body = Some g ->
  rq_training_images body = Some images ->
  (8 <= length images <= 20)%nat ->
  model_ready body env w mid ->
  job_insert_error env = None ->
  jobs w !! job_uuid env = None ->
  create_reply env = CreateThrows m ->
  let r := POST_train_lora body env w in
  let msg := default "LoRA training failed" m in
  fst r = mkResponse 500 false None
            (Some (js_or_default (Some msg) "Failed to start training"))
  /\ (exists job, jobs (snd r) !! job_uuid env = Some job
                  /\ Job.status job = failed
                  /\ Job.progress job = 0
                  /\ Job.error_message job = Some msg
                  /\ Job.replicate_training_id job = None)
  /\ (exists row, models (snd r) !! mid = Some row
                  /\ (truthy (rq_model_id body) = false ->
                      Model.is_active row = false
                      /\ Model.has_lora_training row = false)).
Proof.
  intros Hcfg Hname Hne Hg Himg Hlen Hready Herr Hfresh Hreply r msg.
  subst r.
  destruct (start_valid_launches body env w name mid g images)
    as (tw & steps & rate & w2 & -> & Hrow & Hmodel); try assumption.
  destruct (launch_training_store env (job_uuid env) mid tw name images
              steps rate w2 _ Hrow) as (Hj & _ & Hm).
  rewrite launch_training_response, Hj, Hm.
  assert (Hr : fst (startLoRATraining (training_input images tw steps rate)
                      (create_reply env) (elapsed_ms env) w2)
               = {| out_success := false;
                    out_replicate_training_id := None;
                    out_lora_weights_url := None;
                    out_sample_images := None;
                    out_training_duration_seconds :=
                      Some (Z.of_N (elapsed_ms env) / 1000);
                    out_estimated_cost_usd := None;
                    out_error := Some msg |}).
  { unfold startLoRATraining, training_input. cbn [in_training_images].
    destruct Hlen as [Hlo Hhi].
    rewrite (proj2 (Nat.ltb_ge _ _) Hlo), (proj2 (Nat.ltb_ge _ _) Hhi).
    cbn [orb]. rewrite Hreply. reflexivity. }
  rewrite Hr. unfold final_patch. cbn [out_success negb orb out_error].
  split; [reflexivity|]. split; [|exact Hmodel].
  eexists. split; [apply lookup_insert_eq|]. cbn. auto.
Qed.

Lemma provider_rejection_marks_job_failed_witness :
  let r := POST_train_lora Demo.body Refused.env (initial ∅) in
  fst r = mkResponse 500 false None (Some "Invalid version")
  /\ (exists job, jobs (snd r) !! "job-1" = Some job
                  /\ Job.status job = failed
                  /\ Job.progress job = 0
                  /\ Job.error_message job = Some "Invalid version"
                  /\ Job.replicate_training_id job = None)
  /\ (exists row, models (snd r) !! "model-1" = Some row
                  /\ (truthy (rq_model_id Demo.body) = false ->
                      Model.is_active row = false
                      /\ Model.has_lora_training row = false)).
Proof.
  apply (provider_rejection_marks_job_failed Demo.body Refused.env
           (initial ∅) "Sarah" "model-1" female Demo.images
           (Some "Invalid version"));
    try reflexivity; try discriminate.
  - simpl. lia.
  - left. repeat split; reflexivity.
Defined.

(** X8. A valid start request that names a model id which is not in the
    table of models is answered with 500; no job row and no model row is
    created, and the provider is not called: the one thing the handler did
    was the insert that the database refused. *)
Theorem unknown_model_creates_nothing (body : StartLoRATrainingRequest)
    (env : TrainEnv) (w : World) (name mid : string) (g : Gender)
    (images : list string) :
  supabase_configured env = true ->
  rq_model_name body = Some name -> name ≠ "" ->
  rq_gender body = Some g ->
  rq_training_images body = Some images ->
  (8 <= length images <= 20)%nat ->
  rq_model_id body = Some mid -> mid ≠ "" ->
  models w !! mid = None ->
  let r := POST_train_lora body env w in
  http_status (fst r) = 500%nat
  /\ jobs (snd r) = jobs w
  /\ models (snd r) = models w
  /\ exists row,
       log (snd r)
       = ConsoleError "Error creating training job:" :: DbInsertJob row
         :: log w.
Proof.
  intros Hcfg Hname Hne Hg Himg Hlen Hid Hmne Hm r. subst r.
  unfold POST_train_lora. rewrite Hcfg. cbn [negb].
  rewrite (validate_request_ok body name g images) by assumption.
  unfold create_or_get_model. rewrite Hid.
  apply truthy_Some in Hmne. rewrite Hmne.
  cbn [from_option]. cbv beta delta [id].
  unfold db_insert_job. cbn [new_job_row Job.id Job.model_id]. rewrite Hm.
  destruct (job_insert_error env); [|destruct (jobs w !! job_uuid env)];
    cbn [fst snd http_status fail_with jobs models log emit];
    repeat split; eexists; reflexivity.
Qed.

Lemma unknown_model_creates_nothing_witness :
  let r := POST_train_lora Refused.body Demo.env Demo.started in
  http_status (fst r) = 500%nat
  /\ jobs (snd r) = jobs Demo.started
  /\ models (snd r) = models Demo.started
  /\ exists row,
       log (snd r)
       = ConsoleError "Error creating training job:" :: DbInsertJob row
         :: log Demo.started.
Proof.
  apply (unknown_model_creates_nothing Refused.body Demo.env Demo.started
           "Sarah" "model-9" female Demo.images);
    try reflexivity; try discriminate.
  simpl. lia.
Defined.

(** *** Provider id, timestamps and error message along the lifecycle *)

(** The row that the poll route writes had a provider id. *)
Lemma poll_rows_active (body : PollBody) (env : PollEnv) (w : World)
    (j : string) :
  let w' := snd (POST_poll_training body env w) in
  jobs w' !! j = jobs w !! j
  \/ exists old rs p,
       jobs w !! j = Some old
       /\ is_terminal (Job.status old) = false
       /\ truthy (Job.replicate_training_id old) = true
       /\ poll_dbUpdate env old rs = Some p
       /\ jobs w' !! j = Some (Job.apply p old).
Proof.
  unfold POST_poll_training.
  destruct (negb (truthy (training_job_id body))); [now left|].
  set (jid := default "" (training_job_id body)).
  destruct (jobs w !! jid) as [job|] eqn:Hjob; [|now left].
  destruct (is_terminal (Job.status job)) eqn:Hterm; [now left|].
  destruct (truthy (Job.replicate_training_id job)) eqn:Hrid; [|now left].
  cbn [negb].
  pose proof (checkTrainingStatus_store
                (default "" (Job.replicate_training_id job))
                (get_reply env) w) as Hst.
  destruct (checkTrainingStatus _ _ _) as [rs w1]. cbn [snd] in Hst |- *.
  destruct Hst as (Hj1 & _ & _).
  set (w2 := match st_status rs with
             | Replicate.succeeded => _
             | Replicate.failed | Replicate.canceled => _
             | _ => w1 end).
  assert (Hj2 : jobs w2 = jobs w).
  { subst w2. destruct (st_status rs); simpl; assumption. }
  destruct (poll_dbUpdate env job rs) as [p|] eqn:Hp;
    [|left; now rewrite Hj2].
  assert (Hjob2 : jobs w2 !! jid = Some job) by now rewrite Hj2.
  rewrite (db_update_job_jobs _ _ _ _ _ Hjob2
             (poll_dbUpdate_accepts _ _ _ _ Hp)), Hj2.
  destruct (decide (j = jid)) as [->|Hne].
  - right. exists job, rs, p. rewrite lookup_insert_eq. auto.
  - left. now rewrite lookup_insert_ne.
Qed.

Lemma poll_keeps_references (body : PollBody) (env : PollEnv) (w : World) :
  rows_ok references_ok (jobs w) ->
  rows_ok references_ok (jobs (snd (POST_poll_training body env w))).
Proof.
  intros Hok j new Hnew.
  destruct (poll_rows_active body env w j)
    as [Heq | (old & rs & p & Hold & Hterm & Hrid & Hp & Hrow)].
  - rewrite Heq in Hnew. eapply Hok; eassumption.
  - rewrite Hrow in Hnew. injection Hnew as <-.
    specialize (Hok j old Hold). unfold references_ok in *.
    unfold poll_dbUpdate in Hp.
    destruct (Job.status old) eqn:Hs; try discriminate;
      try (destruct Hok as (Hnone & _); rewrite Hnone in Hrid; discriminate).
    destruct Hok as (_ & Hstart & Hc & He).
    destruct (st_status rs); try discriminate;
      try destruct (extract_output _); injection Hp as <-;
      cbn [Job.apply Job.status Job.replicate_training_id Job.started_at
           Job.completed_at Job.error_message Job.p_status
           Job.p_replicate_training_id Job.p_started_at Job.p_completed_at
           Job.p_error_message from_option id];
      rewrite ?Hs; repeat split; eauto.
Qed.

Lemma start_keeps_references (body : StartLoRATrainingRequest)
    (env : TrainEnv) (w : World) :
  rows_ok references_ok (jobs w) ->
  rows_ok references_ok (jobs (snd (POST_train_lora body env w))).
Proof.
  intros Hok.
  destruct (start_store body env w)
    as [[Hj _] | (mid & images & tw & steps & rate & r & _ & Hj & _)];
    rewrite Hj; [assumption|].
  apply rows_ok_insert; [assumption|].
  unfold updated. destruct (Job.accepts _); [|cbn; auto].
  unfold references_ok, final_patch.
  destruct (negb (out_success r)
            || negb (truthy (out_replicate_training_id r))) eqn:Hcond.
  - cbn. reflexivity.
  - apply orb_false_iff in Hcond as [_ Hrid].
    apply negb_false_iff in Hrid. cbn.
    destruct (out_replicate_training_id r); [|discriminate].
    repeat split; eauto.
Qed.

(** X6. Start from a database without training jobs and take any sequence
    of calls of the two routes. A job in pending or uploading has no
    provider id and no start time; a job in training or completed has a
    provider id and a start time; completed_at is set exactly on the
    completed jobs; an error message is only ever on a failed job; and no
    job is cancelled. *)
Theorem references_follow_status (ms : gmap string Model.t) (ops : list Op)
    (j : string) (job : Job.t) :
  jobs (run ops (initial ms)) !! j = Some job ->
  references_ok job
  /\ (is_Some (Job.completed_at job) <-> Job.status job = completed)
  /\ (is_Some (Job.error_message job) -> Job.status job = failed)
  /\ (truthy (Job.replicate_training_id job) = false ->
      Job.status job = pending \/ Job.status job = uploading
      \/ Job.status job = failed).
Proof.
  assert (Hall : forall (l : list Op) (w : World),
    rows_ok references_ok (jobs w) ->
    rows_ok references_ok (jobs (run l w))).
  { induction l as [|op l IH]; intros w Hw; [assumption|].
    apply IH. destruct op; [now apply start_keeps_references
                           | now apply poll_keeps_references]. }
  intros Hj.
  assert (Hok : references_ok job).
  { eapply (Hall ops (initial ms)); [|exact Hj].
    intros k a. cbn. rewrite lookup_empty. discriminate. }
  split; [assumption|]. unfold references_ok in Hok.
  destruct (Job.status job).
  - destruct Hok as (Hr & Hs & Hc & He). rewrite Hc, He.
    repeat split; try (intros [? ?]; discriminate); try discriminate; auto.
  - destruct Hok as (Hr & Hs & Hc & He). rewrite Hc, He.
    repeat split; try (intros [? ?]; discriminate); try discriminate; auto.
  - destruct Hok as (Hr & Hs & Hc & He). rewrite Hc, He, Hr.
    repeat split; try (intros [? ?]; discriminate); try discriminate; auto.
  - destruct Hok as (Hr & Hs & Hc & He). rewrite He, Hr.
    repeat split; try (intros [? ?]; discriminate); try discriminate; auto.
  - rewrite Hok.
    repeat split; try (intros [? ?]; discriminate); try discriminate; auto.
  - contradiction.
Qed.

Lemma references_follow_status_witness :
  references_ok Demo.started_job
  /\ (is_Some (Job.completed_at Demo.started_job)
      <-> Job.status Demo.started_job = completed)
  /\ (is_Some (Job.error_message Demo.started_job)
      -> Job.status Demo.started_job = failed)
  /\ (truthy (Job.replicate_training_id Demo.started_job) = false ->
      Job.status Demo.started_job = pending
      \/ Job.status Demo.started_job = uploading
      \/ Job.status Demo.started_job = failed).
Proof.
  apply (references_follow_status ∅ [OpStart Demo.body Demo.env] "job-1"
           Demo.started_job).
  vm_compute. reflexivity.
Defined.

(** *** The component *)

Lemma filter_all {A} (p : A -> bool) (l : list A) :
  Forall (fun x => p x = true) (List.filter p l).
Proof.
  induction l as [|x l IH]; simpl; [constructor|].
  destruct (p x) eqn:E; [constructor; assumption | assumption].
Qed.

Lemma length_delete_both {A B} (i : nat) (l : list A) (k : list B) :
  length k = length l -> length (delete i k) = length (delete i l).
Proof.
  revert i k. induction l as [|x l IH]; intros i [|y k] H;
    try discriminate; [reflexivity|].
  destruct i as [|i]; simpl in *; [lia|]. f_equal. apply IH. lia.
Qed.

Lemma length_delete_le {A} (i : nat) (l : list A) :
  (length (delete i l) <= length l)%nat.
Proof.
  revert i. induction l as [|x l IH]; intros [|i]; simpl; try lia.
  specialize (IH i). lia.
Qed.

Lemma add_files_ok (url : File -> string) (files : list File)
    (c : Component) : selection_ok c -> selection_ok (add_files url files c).
Proof.
  intros (Hlen & Hprev & Himg). unfold add_files.
  destruct (20 <? length (List.filter is_image files))%nat;
    [repeat split; assumption|].
  destruct (0 <? length (List.filter is_image files))%nat;
    [|repeat split; assumption].
  unfold selection_ok. cbn [selectedFiles previewUrls].
  rewrite length_map, length_firstn. repeat split; [lia|].
  apply Forall_take, Forall_app. split; [assumption | apply filter_all].
Qed.

Lemma ui_step_ok (e : UiEvent) (c : Component) :
  selection_ok c -> selection_ok (ui_step e c).
Proof.
  intros H. destruct e; cbn [ui_step]; try (now apply add_files_ok);
    try exact H.
  destruct H as (Hlen & Hprev & Himg). unfold selection_ok, removeFile.
  cbn [selectedFiles previewUrls]. repeat split.
  - pose proof (length_delete_le index (selectedFiles c)). lia.
  - now apply length_delete_both.
  - now apply Forall_delete.
Qed.

(** X11. Whatever files the user selects, drops and removes, the component
    never holds more than 20 files, holds exactly one preview url per file,
    and holds image files only. *)
Theorem selection_stays_in_bounds (events : list UiEvent) :
  selection_ok (ui_run events initial_component).
Proof.
  assert (Hall : forall (l : list UiEvent) (c : Component),
    selection_ok c -> selection_ok (ui_run l c)).
  { induction l as [|e l IH]; intros c Hc; [assumption|].
    apply IH. now apply ui_step_ok. }
  apply Hall. repeat split; [cbn; lia | constructor].
Qed.

Lemma upload_from_length (uploads : nat -> UploadReply) (files : list File) :
  forall (i : nat) (urls : list string),
    upload_from uploads i files = inr urls -> length urls = length files.
Proof.
  induction files as [|f files IH]; intros i urls; cbn [upload_from].
  - now intros [= <-].
  - destruct (uploads i) as [m | ok success url]; [discriminate|].
    destruct (negb ok); [discriminate|].
    destruct (negb success || negb (truthy url)); [discriminate|].
    destruct (upload_from uploads (S i) files) as [e | urls'] eqn:E;
      [discriminate|].
    intros [= <-]. cbn. f_equal. now apply (IH (S i)).
Qed.

(** X12. What the component checks before it sends is what the train-lora
    route checks on arrival: with 8 to 20 selected files, a model name, and
    every upload answered with a url, the request body that
    handleStartTraining builds passes the validation of the route, with one
    training image per selected file. *)
Theorem client_request_passes_validation (uploads : nat -> UploadReply)
    (c : Component) (urls : list string) :
  (8 <= length (selectedFiles c) <= 20)%nat ->
  modelName c ≠ "" ->
  upload_from uploads 0 (selectedFiles c) = inr urls ->
  validate_request (training_request c urls) = None
  /\ length urls = length (selectedFiles c).
Proof.
  intros Hlen Hname Hup.
  pose proof (upload_from_length uploads (selectedFiles c) 0 urls Hup) as Hl.
  split; [|assumption].
  apply (validate_request_ok _ (modelName c) (gender c) urls);
    try reflexivity; [assumption | lia].
Qed.

Lemma client_request_passes_validation_witness :
  validate_request (training_request Form.filled Demo.images) = None
  /\ length Demo.images = length (selectedFiles Form.filled).
Proof.
  apply (client_request_passes_validation Form.uploads Form.filled
           Demo.images).
  - cbn. lia.
  - discriminate.
  - vm_compute. reflexivity.
Defined.

(** The train-lora route reports success only with its 200 answer. *)
Lemma start_success_is_ok (body : StartLoRATrainingRequest) (env : TrainEnv)
    (w : World) :
  success (fst (POST_train_lora body env w)) = true ->
  exists d, fst (POST_train_lora body env w) = ok_with d.
Proof.
  pose proof (start_shape body env w) as Hshape. cbv zeta in Hshape.
  destruct Hshape as [(code & msg & -> & _)
                     | (mid & tw & name & images & steps & rate & w2
                        & -> & _)]; [discriminate|].
  rewrite launch_training_response.
  destruct (negb (out_success _) || negb (truthy _)); [discriminate|].
  eauto.
Qed.

(** A poll of a row that has no provider id yet answers with the stored
    status and a message, and writes nothing. *)
Lemma poll_not_started (w : World) (jid : string) (job : Job.t)
    (env : PollEnv) :
  jid ≠ "" ->
  jobs w !! jid = Some job ->
  is_terminal (Job.status job) = false ->
  Job.replicate_training_id job = None ->
  POST_poll_training (mkPollBody (Some jid)) env w
  = (ok_with {| d_status := Job.status job;
                d_progress := Job.progress job;
                d_lora_weights_url := None;
                d_sample_images := None;
                d_error_message := None;
                d_message := Some "Training not yet started on Replicate" |},
     w).
Proof.
  intros Hid Hjob Hterm Hrid. unfold POST_poll_training.
  cbn [training_job_id]. apply truthy_Some in Hid. rewrite Hid.
  cbn [negb from_option]. unfold id at 1.
  now rewrite Hjob, Hterm, Hrid.
Qed.

(** X13. handleStartTraining hands a job id to the polling loop only when
    the train-lora route has answered 200 for a training that the provider
    accepted and the job table holds a row under that id; the component
    then shows the training as running at 20 percent and remembers the id.
    The row is in training with progress 20 and the provider's id when that
    id fits its column of 100 characters. When it does not, the row is
    still uploading with progress 10, and every poll of it is answered with
    that status and "Training not yet started on Replicate" and writes
    nothing. *)
Theorem polling_starts_on_a_started_job (uploads : nat -> UploadReply)
    (fetched : TrainFetch) (c : Component) (w : World) (jid : string) :
  snd (handleStartTraining uploads fetched c w) = Some jid ->
  let c' := fst (fst (handleStartTraining uploads fetched c w)) in
  let w' := snd (fst (handleStartTraining uploads fetched c w)) in
  (exists job env tid st,
      fetched = TrainFetchResolves env
      /\ create_reply env = CreateOk tid st
      /\ jobs w' !! jid = Some job
      /\ started_row tid job
      /\ ((100 < characters tid)%nat -> jid ≠ "" ->
          forall penv,
            POST_poll_training (mkPollBody (Some jid)) penv w'
            = (ok_with
                 {| d_status := uploading;
                    d_progress := 10;
                    d_lora_weights_url := None;
                    d_sample_images := None;
                    d_error_message := None;
                    d_message :=
                      Some "Training not yet started on Replicate" |}, w')))
  /\ trainingJobId c' = Some jid
  /\ isTraining (client c') = true
  /\ trainingProgress (client c') = 20
  /\ isProcessing c' = false.
Proof.
  unfold handleStartTraining.
  destruct (length (selectedFiles c) <? 8)%nat; [discriminate|].
  destruct (String.eqb (modelName c) ""); [discriminate|].
  destruct (upload_from uploads 0 (selectedFiles c)) as [e | urls];
    [discriminate|].
  destruct fetched as [m | env]; [discriminate|].
  pose proof (start_success_is_ok (training_request c urls) env w) as Hsucc.
  pose proof (start_ok_row (training_request c urls) env w) as Hrow.
  destruct (POST_train_lora (training_request c urls) env w) as [res w1].
  cbn [fst snd] in Hsucc, Hrow.
  destruct (negb _); [discriminate|].
  destruct (success res) eqn:Hs; [|discriminate].
  destruct (Hsucc eq_refl) as [d ->]. cbn [data ok_with].
  cbn [fst snd]. intros [= <-].
  destruct (Hrow d eq_refl)
    as (job & tid & st & Hreply & _ & Hj & _ & _ & _ & Hst).
  split; [|cbn; auto].
  exists job, env, tid, st. repeat (split; [reflexivity || assumption|]).
  intros Hwide Hid penv. unfold started_row in Hst.
  rewrite (proj2 (Nat.leb_gt _ _) Hwide) in Hst.
  destruct Hst as (Hs1 & Hp1 & Hr1).
  rewrite (poll_not_started w1 _ job penv Hid Hj); [|now rewrite Hs1|exact Hr1].
  now rewrite Hs1, Hp1.
Qed.

Lemma polling_starts_on_a_started_job_witness :
  let call := handleStartTraining Form.uploads (TrainFetchResolves Wide.env)
                Form.filled (initial ∅) in
  (exists job env tid st,
      TrainFetchResolves Wide.env = TrainFetchResolves env
      /\ create_reply env = CreateOk tid st
      /\ jobs (snd (fst call)) !! "job-1" = Some job
      /\ started_row tid job
      /\ ((100 < characters tid)%nat -> "job-1" ≠ "" ->
          forall penv,
            POST_poll_training (mkPollBody (Some "job-1")) penv
              (snd (fst call))
            = (ok_with
                 {| d_status := uploading;
                    d_progress := 10;
                    d_lora_weights_url := None;
                    d_sample_images := None;
                    d_error_message := None;
                    d_message :=
                      Some "Training not yet started on Replicate" |},
               snd (fst call))))
  /\ trainingJobId (fst (fst call)) = Some "job-1"
  /\ isTraining (client (fst (fst call))) = true
  /\ trainingProgress (client (fst (fst call))) = 20
  /\ isProcessing (fst (fst call)) = false.
Proof.
  apply (polling_starts_on_a_started_job Form.uploads
           (TrainFetchResolves Wide.env) Form.filled (initial ∅) "job-1").
  vm_compute. reflexivity.
Defined.

(** *** The two loops, when the training ends *)

Lemma poll_terminal (w : World) (jid : string) (job : Job.t) (env : PollEnv) :
  jid ≠ "" ->
  jobs w !! jid = Some job ->
  is_terminal (Job.status job) = true ->
  POST_poll_training (mkPollBody (Some jid)) env w
  = (ok_with {| d_status := Job.status job;
                d_progress := Job.progress job;
                d_lora_weights_url := Job.lora_weights_url job;
                d_sample_images := Job.sample_images job;
                d_error_message := Job.error_message job;
                d_message := None |}, w).
Proof.
  intros Hid Hjob Hterm. unfold POST_poll_training. cbn [training_job_id].
  apply truthy_Some in Hid. rewrite Hid. cbn [negb from_option].
  unfold id at 1. now rewrite Hjob, Hterm.
Qed.

(** X14. Once the job is completed, failed or cancelled, the loop of the
    client ends at the first request that reaches the route, however many
    requests were rejected before it: the component stops showing the
    training as running, shows the stored progress, and shows, for a job
    that is not completed, the stored error message ("Training failed" or
    "Training cancelled" when there is none); the loop writes to no
    table. *)
Theorem client_loop_ends_on_terminal (m : nat) :
  forall (fuel : nat) (jid : string) (fetches : nat -> FetchOutcome)
         (k : nat) (cs : ClientState) (w : World) (job : Job.t)
         (env : PollEnv),
    jid ≠ "" ->
    jobs w !! jid = Some job ->
    is_terminal (Job.status job) = true ->
    (forall i, (i < m)%nat -> fetches (k + i)%nat = FetchRejects) ->
    fetches (k + m)%nat = FetchResolves env ->
    (m < fuel)%nat ->
    let r := pollTrainingStatus fuel jid fetches k cs w in
    exists cs',
      fst r = Some cs'
      /\ isTraining cs' = false
      /\ trainingProgress cs' = Job.progress job
      /\ (Job.status job = completed ->
          trainingStatus cs' = "Training completed successfully!"
          /\ client_error cs' = client_error cs)
      /\ (Job.status job ≠ completed ->
          client_error cs'
          = js_or_default (Job.error_message job)
              ("Training " ++ JobStatus_to_string (Job.status job)))
      /\ jobs (snd r) = jobs w /\ models (snd r) = models w.
Proof.
  induction m as [|m IH];
    intros fuel jid fetches k cs w job env Hid Hjob Hterm Hrej Hres Hfuel;
    (destruct fuel as [|fuel]; [lia|]); cbn [pollTrainingStatus].
  - rewrite Nat.add_0_r in Hres. rewrite Hres. unfold poll_turn.
    rewrite (poll_terminal w jid job env Hid Hjob Hterm).
    cbn [ok_with http_status success data Nat.leb andb d_status d_progress
         d_error_message].
    destruct (Job.status job) eqn:Hs; try discriminate; cbn [fst snd];
      eexists; (split; [reflexivity|]); cbn;
      repeat split; try reflexivity; try discriminate;
      try (intros Hn; now contradiction Hn).
  - assert (Hk : fetches k = FetchRejects)
      by (rewrite <- (Nat.add_0_r k); apply Hrej; lia).
    rewrite Hk. cbn [poll_turn].
    destruct (IH fuel jid fetches (S k) cs
                (emit (ConsoleError "Polling error:") w) job env)
      as (cs' & Hr & Hrest); try assumption.
    + intros i Hi. replace (S k + i)%nat with (k + S i)%nat by lia.
      apply Hrej. lia.
    + replace (S k + m)%nat with (k + S m)%nat by lia. assumption.
    + lia.
    + exists cs'. split; [exact Hr|]. exact Hrest.
Qed.

Lemma client_loop_ends_on_terminal_witness :
  let w := step (Demo.poll (GetOk Replicate.failed None OutAbsent
                              (Some "out of memory"))) Demo.started in
  let r := pollTrainingStatus 3 "job-1"
             (fun i => match i with
                       | 2%nat => FetchResolves (Demo.at_poll Demo.processing)
                       | _ => FetchRejects
                       end) 0 Stuck.client w in
  exists cs',
    fst r = Some cs'
    /\ isTraining cs' = false
    /\ trainingProgress cs' = 0
    /\ (failed = completed ->
        trainingStatus cs' = "Training completed successfully!"
        /\ client_error cs' = client_error Stuck.client)
    /\ (failed ≠ completed -> client_error cs' = "out of memory")
    /\ jobs (snd r) = jobs w /\ models (snd r) = models w.
Proof.
  intros w r.
  apply (client_loop_ends_on_terminal 2 3 "job-1" _ 0 Stuck.client w
           (Job.apply
              (Job.mkPatch (Some failed) (Some 0) None (Some "out of memory")
                 None None None None) Demo.started_job)
           (Demo.at_poll Demo.processing));
    try reflexivity; try discriminate; try lia.
  intros [|[|i]] Hi; try reflexivity; lia.
Defined.

Lemma elapsed_at_le (ticks : nat -> Tick) (i k : nat) :
  (i <= k)%nat -> (elapsed_at ticks i <= elapsed_at ticks k)%N.
Proof.
  induction 1 as [|k Hle IH]; [lia|]. cbn [elapsed_at]. lia.
Qed.

Lemma wait_loop_first_success (tid : string) (ticks : nat -> Tick) (k : nat)
    (logs err : option string) (out : Output) :
  (forall i, (i < k)%nat -> waiting (tick_reply (ticks i))) ->
  tick_reply (ticks k) = GetOk Replicate.succeeded logs out err ->
  (elapsed_at ticks k < maxWaitTime)%N ->
  forall (d i fuel : nat) (w : World),
    (i + d = k)%nat -> (d < fuel)%nat ->
    let r := wait_loop fuel tid ticks i (elapsed_at ticks i) w in
    exists o,
      fst r = Some o
      /\ out_success o = true
      /\ out_replicate_training_id o = Some tid
      /\ out_lora_weights_url o = fst (extract_output out)
      /\ out_sample_images o = Some (snd (extract_output out))
      /\ polls_made (log (snd r)) = (polls_made (log w) + d + 1)%nat.
Proof.
  intros Hwait Hk Hlt. induction d as [|d IH]; intros i fuel w Hi Hfuel;
    (destruct fuel as [|fuel]; [lia|]); cbn [wait_loop];
    pose proof (elapsed_at_le ticks i k ltac:(lia)) as Hle;
    rewrite (proj2 (N.ltb_lt _ _)) by lia.
  - replace i with k by lia. rewrite Hk.
    cbn [checkTrainingStatus st_status st_output].
    destruct (extract_output out) as [url imgs]. cbn [fst snd].
    eexists. split; [reflexivity|]. cbn. repeat split; lia.
  - specialize (Hwait i ltac:(lia)). unfold waiting in Hwait.
    destruct (tick_reply (ticks i)) as [s l o e | ?]; [|contradiction].
    cbn [checkTrainingStatus st_status].
    destruct s; try contradiction;
      (destruct (IH (S i) fuel (emit (TrainingsGet tid) w))
         as (o' & Ho & Hs & Ht & Hu & Him & Hp); [lia | lia |];
       exists o'; cbn [elapsed_at] in Ho, Hp; rewrite Ho;
       repeat split; try assumption;
       rewrite Hp; cbn [log emit polls_made]; lia).
Qed.

(** X15. waitForTrainingCompletion returns at the first status check on
    which the provider reports succeeded, provided the 30 minutes have not
    elapsed by then: after [k] checks that found the training still
    running it makes exactly one more, and returns success with the weights
    url and the sample images found in the provider's output. *)
Theorem wait_returns_first_success (tid : string) (ticks : nat -> Tick)
    (w : World) (k fuel : nat) (logs err : option string) (out : Output) :
  (forall i, (i < k)%nat -> waiting (tick_reply (ticks i))) ->
  tick_reply (ticks k) = GetOk Replicate.succeeded logs out err ->
  (elapsed_at ticks k < maxWaitTime)%N ->
  (k < fuel)%nat ->
  let r := waitForTrainingCompletion fuel tid ticks w in
  exists o,
    fst r = Some o
    /\ out_success o = true
    /\ out_replicate_training_id o = Some tid
    /\ out_lora_weights_url o = fst (extract_output out)
    /\ out_sample_images o = Some (snd (extract_output out))
    /\ polls_made (log (snd r)) = (polls_made (log w) + k + 1)%nat.
Proof.
  intros Hwait Hk Hlt Hfuel. unfold waitForTrainingCompletion.
  apply (wait_loop_first_success tid ticks k logs err out Hwait Hk Hlt
           k 0%nat fuel w); lia.
Qed.

Lemma wait_returns_first_success_witness :
  let r := waitForTrainingCompletion 4 "trn-1" Quick.ticks (initial ∅) in
  exists o,
    fst r = Some o
    /\ out_success o = true
    /\ out_replicate_training_id o = Some "trn-1"
    /\ out_lora_weights_url o = Some "https://x/y.safetensors"
    /\ out_sample_images o = Some []
    /\ polls_made (log (snd r)) = (0 + 3 + 1)%nat.
Proof.
  apply (wait_returns_first_success "trn-1" Quick.ticks (initial ∅) 3 4
           None None Scenario.weights).
  - intros [|[|[|i]]] Hi; try exact I; lia.
  - reflexivity.
  - vm_compute. reflexivity.
  - lia.
Defined.
